(** * SchoolSense: receipt intake, duplicate scoring and review workflow

    A shallow embedding of the decision logic of the SchoolSense front end:

    - [src/types.ts]                   the data model;
    - [src/components/Upload.tsx]      the intake orchestrator and the
                                       duplicate scorer ([duplicateMatches],
                                       [handleProcess], [reset]);
    - [src/services/geminiService.ts]  [searchMarketPriceStreaming];
    - [App.tsx] ([src/unnamed/part_002])
                                       [handleUpdatePurchase],
                                       [handleUploadComplete];
    - [components/Review.tsx] ([src/unnamed/part_003])
                                       [handleAction], [handleReject];
    - [src/components/ReviewQueue.tsx], [src/components/Dashboard.tsx],
      [src/components/MySubmissions.tsx], [src/components/AuditLog.tsx]
                                       the lists and counters that read the
                                       purchases;
    - [services/firebase.ts] ([src/unnamed/part_000]) and [constants.tsx]
      ([src/unnamed/part_001])         the receipt storage and the demo
                                       accounts.

    React state is threaded explicitly: every handler is a function from the
    component state to the component state, and every [await] of an external
    collaborator (the inference provider, the document database) is a
    parameter carrying what the collaborator answered. *)

From Stdlib Require Import ZArith QArith Qround Qabs Qminmax Qpower Qreduction.
From Stdlib Require Import Bool List Lia Lqa.
From Stdlib Require Import Permutation.
From Stdlib Require Import Ascii String DecimalString.
Import ListNotations.

Local Open Scope string_scope.
Local Open Scope Z_scope.

(* ================================================================= *)
(** ** Host values *)

(** A JavaScript [number].  A finite value is kept as the rational it
    denotes, and [NaN] stands for the not-a-number value, which is also what
    [undefined] becomes in every arithmetic operation and comparison used
    below.  The arithmetic on amounts of money goes through [JS.fsub],
    [JS.fmul] and [JS.fdiv], which round the exact result to the nearest
    double as the host does; [JS.sub] and [JS.div] are exact and serve the
    time values, integers of milliseconds on which the comparison with the
    60-day window comes out the same.  Infinities, signed zeros and the
    subnormal range are not modelled. *)
Inductive number : Type :=
| Num (q : Q)
| NaN.

Module JS.

Definition sub (a b : number) : number :=
  match a, b with
  | Num x, Num y => Num (x - y)
  | _, _ => NaN
  end.

(** Division.  Infinities are not modelled: the only divisor in the source
    is a constant other than zero. *)
Definition div (a b : number) : number :=
  match a, b with
  | Num x, Num y => if Qeq_bool y 0 then NaN else Num (x / y)
  | _, _ => NaN
  end.

(** [2^e] *)
Definition pow2 (e : Z) : Q := Qpower 2 e.

(** The integer nearest to [y], the even one of the two when [y] lies half
    way. *)
Definition nearestEven (y : Q) : Z :=
  let f := Qfloor y in
  match ((y - inject_Z f) ?= (1 # 2))%Q with
  | Lt => f
  | Gt => f + 1
  | Eq => if Z.even f then f else f + 1
  end.

(** For [a > 0], the exponent [e] with [2^52 <= a / 2^e < 2^53]: the
    quotient of the binary logarithms is off by at most one. *)
Definition exponent (a : Q) : Z :=
  let e0 := Z.log2 (Qnum a) - Z.log2 (Zpos (Qden a)) - 52 in
  if Qle_bool (pow2 52) (a * pow2 (- e0)) then e0 else e0 - 1.

(** The double nearest to [x]: a significand of 53 bits, ties to the even
    significand (the rounding of IEEE 754 binary64, with an exponent that
    is not bounded). *)
Definition double (x : Q) : Q :=
  if Qeq_bool x 0 then 0%Q
  else
    let e := exponent (Qabs x) in
    let m := nearestEven (Qabs x * pow2 (- e)) in
    Qred ((if Qle_bool 0 x then 1 else - (1)) * inject_Z m * pow2 e)%Q.

(** [a - b] on doubles *)
Definition fsub (a b : number) : number :=
  match a, b with
  | Num x, Num y => Num (double (x - y))
  | _, _ => NaN
  end.

(** [a * b] on doubles *)
Definition fmul (a b : number) : number :=
  match a, b with
  | Num x, Num y => Num (double (x * y))
  | _, _ => NaN
  end.

(** [a / b] on doubles, for a divisor other than zero. *)
Definition fdiv (a b : number) : number :=
  match a, b with
  | Num x, Num y => if Qeq_bool y 0 then NaN else Num (double (x / y))
  | _, _ => NaN
  end.

(** A decimal literal of the source, as the double it denotes. *)
Definition literal (q : Q) : number := Num (double q).

(** [Math.abs] *)
Definition abs (a : number) : number :=
  match a with
  | Num x => Num (Qabs x)
  | NaN => NaN
  end.

(** [a <= b]: false as soon as one side is [NaN]. *)
Definition le (a b : number) : bool :=
  match a, b with
  | Num x, Num y => Qle_bool x y
  | _, _ => false
  end.

(** [a > b] *)
Definition gt (a b : number) : bool :=
  match a, b with
  | Num x, Num y => negb (Qle_bool x y)
  | _, _ => false
  end.

(** Truthiness of a number: [0] and [NaN] are falsy. *)
Definition truthy (a : number) : bool :=
  match a with
  | Num x => negb (Qeq_bool x 0)
  | NaN => false
  end.

(** [a || d] on numbers. *)
Definition or_else (a d : number) : number :=
  if truthy a then a else d.

(** [Math.round]: the nearest integer, halves rounded up. *)
Definition round (a : number) : number :=
  match a with
  | Num x => Num (inject_Z (Qfloor (x + (1 # 2))))
  | NaN => NaN
  end.

(** Template-literal rendering of a number that holds an integer. *)
Definition show (a : number) : string :=
  match a with
  | Num x => NilZero.string_of_int (Z.to_int (Qfloor x))
  | NaN => "NaN"
  end.

(** [s || d] on strings: the empty string is falsy. *)
Definition str_or (s d : string) : string :=
  match s with
  | EmptyString => d
  | _ => s
  end.

Definition lower_ascii (c : ascii) : ascii :=
  let n := nat_of_ascii c in
  if (Nat.leb 65 n && Nat.leb n 90)%bool then ascii_of_nat (n + 32) else c.

(** [String.prototype.toLowerCase], on the ASCII range. *)
Fixpoint toLowerCase (s : string) : string :=
  match s with
  | EmptyString => EmptyString
  | String c t => String (lower_ascii c) (toLowerCase t)
  end.

(** White space in the sense of [trim], on the ASCII range:
    tab, line feed, vertical tab, form feed, carriage return, space. *)
Definition is_space (c : ascii) : bool :=
  let n := nat_of_ascii c in
  ((Nat.leb 9 n && Nat.leb n 13) || Nat.eqb n 32)%bool.

Fixpoint trimStart (s : string) : string :=
  match s with
  | EmptyString => EmptyString
  | String c t => if is_space c then trimStart t else s
  end.

(** Drops the trailing white space: a character is kept when it is not a
    space or when something is kept after it. *)
Fixpoint trimEnd (s : string) : string :=
  match s with
  | EmptyString => EmptyString
  | String c t =>
      match trimEnd t with
      | EmptyString => if is_space c then EmptyString else String c EmptyString
      | t' => String c t'
      end
  end.

(** [String.prototype.trim] *)
Definition trim (s : string) : string := trimEnd (trimStart s).

End JS.

Definition of_Z (z : Z) : number := Num (inject_Z z).

(* ================================================================= *)
(** ** Data model ([src/types.ts]) *)

Inductive UserRole : Type := SUBMITTER | REVIEWER | VIEWER.

Record User : Type := mkUser {
  user_id : string;
  user_name : string;
  user_email : string;
  user_role : UserRole;
  user_organization : string;
  user_avatar : option string
}.

Inductive FlagType : Type :=
| DUPLICATE | PRICE_ANOMALY | RENEWAL | UNUSUAL_ITEM | MARKET_DEVIATION
| ZOMBIE_SPEND | WASTE | POLICY_VIOLATION | INSUFFICIENT_DOCS | UNAUTHORIZED
| FRAUD_SUSPECTED | BUDGET_EXCEEDED | OTHER.

Inductive ReviewStatus : Type :=
| PENDING | VALIDATED | RESOLVED | FLAGGED | REJECTED.

Definition UserRole_eqb (a b : UserRole) : bool :=
  match a, b with
  | SUBMITTER, SUBMITTER | REVIEWER, REVIEWER | VIEWER, VIEWER => true
  | _, _ => false
  end.

Definition FlagType_eq_dec (a b : FlagType) : {a = b} + {a <> b}.
Proof. decide equality. Defined.

Definition ReviewStatus_eq_dec (a b : ReviewStatus) : {a = b} + {a <> b}.
Proof. decide equality. Defined.

(** [Flag].  The intake path fills [type] with [f.type as FlagType], a cast
    that is erased at run time, so the field holds the provider's string. *)
Record Flag : Type := mkFlag {
  flag_type : string;
  flag_reason : string;
  flag_context : option string
}.

Record PurchaseDocument : Type := mkPurchase {
  id : string;
  vendor : string;
  date : string;
  amount : number;
  description : string;
  category : string;
  flags : list Flag;
  status : ReviewStatus;
  fileUrl : option string;
  department : string;
  submittedBy : string;
  aiConfidence : option number;
  suggestedGlCode : option string;
  marketPriceEstimate : option number;
  isSubscription : option bool;
  rejectionFlags : option (list FlagType);
  rejectionNotes : option string;
  rejectedBy : option string;
  rejectedAt : option string
}.

(** [ExtractionResult] ([src/services/geminiService.ts]). *)
Record ExtractedFlag : Type := mkExtractedFlag {
  xf_type : string;
  xf_reason : string;
  xf_context : string
}.

Record ExtractionResult : Type := mkExtraction {
  x_vendor : string;
  x_amount : number;
  x_date : string;
  x_description : string;
  x_category : string;
  x_confidence : number;
  x_suggestedGlCode : string;
  x_marketPriceEstimate : option number;
  x_isSubscription : option bool;
  x_flags : list ExtractedFlag
}.

(* ================================================================= *)
(** ** Dates *)

(** [new Date(s).getTime()] for the date-only ISO form [YYYY-MM-DD], which
    the host reads as midnight UTC: milliseconds since the epoch, [NaN] for
    anything else.  This is the form the application itself writes
    ([toISOString().split('T')[0]]).  The scorer below is parametric in the
    host's parser; this instance is what the examples run on. *)
Module IsoDate.

Definition digit (c : ascii) : option Z :=
  let n := nat_of_ascii c in
  if (Nat.leb 48 n && Nat.leb n 57)%bool then Some (Z.of_nat (n - 48)) else None.

Definition num2 (a b : ascii) :=
  match digit a, digit b with
  | Some x, Some y => Some (10 * x + y)
  | _, _ => None
  end.

Definition num4 (a b c d : ascii) :=
  match num2 a b, num2 c d with
  | Some x, Some y => Some (100 * x + y)
  | _, _ => None
  end.

Definition leap (y : Z) : bool :=
  ((y mod 4 =? 0) && (negb (y mod 100 =? 0) || (y mod 400 =? 0)))%bool.

Definition days_in_month (y m : Z) : Z :=
  if m =? 2 then (if leap y then 29 else 28)
  else if (m =? 4) || (m =? 6) || (m =? 9) || (m =? 11) then 30
  else 31.

(** Days from 1970-01-01 to the civil date [y-m-d]. *)
Definition days_from_civil (y m d : Z) : Z :=
  let y' := if m <=? 2 then y - 1 else y in
  let era := y' / 400 in
  let yoe := y' - era * 400 in
  let mp := (m + 9) mod 12 in
  let doy := (153 * mp + 2) / 5 + d - 1 in
  let doe := yoe * 365 + yoe / 4 - yoe / 100 + doy in
  era * 146097 + doe - 719468.

Definition getTime (s : string) : number :=
  match s with
  | String y1 (String y2 (String y3 (String y4 (String "-"
    (String m1 (String m2 (String "-"
    (String d1 (String d2 EmptyString))))))))) =>
      match num4 y1 y2 y3 y4, num2 m1 m2, num2 d1 d2 with
      | Some y, Some m, Some d =>
          if ((1 <=? m) && (m <=? 12) && (1 <=? d) && (d <=? days_in_month y m))%bool
          then of_Z (days_from_civil y m d * 86400000)
          else NaN
      | _, _, _ => NaN
      end
  | _ => NaN
  end.

End IsoDate.

(* ================================================================= *)
(** ** Duplicate scorer ([src/components/Upload.tsx], [duplicateMatches]) *)

Record DuplicateMatch : Type := mkMatch {
  purchase : PurchaseDocument;
  score : Z;
  reasons : list string
}.

(** [matches.sort((a, b) => b.score - a.score)]: the host's sort is stable,
    so it is modelled by a stable insertion sort in descending score. *)
Fixpoint insertByScore (m : DuplicateMatch) (l : list DuplicateMatch) : list DuplicateMatch :=
  match l with
  | [] => [m]
  | h :: t => if score h <=? score m then m :: h :: t else h :: insertByScore m t
  end.

Definition sortByScore (l : list DuplicateMatch) : list DuplicateMatch :=
  fold_right insertByScore [] l.

Section DuplicateScorer.

(** [new Date(s).getTime()] of the host. *)
Variable Date_getTime : string -> number.

Definition DUPLICATE_WINDOW_DAYS : number := of_Z 60.

Definition msPerDay : number := of_Z (1000 * 60 * 60 * 24).

(** [purchase.vendor.toLowerCase() === result.vendor.toLowerCase()] *)
Definition vendorMatches (result : ExtractionResult) (p : PurchaseDocument) : bool :=
  String.eqb (JS.toLowerCase (vendor p)) (JS.toLowerCase (x_vendor result)).

(** [Math.abs(purchase.amount - result.amount)] *)
Definition amountDiff (result : ExtractionResult) (p : PurchaseDocument) : number :=
  JS.abs (JS.fsub (amount p) (x_amount result)).

(** [result.amount * 0.01] *)
Definition amountThreshold (result : ExtractionResult) : number :=
  JS.fmul (x_amount result) (JS.literal (1 # 100)).

Definition amountMatches (result : ExtractionResult) (p : PurchaseDocument) : bool :=
  JS.le (amountDiff result p) (amountThreshold result).

(** [Math.abs(purchaseDate - resultDate) / (1000 * 60 * 60 * 24)], on the
    exact quotient: the time values are integers of milliseconds. *)
Definition daysDiff (result : ExtractionResult) (p : PurchaseDocument) : number :=
  let purchaseDate := Date_getTime (date p) in
  let resultDate := Date_getTime (x_date result) in
  JS.abs (JS.div (JS.sub purchaseDate resultDate) msPerDay).

Definition dateMatches (result : ExtractionResult) (p : PurchaseDocument) : bool :=
  JS.le (daysDiff result p) DUPLICATE_WINDOW_DAYS.

(** The three checks of the [forEach] body, accumulating [score] and
    [reasons] in the order of the source. *)
Definition scorePurchase (result : ExtractionResult) (p : PurchaseDocument)
  : Z * list string :=
  let reasons := @nil string in
  let score := 0 in
  let '(score, reasons) :=
    if vendorMatches result p
    then (score + 30, (reasons ++ ["Same vendor"])%list) else (score, reasons) in
  let '(score, reasons) :=
    if amountMatches result p
    then (score + 40, (reasons ++ ["Same amount"])%list) else (score, reasons) in
  let '(score, reasons) :=
    if dateMatches result p
    then (score + 30,
          (reasons ++ [("Within " ++ JS.show (JS.round (daysDiff result p)) ++ " days")%string])%list)
    else (score, reasons) in
  (score, reasons).

(** [score >= 60 && reasons.length >= 2] *)
Definition isPotentialDuplicate (sr : Z * list string) : bool :=
  ((60 <=? fst sr) && (2 <=? Z.of_nat (List.length (snd sr))))%bool.

(** One iteration of [existingPurchases.forEach]. *)
Definition visitPurchase (result : ExtractionResult)
  (matches : list DuplicateMatch) (p : PurchaseDocument) : list DuplicateMatch :=
  let sr := scorePurchase result p in
  if isPotentialDuplicate sr
  then (matches ++ [mkMatch p (fst sr) (snd sr)])%list
  else matches.

Definition duplicateMatches (result : option ExtractionResult)
  (existingPurchases : list PurchaseDocument) : list DuplicateMatch :=
  match result with
  | None => []
  | Some result =>
      sortByScore (fold_left (visitPurchase result) existingPurchases [])
  end.

(** A record is classified as a duplicate match when [duplicateMatches]
    lists it. *)
Definition classified (result : ExtractionResult)
  (existingPurchases : list PurchaseDocument) (p : PurchaseDocument) : Prop :=
  exists m, In m (duplicateMatches (Some result) existingPurchases) /\ purchase m = p.

(** How many of the three checks hold. *)
Definition checksMatched (result : ExtractionResult) (p : PurchaseDocument) : nat :=
  (if vendorMatches result p then 1 else 0)
  + (if amountMatches result p then 1 else 0)
  + (if dateMatches result p then 1 else 0).

End DuplicateScorer.

(* ================================================================= *)
(** ** Persistence adapter *)

(** A key of a [Partial<PurchaseDocument>] that the type marks optional is
    absent, present with the value [undefined], or present with a value. *)
Inductive slot (T : Type) : Type :=
| Absent
| Undefined
| Value (v : T).

Arguments Absent {T}.
Arguments Undefined {T}.
Arguments Value {T} v.

(** [Partial<PurchaseDocument>].  A required key is absent ([None]) or
    carries a value: the object literals of the two callers never give a
    required key the value [undefined]. *)
Record PurchaseUpdate : Type := mkUpdate {
  u_id : option string;
  u_vendor : option string;
  u_date : option string;
  u_amount : option number;
  u_description : option string;
  u_category : option string;
  u_flags : option (list Flag);
  u_status : option ReviewStatus;
  u_fileUrl : slot string;
  u_department : option string;
  u_submittedBy : option string;
  u_aiConfidence : slot number;
  u_suggestedGlCode : slot string;
  u_marketPriceEstimate : slot number;
  u_isSubscription : slot bool;
  u_rejectionFlags : slot (list FlagType);
  u_rejectionNotes : slot string;
  u_rejectedBy : slot string;
  u_rejectedAt : slot string
}.

(** The object literal [{}]. *)
Definition noUpdate : PurchaseUpdate :=
  mkUpdate None None None None None None None None Absent None None
           Absent Absent Absent Absent Absent Absent Absent Absent.

Definition spreadReq {T} (old : T) (new : option T) : T :=
  match new with
  | Some v => v
  | None => old
  end.

Definition spreadOpt {T} (old : option T) (new : slot T) : option T :=
  match new with
  | Absent => old
  | Undefined => None
  | Value v => Some v
  end.

(** [{ ...p, ...updates }]: every own key of [updates] overrides, a key
    that is present with [undefined] included. *)
Definition spread (p : PurchaseDocument) (updates : PurchaseUpdate) : PurchaseDocument := {|
  id := spreadReq (id p) (u_id updates);
  vendor := spreadReq (vendor p) (u_vendor updates);
  date := spreadReq (date p) (u_date updates);
  amount := spreadReq (amount p) (u_amount updates);
  description := spreadReq (description p) (u_description updates);
  category := spreadReq (category p) (u_category updates);
  flags := spreadReq (flags p) (u_flags updates);
  status := spreadReq (status p) (u_status updates);
  fileUrl := spreadOpt (fileUrl p) (u_fileUrl updates);
  department := spreadReq (department p) (u_department updates);
  submittedBy := spreadReq (submittedBy p) (u_submittedBy updates);
  aiConfidence := spreadOpt (aiConfidence p) (u_aiConfidence updates);
  suggestedGlCode := spreadOpt (suggestedGlCode p) (u_suggestedGlCode updates);
  marketPriceEstimate := spreadOpt (marketPriceEstimate p) (u_marketPriceEstimate updates);
  isSubscription := spreadOpt (isSubscription p) (u_isSubscription updates);
  rejectionFlags := spreadOpt (rejectionFlags p) (u_rejectionFlags updates);
  rejectionNotes := spreadOpt (rejectionNotes p) (u_rejectionNotes updates);
  rejectedBy := spreadOpt (rejectedBy p) (u_rejectedBy updates);
  rejectedAt := spreadOpt (rejectedAt p) (u_rejectedAt updates)
|}.

Definition dropUndefined {T} (s : slot T) : slot T :=
  match s with
  | Undefined => Absent
  | _ => s
  end.

(** [Object.fromEntries(Object.entries(updates).filter(([_, value]) =>
    value !== undefined))] *)
Definition cleanedUpdates (updates : PurchaseUpdate) : PurchaseUpdate := {|
  u_id := u_id updates;
  u_vendor := u_vendor updates;
  u_date := u_date updates;
  u_amount := u_amount updates;
  u_description := u_description updates;
  u_category := u_category updates;
  u_flags := u_flags updates;
  u_status := u_status updates;
  u_fileUrl := dropUndefined (u_fileUrl updates);
  u_department := u_department updates;
  u_submittedBy := u_submittedBy updates;
  u_aiConfidence := dropUndefined (u_aiConfidence updates);
  u_suggestedGlCode := dropUndefined (u_suggestedGlCode updates);
  u_marketPriceEstimate := dropUndefined (u_marketPriceEstimate updates);
  u_isSubscription := dropUndefined (u_isSubscription updates);
  u_rejectionFlags := dropUndefined (u_rejectionFlags updates);
  u_rejectionNotes := dropUndefined (u_rejectionNotes updates);
  u_rejectedBy := dropUndefined (u_rejectedBy updates);
  u_rejectedAt := dropUndefined (u_rejectedAt updates)
|}.

(** [Omit<PurchaseDocument, 'id'>] as [handleUploadComplete] builds it:
    exactly the keys of its object literal. *)
Record NewPurchase : Type := mkNewPurchase {
  np_vendor : string;
  np_amount : number;
  np_date : string;
  np_description : string;
  np_category : string;
  np_flags : list Flag;
  np_status : ReviewStatus;
  np_department : string;
  np_submittedBy : string;
  np_aiConfidence : number;
  np_suggestedGlCode : string;
  np_marketPriceEstimate : number;
  np_isSubscription : bool;
  np_fileUrl : string
}.

(** [{ ...newPurchase, id: tempId } as PurchaseDocument] *)
Definition withId (np : NewPurchase) (tempId : string) : PurchaseDocument := {|
  id := tempId;
  vendor := np_vendor np;
  date := np_date np;
  amount := np_amount np;
  description := np_description np;
  category := np_category np;
  flags := np_flags np;
  status := np_status np;
  fileUrl := Some (np_fileUrl np);
  department := np_department np;
  submittedBy := np_submittedBy np;
  aiConfidence := Some (np_aiConfidence np);
  suggestedGlCode := Some (np_suggestedGlCode np);
  marketPriceEstimate := Some (np_marketPriceEstimate np);
  isSubscription := Some (np_isSubscription np);
  rejectionFlags := None;
  rejectionNotes := None;
  rejectedBy := None;
  rejectedAt := None
|}.

(** What the document database answers to a write. *)
Inductive outcome : Type :=
| Fulfilled
| Failed.

(** The writes the application issues. *)
Inductive FirestoreCall : Type :=
| UpdateDoc (docId : string) (data : PurchaseUpdate)
| AddDoc (data : NewPurchase).

(** The store refuses a field whose value is [undefined].  Every key of a
    [NewPurchase] is defined by construction but the amount, where [NaN]
    also stands for a missing value. *)
Definition insertable (np : NewPurchase) : bool :=
  match np_amount np with
  | Num _ => true
  | NaN => false
  end.

(* ================================================================= *)
(** ** Application shell ([App.tsx]) *)

(** The React state of [App] that the handlers below touch, and the log of
    the writes they issued. *)
Record AppState : Type := mkApp {
  currentUser : option User;
  activeTab : string;
  purchases : list PurchaseDocument;
  reviewingId : option string;
  isAdding : bool;
  usingMockData : bool;
  issued : list FirestoreCall
}.

Definition setPurchases (f : list PurchaseDocument -> list PurchaseDocument)
  (st : AppState) : AppState :=
  mkApp (currentUser st) (activeTab st) (f (purchases st)) (reviewingId st)
        (isAdding st) (usingMockData st) (issued st).

Definition setUsingMockData (b : bool) (st : AppState) : AppState :=
  mkApp (currentUser st) (activeTab st) (purchases st) (reviewingId st)
        (isAdding st) b (issued st).

Definition setActiveTab (t : string) (st : AppState) : AppState :=
  mkApp (currentUser st) t (purchases st) (reviewingId st)
        (isAdding st) (usingMockData st) (issued st).

Definition setIsAdding (b : bool) (st : AppState) : AppState :=
  mkApp (currentUser st) (activeTab st) (purchases st) (reviewingId st)
        b (usingMockData st) (issued st).

Definition issue (c : FirestoreCall) (st : AppState) : AppState :=
  mkApp (currentUser st) (activeTab st) (purchases st) (reviewingId st)
        (isAdding st) (usingMockData st) (issued st ++ [c])%list.

(** [purchases.find(p => p.id === reviewingId)] *)
Definition activePurchase (st : AppState) : option PurchaseDocument :=
  match reviewingId st with
  | Some rid => find (fun p => String.eqb (id p) rid) (purchases st)
  | None => None
  end.

(** [handleUpdatePurchase(id, updates)].  [reply] is what [updateDoc]
    answers when it is called. *)
Definition handleUpdatePurchase (reply : outcome) (docId : string)
  (updates : PurchaseUpdate) (st : AppState) : AppState :=
  (* Optimistic update *)
  let st1 :=
    setPurchases (map (fun p => if String.eqb (id p) docId then spread p updates else p)) st in
  if negb (usingMockData st) then
    let st2 := issue (UpdateDoc docId (cleanedUpdates updates)) st1 in
    match reply with
    | Fulfilled => st2
    | Failed =>
        (* catch *)
        if negb (usingMockData st) then setUsingMockData true st2 else st2
    end
  else st1.

(** The sandbox banner of the dashboard and purchases tabs. *)
Definition sandboxBanner (st : AppState) : bool :=
  (usingMockData st
   && (String.eqb (activeTab st) "dashboard" || String.eqb (activeTab st) "purchases"))%bool.

(** What [handleUploadComplete] gets from outside: the answer of
    [uploadReceiptImage] ([None] when it throws), the clock, and the answer
    of [addDoc]. *)
Record UploadEnv : Type := mkEnv {
  storageReply : option string;
  today : string;
  now : Z;
  addDocReply : outcome
}.

Definition userTruthyId (u : option User) : bool :=
  match u with
  | Some u => negb (String.eqb (user_id u) "")
  | None => false
  end.

(** The object literal [newPurchase] of [handleUploadComplete]. *)
Definition newPurchase (data : ExtractionResult) (u : option User)
  (fileUrl : string) (today : string) : NewPurchase := {|
  np_vendor := JS.str_or (x_vendor data) "Unknown Vendor";
  np_amount := JS.or_else (x_amount data) (of_Z 0);
  np_date := JS.str_or (x_date data) today;
  np_description := JS.str_or (x_description data) "No description provided";
  np_category := JS.str_or (x_category data) "General";
  np_flags :=
    map (fun f => mkFlag (xf_type f) (xf_reason f) (Some (xf_context f))) (x_flags data);
  np_status :=
    match x_flags data with
    | [] => PENDING
    | _ :: _ => FLAGGED
    end;
  np_department :=
    JS.str_or (match u with Some u => user_organization u | None => "" end) "General";
  np_submittedBy :=
    JS.str_or (match u with Some u => user_name u | None => "" end) "Anonymous";
  np_aiConfidence := JS.or_else (x_confidence data) (of_Z 0);
  np_suggestedGlCode := JS.str_or (x_suggestedGlCode data) "N/A";
  np_marketPriceEstimate :=
    match x_marketPriceEstimate data with
    | Some n => JS.or_else n (of_Z 0)
    | None => of_Z 0
    end;
  np_isSubscription :=
    match x_isSubscription data with
    | Some b => b
    | None => false
    end;
  np_fileUrl := fileUrl
|}.

(** [handleUploadComplete(data, imageData)] *)
Definition handleUploadComplete (env : UploadEnv) (data : ExtractionResult)
  (st : AppState) : AppState :=
  let fileUrl :=
    if (negb (usingMockData st) && userTruthyId (currentUser st))%bool
    then match storageReply env with
         | Some url => url
         | None => ""
         end
    else "" in
  let np := newPurchase data (currentUser st) fileUrl (today env) in
  let tempId := "uploading-" ++ JS.show (of_Z (now env)) in
  let st1 := setPurchases (fun prev => withId np tempId :: prev) st in
  let st2 :=
    if negb (usingMockData st) then
      let st' := issue (AddDoc np) st1 in
      match addDocReply env with
      | Fulfilled => st'
      | Failed => setUsingMockData true st'
      end
    else st1 in
  setActiveTab "dashboard" (setIsAdding false st2).

(* ================================================================= *)
(** ** Review screen ([components/Review.tsx]) *)

Record ReviewProps : Type := mkReviewProps {
  item : PurchaseDocument;
  user : User
}.

(** The local state of the screen that the handlers touch; the field
    [rv_rejectionNotes] is the text of the notes box. *)
Record ReviewState : Type := mkReview {
  rv_isResolving : bool;
  rv_showRejectModal : bool;
  rv_selectedRejectionFlags : list FlagType;
  rv_rejectionNotes : string
}.

Definition isReviewer (props : ReviewProps) : bool :=
  UserRole_eqb (user_role (user props)) REVIEWER.

Definition includes (l : list FlagType) (f : FlagType) : bool :=
  existsb (fun g => if FlagType_eq_dec g f then true else false) l.

(** [toggleRejectionFlag] *)
Definition toggleRejectionFlag (flagType : FlagType) (rs : ReviewState) : ReviewState :=
  let prev := rv_selectedRejectionFlags rs in
  mkReview (rv_isResolving rs) (rv_showRejectModal rs)
    (if includes prev flagType
     then filter (fun f => if FlagType_eq_dec f flagType then false else true) prev
     else (prev ++ [flagType])%list)
    (rv_rejectionNotes rs).

(** [openRejectModal] *)
Definition openRejectModal (rs : ReviewState) : ReviewState :=
  mkReview (rv_isResolving rs) true [] "".

(** The text box of the notes. *)
Definition setRejectionNotes (s : string) (rs : ReviewState) : ReviewState :=
  mkReview (rv_isResolving rs) (rv_showRejectModal rs) (rv_selectedRejectionFlags rs) s.

(** The update [{ status }] of [handleAction]. *)
Definition statusUpdate (s : ReviewStatus) : PurchaseUpdate :=
  mkUpdate None None None None None None None (Some s) Absent None None
           Absent Absent Absent Absent Absent Absent Absent Absent.

(** [handleAction(status)]; [onUpdate] is [handleUpdatePurchase] and
    [onBack] is [() => setActiveTab('dashboard')]. *)
Definition handleAction (props : ReviewProps) (s : ReviewStatus) (reply : outcome)
  (w : AppState * ReviewState) : AppState * ReviewState :=
  let '(st, rs) := w in
  if negb (isReviewer props) then (st, rs)
  else
    let st1 := handleUpdatePurchase reply (id (item props)) (statusUpdate s) st in
    let rs1 := mkReview false (rv_showRejectModal rs)
                 (rv_selectedRejectionFlags rs) (rv_rejectionNotes rs) in
    (setActiveTab "dashboard" st1, rs1).

(** [rejectionNotes.trim() || undefined] *)
Definition notesSlot (notes : string) : slot string :=
  match JS.trim notes with
  | EmptyString => Undefined
  | s => Value s
  end.

(** The update of [handleReject]; [nowIso] is [new Date().toISOString()]. *)
Definition rejectUpdate (props : ReviewProps) (rs : ReviewState) (nowIso : string)
  : PurchaseUpdate :=
  mkUpdate None None None None None None None (Some REJECTED) Absent None None
           Absent Absent Absent Absent
           (Value (rv_selectedRejectionFlags rs))
           (notesSlot (rv_rejectionNotes rs))
           (Value (user_name (user props)))
           (Value nowIso).

(** [handleReject()] *)
Definition handleReject (props : ReviewProps) (nowIso : string) (reply : outcome)
  (w : AppState * ReviewState) : AppState * ReviewState :=
  let '(st, rs) := w in
  if (negb (isReviewer props)
      || Nat.eqb (List.length (rv_selectedRejectionFlags rs)) 0)%bool
  then (st, rs)
  else
    let st1 := handleUpdatePurchase reply (id (item props)) (rejectUpdate props rs nowIso) st in
    let rs1 := mkReview false false
                 (rv_selectedRejectionFlags rs) (rv_rejectionNotes rs) in
    (setActiveTab "dashboard" st1, rs1).

(** The three reviewer actions of the workflow. *)
Inductive ReviewAction : Type :=
| Approve
| Resolve
| Reject (nowIso : string).

Definition perform (props : ReviewProps) (a : ReviewAction) (reply : outcome)
  (w : AppState * ReviewState) : AppState * ReviewState :=
  match a with
  | Approve => handleAction props VALIDATED reply w
  | Resolve => handleAction props RESOLVED reply w
  | Reject nowIso => handleReject props nowIso reply w
  end.

Definition terminal (s : ReviewStatus) : bool :=
  match s with
  | VALIDATED | RESOLVED | REJECTED => true
  | PENDING | FLAGGED => false
  end.

(** The record [docId] in the local list. *)
Definition lookup (docId : string) (st : AppState) : option PurchaseDocument :=
  find (fun p => String.eqb (id p) docId) (purchases st).

(** The status of the record [docId] in the local list. *)
Definition statusOf (docId : string) (st : AppState) : option ReviewStatus :=
  option_map status (lookup docId st).

(** Whether any of the four rejection metadata fields is set. *)
Definition anyRejectionMetadata (p : PurchaseDocument) : bool :=
  match rejectionFlags p, rejectionNotes p, rejectedBy p, rejectedAt p with
  | None, None, None, None => false
  | _, _, _, _ => true
  end.

(** Whether all four are set. *)
Definition allRejectionMetadata (p : PurchaseDocument) : bool :=
  match rejectionFlags p, rejectionNotes p, rejectedBy p, rejectedAt p with
  | Some _, Some _, Some _, Some _ => true
  | _, _, _, _ => false
  end.

(* ================================================================= *)
(** ** Market price search ([src/services/geminiService.ts]) *)

Record Source : Type := mkSource {
  src_title : string;
  src_url : string
}.

Record MarketPriceResult : Type := mkMarketPrice {
  averagePrice : option number;
  priceRange : option (number * number);
  mp_sources : list Source;
  mp_confidence : number;
  searchQuery : string;
  mp_reasoning : string
}.

Inductive Stage : Type :=
| starting | searching | found_price | analyzing | complete.

Record SearchProgressUpdate : Type := mkProgress {
  stage : Stage;
  detail : option string;
  sp_sources : option (list Source);
  foundPrices : option (list (string * number))
}.

(** The object that [JSON.parse] returns for the provider's text, read at
    the four keys of the code; a missing number is [NaN], a missing string
    is empty.  The call passes no response schema, so the value at
    [averagePrice] need not be a number: [pj_averagePrice] is that value
    when it is a number, and [NaN] when it is missing or falsy;
    [SearchJsonUntyped] below covers what is left.  The other three keys
    are read as the types of [MarketPriceResult] have them. *)
Record PriceJson : Type := mkPriceJson {
  pj_averagePrice : number;
  pj_priceRange : option (number * number);
  pj_confidence : number;
  pj_reasoning : string
}.

(** What the grounded search call comes back with. *)
Inductive SearchReply : Type :=
| SearchThrows
    (** [generateContent] rejects, or [JSON.parse] throws *)
| SearchNoText
    (** the response carries no text *)
| SearchJson (result : PriceJson) (sources : list Source)
    (** the response carries JSON text *)
| SearchJsonUntyped (converted : number) (result : PriceJson) (sources : list Source)
    (** the same, where the JSON holds at [averagePrice] a truthy value
        that is not a number (a string that is not empty, [true], an array,
        an object); [converted] is what the host's [Number(...)] makes of
        that value: [NaN] for ["N/A"], [0] for ["0"] *).

Definition dquote : string := String (ascii_of_nat 34) EmptyString.

(** The progress update that [searchMarketPriceStreaming] emits before its
    first [await]. *)
Definition searchStarted (itemName : string) : SearchProgressUpdate :=
  mkProgress searching
    (Some ("Searching for " ++ dquote ++ itemName ++ dquote ++ "..."))
    None None.

(** [searchMarketPriceStreaming] from the provider's reply on: the progress
    updates it emits and the value its promise resolves to.  The promise
    never rejects: the [catch] turns every failure into [null].  The price
    shown in [foundPrices] is kept as a number. *)
Definition searchMarketPriceStreaming (itemName : string) (reply : SearchReply)
  : list SearchProgressUpdate * option MarketPriceResult :=
  match reply with
  | SearchJson result sources =>
      ([mkProgress complete
          (Some (JS.str_or (pj_reasoning result) "Search complete"))
          (Some sources)
          (Some (if JS.truthy (pj_averagePrice result)
                 then [("Market Average", pj_averagePrice result)]
                 else []))],
       Some {|
         averagePrice :=
           if JS.truthy (pj_averagePrice result) then Some (pj_averagePrice result) else None;
         priceRange := pj_priceRange result;
         mp_confidence := JS.or_else (pj_confidence result) (of_Z 50);
         mp_reasoning := JS.str_or (pj_reasoning result) "Price search complete";
         mp_sources := sources;
         searchQuery := itemName
       |})
  | SearchJsonUntyped converted result sources =>
      ([mkProgress complete
          (Some (JS.str_or (pj_reasoning result) "Search complete"))
          (Some sources)
          (Some [("Market Average", converted)])],
       Some {|
         averagePrice := Some converted;
         priceRange := pj_priceRange result;
         mp_confidence := JS.or_else (pj_confidence result) (of_Z 50);
         mp_reasoning := JS.str_or (pj_reasoning result) "Price search complete";
         mp_sources := sources;
         searchQuery := itemName
       |})
  | SearchNoText => ([], None)
  | SearchThrows => ([mkProgress complete (Some "Search failed") None None], None)
  end.

(* ================================================================= *)
(** ** Intake orchestrator ([src/components/Upload.tsx]) *)

Record Normalized : Type := mkNormalized {
  normalizedId : string;
  itemName : string;
  nz_confidence : number
}.

Record PriceIntelligence : Type := mkPI {
  pi_normalizedId : string;
  pi_itemName : string;
  pi_confidence : number;
  stateAverage : option number;
  savingsOpportunity : option number;
  pi_sources : option (list Source);
  pi_priceRange : option (number * number);
  searchConfidence : option number;
  pi_reasoning : option string
}.

Record CommitmentData : Type := mkCommitment {
  isRecurring : bool;
  renewalDate : option string;
  cancellationDeadline : option string;
  escalationClause : option string
}.

Record UploadState : Type := mkUpload {
  up_file : option string;
  up_isProcessing : bool;
  up_preview : option string;
  up_result : option ExtractionResult;
  up_showDuplicateWarning : bool;
  up_priceIntelligence : option PriceIntelligence;
  up_priceSearching : bool;
  up_searchProgress : option SearchProgressUpdate;
  up_commitmentData : option CommitmentData
}.

(** The state of a freshly mounted screen. *)
Definition initialUpload : UploadState :=
  mkUpload None false None None false None false None None.

Definition setPriceIntelligence (v : option PriceIntelligence) (s : UploadState) :=
  mkUpload (up_file s) (up_isProcessing s) (up_preview s) (up_result s)
    (up_showDuplicateWarning s) v (up_priceSearching s) (up_searchProgress s)
    (up_commitmentData s).

Definition setPriceSearching (v : bool) (s : UploadState) :=
  mkUpload (up_file s) (up_isProcessing s) (up_preview s) (up_result s)
    (up_showDuplicateWarning s) (up_priceIntelligence s) v (up_searchProgress s)
    (up_commitmentData s).

Definition setSearchProgress (v : option SearchProgressUpdate) (s : UploadState) :=
  mkUpload (up_file s) (up_isProcessing s) (up_preview s) (up_result s)
    (up_showDuplicateWarning s) (up_priceIntelligence s) (up_priceSearching s) v
    (up_commitmentData s).

Definition setCommitmentData (v : option CommitmentData) (s : UploadState) :=
  mkUpload (up_file s) (up_isProcessing s) (up_preview s) (up_result s)
    (up_showDuplicateWarning s) (up_priceIntelligence s) (up_priceSearching s)
    (up_searchProgress s) v.

(** [reset] *)
Definition reset (s : UploadState) : UploadState :=
  mkUpload None (up_isProcessing s) None None false None false None None.

(** What an awaited call settles to. *)
Inductive settled (T : Type) : Type :=
| Resolved (v : T)
| Threw.

Arguments Resolved {T} v.
Arguments Threw {T}.

(** [savingsOpportunity > 0 ? savingsOpportunity : undefined] *)
Definition positive (n : number) : option number :=
  if JS.gt n (of_Z 0) then Some n else None.

(** [{ ...normalized, stateAverage: undefined, savingsOpportunity: undefined }] *)
Definition itemOnly (normalized : Normalized) : PriceIntelligence :=
  mkPI (normalizedId normalized) (itemName normalized) (nz_confidence normalized)
       None None None None None None.

(** The price branch of [handleProcess] from the settlement of
    [searchMarketPriceStreaming] on: the [try] body, the [catch] with the
    fallback to the extraction's own estimate, and the [finally]. *)
Definition afterSearch (extractedData : ExtractionResult) (normalized : Normalized)
  (r : settled (option MarketPriceResult)) (s : UploadState) : UploadState :=
  let s1 :=
    match r with
    | Resolved (Some marketPrice) =>
        match averagePrice marketPrice with
        | Some avg =>
            let savings := JS.fsub (x_amount extractedData) avg in
            setPriceIntelligence (Some {|
              pi_normalizedId := normalizedId normalized;
              pi_itemName := itemName normalized;
              pi_confidence := nz_confidence normalized;
              stateAverage := Some avg;
              savingsOpportunity := positive savings;
              pi_sources := Some (mp_sources marketPrice);
              pi_priceRange := priceRange marketPrice;
              searchConfidence := Some (mp_confidence marketPrice);
              pi_reasoning := Some (mp_reasoning marketPrice)
            |}) s
        | None => s
        end
    | Resolved None => s
    | Threw =>
        (* Fallback to the market estimate of the extraction if available *)
        match x_marketPriceEstimate extractedData with
        | Some est =>
            if JS.truthy est then
              let savings := JS.fsub (x_amount extractedData) est in
              setPriceIntelligence (Some {|
                pi_normalizedId := normalizedId normalized;
                pi_itemName := itemName normalized;
                pi_confidence := nz_confidence normalized;
                stateAverage := Some est;
                savingsOpportunity := positive savings;
                pi_sources := None;
                pi_priceRange := None;
                searchConfidence := None;
                pi_reasoning := None
              |}) s
            else s
        | None => s
        end
    end in
  setSearchProgress None (setPriceSearching false s1).

(** A call that [handleProcess] has issued and not yet seen settle, with
    the values its continuation closes over. *)
Inductive Pending : Type :=
| PAnalyze
| PNormalize (extractedData : ExtractionResult)
| PSearch (extractedData : ExtractionResult) (normalized : Normalized)
| PCommitments (extractedData : ExtractionResult).

(** The screen together with its outstanding calls. *)
Record Session : Type := mkSession {
  ui : UploadState;
  inflight : list Pending
}.

(** What arrives for an outstanding call. *)
Inductive Arrival : Type :=
| Analysis (r : option ExtractionResult)
| Normalization (r : settled (option Normalized))
| SearchResult (reply : SearchReply)
| Commitments (r : settled (option CommitmentData)).

Inductive UploadEvent : Type :=
| FileLoaded (name dataUrl : string)
    (** a file was chosen and its preview read *)
| ClickProcess
| ClickReset
| Arrive (k : nat) (a : Arrival)
    (** the [k]-th outstanding call settles *)
.

Fixpoint removeNth {A} (k : nat) (l : list A) : list A :=
  match k, l with
  | _, [] => []
  | O, _ :: t => t
  | S k, h :: t => h :: removeNth k t
  end.

(** [handleFileChange], with the [onloadend] of the reader. *)
Definition handleFileChange (name dataUrl : string) (s : UploadState) : UploadState :=
  mkUpload (Some name) (up_isProcessing s) (Some dataUrl) None
    (up_showDuplicateWarning s) (up_priceIntelligence s) (up_priceSearching s)
    (up_searchProgress s) (up_commitmentData s).

(** [handleProcess] up to [await analyzeReceipt(base64)]. *)
Definition handleProcess (ss : Session) : Session :=
  match up_preview (ui ss) with
  | None => ss
  | Some _ =>
      let s := ui ss in
      mkSession
        (mkUpload (up_file s) true (up_preview s) (up_result s) false None
           (up_priceSearching s) (up_searchProgress s) None)
        (inflight ss ++ [PAnalyze])%list
  end.

(** [handleProcess] after [analyzeReceipt] settled: the result is shown and
    the two enrichment calls are issued together. *)
Definition afterAnalyze (r : option ExtractionResult) (ss : Session) : Session :=
  let s := ui ss in
  match r with
  | Some extractedData =>
      mkSession
        (mkUpload (up_file s) false (up_preview s) (Some extractedData)
           (up_showDuplicateWarning s) (up_priceIntelligence s) (up_priceSearching s)
           (up_searchProgress s) (up_commitmentData s))
        (inflight ss ++ [PNormalize extractedData; PCommitments extractedData])%list
  | None =>
      mkSession
        (mkUpload (up_file s) false (up_preview s) (up_result s)
           (up_showDuplicateWarning s) (up_priceIntelligence s) (up_priceSearching s)
           (up_searchProgress s) (up_commitmentData s))
        (inflight ss)
  end.

(** The price branch after [normalizeItemForPricing] settled: the item name
    is shown and the streaming search is issued; its first progress update
    is emitted before it suspends. *)
Definition afterNormalize (extractedData : ExtractionResult)
  (r : settled (option Normalized)) (ss : Session) : Session :=
  match r with
  | Resolved (Some normalized) =>
      let s1 := setPriceIntelligence (Some (itemOnly normalized)) (ui ss) in
      let s2 := setSearchProgress None (setPriceSearching true s1) in
      let s3 := setSearchProgress (Some (searchStarted (itemName normalized))) s2 in
      mkSession s3 (inflight ss ++ [PSearch extractedData normalized])%list
  | Resolved None => ss
  | Threw => ss
  end.

(** The price branch after the provider answered the search: the service
    emits its last progress update and resolves, then the continuation of
    [handleProcess] runs. *)
Definition afterSearchReply (extractedData : ExtractionResult) (normalized : Normalized)
  (reply : SearchReply) (s : UploadState) : UploadState :=
  let '(updates, ret) := searchMarketPriceStreaming (itemName normalized) reply in
  let s1 := fold_left (fun s u => setSearchProgress (Some u) s) updates s in
  afterSearch extractedData normalized (Resolved ret) s1.

(** The commitment branch after [extractCommitments] settled. *)
Definition afterCommitments (r : settled (option CommitmentData)) (s : UploadState)
  : UploadState :=
  match r with
  | Resolved (Some commitments) => setCommitmentData (Some commitments) s
  | Resolved None => s
  | Threw => s
  end.

(** One turn of the event loop.  An arrival is enabled when the call it
    answers is outstanding; [reset] leaves the outstanding calls alone, as
    nothing in the source cancels or tags them. *)
Definition step (e : UploadEvent) (ss : Session) : option Session :=
  match e with
  | FileLoaded name dataUrl =>
      Some (mkSession (handleFileChange name dataUrl (ui ss)) (inflight ss))
  | ClickProcess => Some (handleProcess ss)
  | ClickReset => Some (mkSession (reset (ui ss)) (inflight ss))
  | Arrive k a =>
      let rest := mkSession (ui ss) (removeNth k (inflight ss)) in
      match nth_error (inflight ss) k, a with
      | Some PAnalyze, Analysis r => Some (afterAnalyze r rest)
      | Some (PNormalize d), Normalization r => Some (afterNormalize d r rest)
      | Some (PSearch d n), SearchResult reply =>
          Some (mkSession (afterSearchReply d n reply (ui rest)) (inflight rest))
      | Some (PCommitments _), Commitments r =>
          Some (mkSession (afterCommitments r (ui rest)) (inflight rest))
      | _, _ => None
      end
  end.

Fixpoint run (es : list UploadEvent) (ss : Session) : option Session :=
  match es with
  | [] => Some ss
  | e :: es =>
      match step e ss with
      | Some ss' => run es ss'
      | None => None
      end
  end.

(** Whether an outstanding call is one of the enrichment calls. *)
Definition isEnrichment (p : Pending) : bool :=
  match p with
  | PAnalyze => false
  | PNormalize _ | PSearch _ _ | PCommitments _ => true
  end.

(** The enrichment part of the screen is clear: no price intelligence, no
    search indicator, no commitment data. *)
Definition enrichmentCleared (s : UploadState) : Prop :=
  up_priceIntelligence s = None /\ up_priceSearching s = false
  /\ up_searchProgress s = None /\ up_commitmentData s = None.

(* ================================================================= *)
(** ** Submission gate ([src/components/Upload.tsx]) *)

Definition setShowDuplicateWarning (v : bool) (s : UploadState) : UploadState :=
  mkUpload (up_file s) (up_isProcessing s) (up_preview s) (up_result s) v
    (up_priceIntelligence s) (up_priceSearching s) (up_searchProgress s)
    (up_commitmentData s).

(** The arguments of [onComplete(result, preview)] when [result] and
    [preview] are both truthy; the empty string is falsy. *)
Definition stagedSubmission (s : UploadState) : option (ExtractionResult * string) :=
  match up_result s, up_preview s with
  | Some result, Some preview =>
      match preview with
      | EmptyString => None
      | _ => Some (result, preview)
      end
  | _, _ => None
  end.

(** [handleConfirm]: the new state and the call of [onComplete], if any. *)
Definition handleConfirm (Date_getTime : string -> number)
  (existingPurchases : list PurchaseDocument) (s : UploadState)
  : UploadState * option (ExtractionResult * string) :=
  match stagedSubmission s with
  | None => (s, None)
  | Some submission =>
      if (Nat.ltb 0 (List.length (duplicateMatches Date_getTime (up_result s) existingPurchases))
          && negb (up_showDuplicateWarning s))%bool
      then (setShowDuplicateWarning true s, None)
      else (s, Some submission)
  end.

(** [handleCancelSubmission] *)
Definition handleCancelSubmission (s : UploadState) : UploadState :=
  setShowDuplicateWarning false s.

(** [handleForceSubmit]: the call of [onComplete], if any. *)
Definition handleForceSubmit (s : UploadState) : option (ExtractionResult * string) :=
  stagedSubmission s.

(* ================================================================= *)
(** ** Navigation and listeners ([App.tsx]) *)

Definition setReviewingId (v : option string) (st : AppState) : AppState :=
  mkApp (currentUser st) (activeTab st) (purchases st) v
        (isAdding st) (usingMockData st) (issued st).

(** [handleReview(id)] *)
Definition handleReview (docId : string) (st : AppState) : AppState :=
  setActiveTab "review" (setReviewingId (Some docId) st).

(** [handleAddPurchase] *)
Definition handleAddPurchase (st : AppState) : AppState :=
  setActiveTab "upload" (setIsAdding true st).

(** The [onTabChange] that [App] hands to the layout. *)
Definition onTabChange (tab : string) (st : AppState) : AppState :=
  setActiveTab tab (setIsAdding false st).

(** What [renderContent] shows. *)
Inductive Screen : Type :=
| UploadScreen
| DashboardScreen (banner : bool)
| MySubmissionsScreen (banner : bool)
| ReviewScreen (shown : PurchaseDocument)
| AuditLogScreen
| ReportsScreen
| SettingsScreen.

(** [renderContent], for the signed-in user [u]. *)
Definition renderContent (u : User) (st : AppState) : Screen :=
  if (isAdding st && String.eqb (activeTab st) "upload")%bool then UploadScreen
  else if String.eqb (activeTab st) "dashboard" then DashboardScreen (usingMockData st)
  else if String.eqb (activeTab st) "purchases" then
    (if UserRole_eqb (user_role u) SUBMITTER
     then MySubmissionsScreen (usingMockData st)
     else DashboardScreen (usingMockData st))
  else if String.eqb (activeTab st) "review" then
    match activePurchase st with
    | Some p => ReviewScreen p
    | None => DashboardScreen false
    end
  else if String.eqb (activeTab st) "history" then AuditLogScreen
  else if String.eqb (activeTab st) "reports" then ReportsScreen
  else if String.eqb (activeTab st) "settings" then SettingsScreen
  else DashboardScreen false.

(** A document of a collection snapshot: its id, its [date] when that is a
    string, and the rest of its data read as a [PurchaseDocument]. *)
Record SnapshotDoc : Type := mkSnapshotDoc {
  snap_id : string;
  snap_date : option string;
  snap_data : PurchaseDocument
}.

(** [{ ...data, id: d.id, date: typeof data.date === 'string' ? data.date :
    today }] *)
Definition fromSnapshot (todayIso : string) (d : SnapshotDoc) : PurchaseDocument :=
  let data := snap_data d in
  mkPurchase (snap_id d) (vendor data)
    (match snap_date d with Some s => s | None => todayIso end)
    (amount data) (description data) (category data) (flags data) (status data)
    (fileUrl data) (department data) (submittedBy data) (aiConfidence data)
    (suggestedGlCode data) (marketPriceEstimate data) (isSubscription data)
    (rejectionFlags data) (rejectionNotes data) (rejectedBy data) (rejectedAt data).

(** The success callback of [onSnapshot]. *)
Definition onSnapshot (docs : list SnapshotDoc) (todayIso : string) (st : AppState)
  : AppState :=
  setUsingMockData false (setPurchases (fun _ => map (fromSnapshot todayIso) docs) st).

(** The error callback of [onSnapshot]. *)
Definition onSnapshotError (st : AppState) : AppState :=
  setUsingMockData false (setPurchases (fun _ => []) st).

Record FirebaseUser : Type := mkFirebaseUser {
  uid : string;
  fb_email : option string;
  fb_displayName : option string;
  fb_photoURL : option string
}.

(** [DEMO_ACCOUNTS] ([constants.tsx], [src/unnamed/part_001]), read at one
    of its own keys. *)
Definition DEMO_ACCOUNTS (email : string) : option User :=
  if String.eqb email "reviewer@schoolsense.gov" then
    Some (mkUser "u1" "Sarah Reviewer" "reviewer@schoolsense.gov" REVIEWER
            "School District Office" (Some "https://picsum.photos/80/80?random=10"))
  else if String.eqb email "submitter@schoolsense.gov" then
    Some (mkUser "u2" "Mark Submitter" "submitter@schoolsense.gov" SUBMITTER
            "Central High School" (Some "https://picsum.photos/80/80?random=11"))
  else if String.eqb email "viewer@schoolsense.gov" then
    Some (mkUser "u3" "Dr. Thompson" "viewer@schoolsense.gov" VIEWER
            "District Office" (Some "https://picsum.photos/80/80?random=12"))
  else None.

(** [s.split(c)[0]] *)
Fixpoint beforeFirst (c : ascii) (s : string) : string :=
  match s with
  | EmptyString => EmptyString
  | String a t => if Ascii.eqb a c then EmptyString else String a (beforeFirst c t)
  end.

Definition orEmpty (o : option string) : string :=
  match o with
  | Some s => s
  | None => ""
  end.

(** The profile that the auth listener builds for a user without a stored
    profile. *)
Definition defaultUser (fb : FirebaseUser) : User :=
  let userEmail := orEmpty (fb_email fb) in
  let demoProfile := DEMO_ACCOUNTS userEmail in
  mkUser (uid fb)
    (JS.str_or (orEmpty (option_map user_name demoProfile))
       (JS.str_or (orEmpty (fb_displayName fb))
          (JS.str_or (beforeFirst "@" userEmail) "NH Staff")))
    userEmail
    (match demoProfile with Some d => user_role d | None => SUBMITTER end)
    (JS.str_or (orEmpty (option_map user_organization demoProfile)) "NH Municipal Office")
    (Some (JS.str_or (orEmpty (match demoProfile with Some d => user_avatar d | None => None end))
             (JS.str_or (orEmpty (fb_photoURL fb))
                ("https://picsum.photos/80/80?random=" ++ uid fb)))).

(** The profile that the auth listener falls back to when the read of the
    stored profile throws. *)
Definition localProfile (fb : FirebaseUser) : User :=
  let userEmail := orEmpty (fb_email fb) in
  let demoProfile := DEMO_ACCOUNTS userEmail in
  mkUser (uid fb)
    (JS.str_or (orEmpty (option_map user_name demoProfile))
       (JS.str_or (beforeFirst "@" userEmail) "Staff User"))
    userEmail
    (match demoProfile with Some d => user_role d | None => SUBMITTER end)
    (JS.str_or (orEmpty (option_map user_organization demoProfile)) "NH Municipal Office")
    (Some (JS.str_or (orEmpty (match demoProfile with Some d => user_avatar d | None => None end))
             ("https://picsum.photos/80/80?random=" ++ uid fb))).

(** What the read of [users/<uid>] comes back with. *)
Inductive UserDocReply : Type :=
| UserDocFound (stored : User)
| UserDocMissing
| UserDocThrows.

(** The value the auth listener passes to [setCurrentUser]. *)
Definition resolveUser (firebaseUser : option FirebaseUser) (reply : UserDocReply)
  : option User :=
  match firebaseUser with
  | None => None
  | Some fb =>
      match reply with
      | UserDocFound stored => Some stored
      | UserDocMissing => Some (defaultUser fb)
      | UserDocThrows => Some (localProfile fb)
      end
  end.

(* ================================================================= *)
(** ** Receipt storage ([src/services/firebase.ts], [src/unnamed/part_000]) *)

(** [s.split(c)], as its first segment and the segments after it. *)
Fixpoint splitOn (c : ascii) (s : string) : string * list string :=
  match s with
  | EmptyString => (EmptyString, [])
  | String a t =>
      let '(h, r) := splitOn c t in
      if Ascii.eqb a c then (EmptyString, h :: r) else (String a h, r)
  end.

Definition split (c : ascii) (s : string) : list string :=
  let '(h, r) := splitOn c s in h :: r.

(** [s.includes(c)] for a one-character [c]. *)
Fixpoint includesChar (c : ascii) (s : string) : bool :=
  match s with
  | EmptyString => false
  | String a t => (Ascii.eqb a c || includesChar c t)%bool
  end.

(** [base64Data.includes(',') ? base64Data.split(',')[1] : base64Data] *)
Definition base64Content (base64Data : string) : string :=
  if includesChar "," base64Data
  then nth 1 (split "," base64Data) EmptyString
  else base64Data.

(** [`receipts/${userId}/${timestamp}.jpg`] *)
Definition receiptFileName (userId : string) (timestamp : Z) : string :=
  "receipts/" ++ userId ++ "/" ++ JS.show (of_Z timestamp) ++ ".jpg".

(* ================================================================= *)
(** ** Review screen: history and benchmark ([components/Review.tsx]) *)

(** [similarTransactions] *)
Definition similarTransactions (props : ReviewProps) (all : list PurchaseDocument)
  : list PurchaseDocument :=
  filter (fun p => (String.eqb (vendor p) (vendor (item props))
                    && negb (String.eqb (id p) (id (item props))))%bool) all.

(** [marketDiff]: the deviation from the estimate, in percent. *)
Definition marketDiff (p : PurchaseDocument) : number :=
  match marketPriceEstimate p with
  | Some est =>
      if JS.truthy est
      then JS.fmul (JS.fdiv (JS.fsub (amount p) est) est) (of_Z 100)
      else of_Z 0
  | None => of_Z 0
  end.

(** [item.marketPriceEstimate > 0]: the benchmark panel is rendered. *)
Definition benchmarkShown (p : PurchaseDocument) : bool :=
  match marketPriceEstimate p with
  | Some est => JS.gt est (of_Z 0)
  | None => false
  end.

(** [marketDiff > 20]: the badge reads Overpaying, else Fair Price. *)
Definition overpaying (p : PurchaseDocument) : bool :=
  JS.gt (marketDiff p) (of_Z 20).

(* ================================================================= *)
(** ** Review queue ([src/components/ReviewQueue.tsx]) *)

Inductive QueueTab : Type := priorityTab | standardTab | historyTab.

Definition statusIs (s : ReviewStatus) (p : PurchaseDocument) : bool :=
  if ReviewStatus_eq_dec (status p) s then true else false.

(** The tab filter of [filteredPurchases]. *)
Definition tabFilter (tab : QueueTab) (p : PurchaseDocument) : bool :=
  match tab with
  | priorityTab =>
      let isFlagged := statusIs FLAGGED p in
      let isHighValue := (JS.gt (amount p) (of_Z 5000) && statusIs PENDING p)%bool in
      (isFlagged || isHighValue)%bool
  | standardTab =>
      (statusIs PENDING p && negb (JS.gt (amount p) (of_Z 5000)))%bool
  | historyTab =>
      (statusIs VALIDATED p || statusIs RESOLVED p || statusIs REJECTED p)%bool
  end.

(** [s.includes(q)] *)
Definition includesStr (s q : string) : bool :=
  match String.index 0 q s with
  | Some _ => true
  | None => false
  end.

(** The search filter of [filteredPurchases]. *)
Definition searchFilter (searchQuery : string) (p : PurchaseDocument) : bool :=
  match searchQuery with
  | EmptyString => true
  | _ =>
      let query := JS.toLowerCase searchQuery in
      (includesStr (JS.toLowerCase (vendor p)) query
       || includesStr (JS.toLowerCase (description p)) query
       || includesStr (JS.toLowerCase (id p)) query)%bool
  end.

(** The department filter of [filteredPurchases]. *)
Definition departmentFilter (dept : string) (p : PurchaseDocument) : bool :=
  (String.eqb dept "all" || String.eqb (department p) dept)%bool.

(** [filteredPurchases] up to its final sort: the records the queue lists,
    in the order of [purchases]. *)
Definition queueFilter (tab : QueueTab) (searchQuery dept : string)
  (all : list PurchaseDocument) : list PurchaseDocument :=
  filter (fun p => (tabFilter tab p && searchFilter searchQuery p
                    && departmentFilter dept p)%bool) all.

(** [a + b] on doubles *)
Definition num_add (a b : number) : number :=
  match a, b with
  | Num x, Num y => Num (JS.double (x + y))
  | _, _ => NaN
  end.

Record QueueStats : Type := mkQueueStats {
  wastePrevented : number;
  totalProcessed : nat;
  flaggedCount : nat;
  pendingCount : nat;
  rejectedCount : nat
}.

(** [stats] of the review queue. *)
Definition queueStats (all : list PurchaseDocument) : QueueStats :=
  let resolved := filter (statusIs RESOLVED) all in
  let rejected := filter (statusIs REJECTED) all in
  let approved := filter (statusIs VALIDATED) all in
  {| wastePrevented :=
       fold_left (fun acc p => num_add acc (amount p)) (resolved ++ rejected)%list (of_Z 0);
     totalProcessed := List.length resolved + List.length rejected + List.length approved;
     flaggedCount := List.length (filter (statusIs FLAGGED) all);
     pendingCount := List.length (filter (statusIs PENDING) all);
     rejectedCount := List.length rejected |}.

(* ================================================================= *)
(** ** Submitter views ([src/components/Dashboard.tsx],
       [src/components/MySubmissions.tsx]) *)

(** [myPurchases] *)
Definition myPurchases (u : User) (all : list PurchaseDocument) : list PurchaseDocument :=
  filter (fun p => (String.eqb (submittedBy p) (user_name u)
                    || String.prefix "temp-" (id p))%bool) all.

(** [approvalRate] of the submitter's metrics. *)
Definition approvalRate (u : User) (all : list PurchaseDocument) : number :=
  let mine := myPurchases u all in
  let total := List.length mine in
  let approved := List.length (filter (statusIs VALIDATED) mine) in
  if Nat.ltb 0 total
  then JS.round (JS.fmul (JS.fdiv (of_Z (Z.of_nat approved)) (of_Z (Z.of_nat total)))
                   (of_Z 100))
  else of_Z 100.

(** The submitter's count of records awaiting review. *)
Definition awaitingCount (u : User) (all : list PurchaseDocument) : nat :=
  List.length (filter (fun p => (statusIs PENDING p || statusIs FLAGGED p)%bool)
                 (myPurchases u all)).

(* ================================================================= *)
(** ** Audit log ([src/components/AuditLog.tsx]) *)

(** The properties that the audit log reads off a purchase although
    [PurchaseDocument] does not declare them. *)
Record Untyped : Type := mkUntyped {
  resolvedBy : option string;
  resolvedAt : option string;
  reviewNotes : option string;
  flaggedAt : option string;
  resolutionNotes : option string
}.

(** A purchase that carries none of them, as every document does that this
    application writes. *)
Definition noUntyped : Untyped := mkUntyped None None None None None.

Inductive AuditAction : Type :=
| A_SUBMITTED | A_APPROVED | A_REJECTED | A_FLAGGED | A_RESOLVED.

Definition AuditAction_eqb (a b : AuditAction) : bool :=
  match a, b with
  | A_SUBMITTED, A_SUBMITTED | A_APPROVED, A_APPROVED | A_REJECTED, A_REJECTED
  | A_FLAGGED, A_FLAGGED | A_RESOLVED, A_RESOLVED => true
  | _, _ => false
  end.

(** The string that a [FlagType] is at run time. *)
Definition flagName (f : FlagType) : string :=
  match f with
  | DUPLICATE => "DUPLICATE"
  | PRICE_ANOMALY => "PRICE_ANOMALY"
  | RENEWAL => "RENEWAL"
  | UNUSUAL_ITEM => "UNUSUAL_ITEM"
  | MARKET_DEVIATION => "MARKET_DEVIATION"
  | ZOMBIE_SPEND => "ZOMBIE_SPEND"
  | WASTE => "WASTE"
  | POLICY_VIOLATION => "POLICY_VIOLATION"
  | INSUFFICIENT_DOCS => "INSUFFICIENT_DOCS"
  | UNAUTHORIZED => "UNAUTHORIZED"
  | FRAUD_SUSPECTED => "FRAUD_SUSPECTED"
  | BUDGET_EXCEEDED => "BUDGET_EXCEEDED"
  | OTHER => "OTHER"
  end.

Record AuditEntry : Type := mkAuditEntry {
  ae_id : string;
  ae_timestamp : string;
  ae_action : AuditAction;
  ae_purchaseId : string;
  ae_vendor : string;
  ae_amount : number;
  ae_performedBy : string;
  ae_details : string;
  ae_flags : option (list string)
}.

(** Truthiness of an optional string. *)
Definition truthyOpt (o : option string) : bool :=
  match o with
  | Some (String _ _) => true
  | _ => false
  end.

(** The entries that one iteration of [purchases.forEach] pushes. *)
Definition entriesFor (px : PurchaseDocument * Untyped) : list AuditEntry :=
  let '(p, x) := px in
  ([mkAuditEntry (id p ++ "-submit") (date p) A_SUBMITTED (id p) (vendor p) (amount p)
      (JS.str_or (submittedBy p) "System")
      ("Submitted purchase for " ++ description p) None]
   ++ (if (statusIs VALIDATED p && truthyOpt (resolvedBy x))%bool
       then [mkAuditEntry (id p ++ "-approved")
               (JS.str_or (orEmpty (resolvedAt x)) (date p)) A_APPROVED (id p)
               (vendor p) (amount p) (orEmpty (resolvedBy x))
               (JS.str_or (orEmpty (reviewNotes x)) "Payment approved") None]
       else [])
   ++ (if (statusIs REJECTED p && truthyOpt (rejectedBy p))%bool
       then [mkAuditEntry (id p ++ "-rejected")
               (JS.str_or (orEmpty (rejectedAt p)) (date p)) A_REJECTED (id p)
               (vendor p) (amount p) (orEmpty (rejectedBy p))
               (JS.str_or (orEmpty (rejectionNotes p)) "Payment rejected")
               (option_map (map flagName) (rejectionFlags p))]
       else [])
   ++ (if (statusIs FLAGGED p && Nat.ltb 0 (List.length (flags p)))%bool
       then [mkAuditEntry (id p ++ "-flagged")
               (JS.str_or (orEmpty (flaggedAt x)) (date p)) A_FLAGGED (id p)
               (vendor p) (amount p) "AI Analysis"
               ("Flagged: " ++ String.concat ", " (map flag_type (flags p)))
               (Some (map flag_type (flags p)))]
       else [])
   ++ (if (statusIs RESOLVED p && truthyOpt (resolvedBy x))%bool
       then [mkAuditEntry (id p ++ "-resolved")
               (JS.str_or (orEmpty (resolvedAt x)) (date p)) A_RESOLVED (id p)
               (vendor p) (amount p) (orEmpty (resolvedBy x))
               (JS.str_or (orEmpty (resolutionNotes x)) "Flag resolved") None]
       else []))%list.

(** [auditEntries] up to its final sort by time stamp. *)
Definition collectAuditEntries (all : list (PurchaseDocument * Untyped)) : list AuditEntry :=
  flat_map entriesFor all.

(** The application's own records: none carries an undeclared property. *)
Definition asWritten (all : list PurchaseDocument) : list (PurchaseDocument * Untyped) :=
  map (fun p => (p, noUntyped)) all.

(** How many entries have a given action ([stats] of the audit log). *)
Definition countAction (a : AuditAction) (entries : list AuditEntry) : nat :=
  List.length (filter (fun e => AuditAction_eqb (ae_action e) a) entries).

(* ================================================================= *)
(** ** The properties of the specification, in its own words *)

(** The amount difference is at most 1% of the larger of the two amounts
    ([a] the existing record's amount, [b] the candidate's). *)
Definition withinOnePercentOfLarger (a b : Q) : Prop :=
  (Qabs (a - b) <= (1 # 100) * Qmax a b)%Q.

(** The amount difference is at most 1% of the candidate's amount [b]. *)
Definition withinOnePercentOfCandidate (a b : Q) : Prop :=
  (Qabs (a - b) <= (1 # 100) * b)%Q.

(** The relative error of one rounding: [2^-53]. *)
Definition halfUlp : Q := 1 # 9007199254740992.

(** A part in [10^12]: what the few roundings of one check can move a
    ratio by, with room to spare. *)
Definition roundingSlack : Q := 1 # 1000000000000.

(** Two instants, in milliseconds, are at most 60 days apart. *)
Definition withinSixtyDays (t1 t2 : Q) : Prop :=
  (Qabs (t1 - t2) <= inject_Z (60 * 86400000))%Q.

(** Descending order of the scores. *)
Inductive descending : list DuplicateMatch -> Prop :=
| desc_nil : descending []
| desc_one m : descending [m]
| desc_cons m h t : score h <= score m -> descending (h :: t) -> descending (m :: h :: t).

(** The status an action asks for. *)
Definition targetStatus (a : ReviewAction) : ReviewStatus :=
  match a with
  | Approve => VALIDATED
  | Resolve => RESOLVED
  | Reject _ => REJECTED
  end.

(** Whether an action goes through: the actor is a reviewer and, for a
    rejection, at least one reason tag is selected. *)
Definition goesThrough (props : ReviewProps) (rs : ReviewState) (a : ReviewAction) : bool :=
  (isReviewer props
   && match a with
      | Reject _ => negb (Nat.eqb (List.length (rv_selectedRejectionFlags rs)) 0)
      | _ => true
      end)%bool.

(** Two records agree on every field but [status]. *)
Definition sameExceptStatus (p q : PurchaseDocument) : Prop :=
  id p = id q /\ vendor p = vendor q /\ date p = date q /\ amount p = amount q
  /\ description p = description q /\ category p = category q /\ flags p = flags q
  /\ fileUrl p = fileUrl q /\ department p = department q
  /\ submittedBy p = submittedBy q /\ aiConfidence p = aiConfidence q
  /\ suggestedGlCode p = suggestedGlCode q
  /\ marketPriceEstimate p = marketPriceEstimate q
  /\ isSubscription p = isSubscription q
  /\ rejectionFlags p = rejectionFlags q /\ rejectionNotes p = rejectionNotes q
  /\ rejectedBy p = rejectedBy q /\ rejectedAt p = rejectedAt q.

Definition keyIf {T} (k : string) (o : option T) : list string :=
  match o with
  | Some _ => [k]
  | None => []
  end.

Definition keyIfSlot {T} (k : string) (s : slot T) : list string :=
  match s with
  | Absent => []
  | _ => [k]
  end.

(** [Object.keys] of an update. *)
Definition keysOf (u : PurchaseUpdate) : list string :=
  (keyIf "id" (u_id u) ++ keyIf "vendor" (u_vendor u) ++ keyIf "date" (u_date u)
   ++ keyIf "amount" (u_amount u) ++ keyIf "description" (u_description u)
   ++ keyIf "category" (u_category u) ++ keyIf "flags" (u_flags u)
   ++ keyIf "status" (u_status u) ++ keyIfSlot "fileUrl" (u_fileUrl u)
   ++ keyIf "department" (u_department u) ++ keyIf "submittedBy" (u_submittedBy u)
   ++ keyIfSlot "aiConfidence" (u_aiConfidence u)
   ++ keyIfSlot "suggestedGlCode" (u_suggestedGlCode u)
   ++ keyIfSlot "marketPriceEstimate" (u_marketPriceEstimate u)
   ++ keyIfSlot "isSubscription" (u_isSubscription u)
   ++ keyIfSlot "rejectionFlags" (u_rejectionFlags u)
   ++ keyIfSlot "rejectionNotes" (u_rejectionNotes u)
   ++ keyIfSlot "rejectedBy" (u_rejectedBy u)
   ++ keyIfSlot "rejectedAt" (u_rejectedAt u))%list.

Definition isUndefined {T} (s : slot T) : bool :=
  match s with
  | Undefined => true
  | _ => false
  end.

(** Whether some key of an update carries [undefined]. *)
Definition hasUndefined (u : PurchaseUpdate) : bool :=
  (isUndefined (u_fileUrl u) || isUndefined (u_aiConfidence u)
   || isUndefined (u_suggestedGlCode u) || isUndefined (u_marketPriceEstimate u)
   || isUndefined (u_isSubscription u) || isUndefined (u_rejectionFlags u)
   || isUndefined (u_rejectionNotes u) || isUndefined (u_rejectedBy u)
   || isUndefined (u_rejectedAt u))%bool.

(** A number that is not negative. *)
Definition nonNegative (n : number) : Prop :=
  match n with
  | Num q => (0 <= q)%Q
  | NaN => False
  end.

(** Whether a search, or an analysis, is among the outstanding calls. *)
Definition searchOutstanding (l : list Pending) : bool :=
  existsb (fun p => match p with PSearch _ _ => true | _ => false end) l.

Definition analysisOutstanding (l : list Pending) : bool :=
  existsb (fun p => match p with PAnalyze => true | _ => false end) l.

(** The two indicators of the screen are backed by an outstanding call. *)
Definition indicatorsBacked (ss : Session) : Prop :=
  (up_priceSearching (ui ss) = true -> searchOutstanding (inflight ss) = true)
  /\ (up_isProcessing (ui ss) = true -> analysisOutstanding (inflight ss) = true).

(** A price intelligence whose savings opportunity, when set, is positive
    and comes with a state average that is a number. *)
Definition soundPrice (i : PriceIntelligence) : bool :=
  match savingsOpportunity i with
  | Some v => (JS.gt v (of_Z 0)
               && match stateAverage i with Some (Num _) => true | _ => false end)%bool
  | None => true
  end.

Definition soundPriceOpt (o : option PriceIntelligence) : bool :=
  match o with
  | Some i => soundPrice i
  | None => true
  end.

(** The record passes the gate of the duplicate scorer. *)
Definition passesGate (Date_getTime : string -> number) (r : ExtractionResult)
  (p : PurchaseDocument) : bool :=
  isPotentialDuplicate (scorePurchase Date_getTime r p).

(* ================================================================= *)
(** ** Sample data *)

Definition blankPurchase (i v d : string) (a : number) (s : ReviewStatus)
  : PurchaseDocument :=
  mkPurchase i v d a "" "" [] s None "" "" None None None None None None None None.

Definition candidate (v d : string) (a : number) : ExtractionResult :=
  mkExtraction v a d "Copy paper" "Supplies" (of_Z 90) "6100" None None [].

Definition staplesNew : ExtractionResult := candidate "Staples" "2024-01-10" (of_Z 100).

Definition staplesOld : PurchaseDocument :=
  blankPurchase "p1" "Staples" "2024-01-15" (Num (201 # 2)) VALIDATED.

Definition bigNew : ExtractionResult := candidate "Staples" "2024-01-10" (of_Z 10000).

Definition bigOld : PurchaseDocument :=
  blankPurchase "p2" "STAPLES" "2024-01-10" (of_Z 10101) PENDING.

(** Same vendor and amount as [staplesNew], 200 days earlier. *)
Definition staplesLongAgo : PurchaseDocument :=
  blankPurchase "p4" "staples" "2023-06-24" (of_Z 100) VALIDATED.

(** Only the amount in common with [staplesNew]. *)
Definition sameAmountOnly : PurchaseDocument :=
  blankPurchase "p5" "Office Depot" "2023-06-24" (of_Z 100) PENDING.

Definition sarah : User :=
  mkUser "u1" "Sarah Reviewer" "reviewer@schoolsense.gov" REVIEWER
         "School District Office" None.

Definition mark : User :=
  mkUser "u2" "Mark Submitter" "submitter@schoolsense.gov" SUBMITTER
         "Central High School" None.

(** A record that was rejected earlier. *)
Definition rejectedDoc : PurchaseDocument :=
  mkPurchase "p9" "Office Depot" "2023-10-24" (of_Z 1250) "Toner" "Supplies" []
    REJECTED None "Central Admin" "Mark Submitter" None None None None
    (Some [WASTE]) (Some "Too many cartridges") (Some "Sarah Reviewer")
    (Some "2023-10-25T10:00:00.000Z").

Definition pendingDoc : PurchaseDocument :=
  blankPurchase "p3" "Zoom Video" "2023-11-01" (of_Z 540) PENDING.

Definition appWith (ps : list PurchaseDocument) : AppState :=
  mkApp (Some sarah) "review" ps None false false [].

Definition freshReview : ReviewState := mkReview false false [] "".

(** The modal with one reason ticked and the notes left blank. *)
Definition wasteTicked : ReviewState :=
  toggleRejectionFlag WASTE (openRejectModal freshReview).

Definition refund : ExtractionResult :=
  mkExtraction "Staples" (Num (-5 # 1)) "2024-01-10" "Refund" "Supplies" (of_Z 90)
    "6100" None None [].

Definition noAmount : ExtractionResult :=
  mkExtraction "Staples" NaN "2024-01-10" "Smudged receipt" "Supplies" (of_Z 20)
    "6100" None None [].

Definition liveEnv : UploadEnv :=
  mkEnv (Some "https://storage.example/receipts/u1/1.jpg") "2024-01-10" 1704844800000
        Fulfilled.

(** The scenario of the specification: a submitted amount of 400 with a
    market price estimate of 250 in the base extraction. *)
Definition hammer : ExtractionResult :=
  mkExtraction "Acme Tools" (of_Z 400) "2024-01-10" "Claw hammer" "Hardware" (of_Z 90)
    "6200" (Some (of_Z 250)) None [].

Definition hammerItem : Normalized := mkNormalized "claw-hammer-16oz" "Claw hammer" (of_Z 80).

Definition zoomCommitment : CommitmentData :=
  mkCommitment true (Some "2025-01-10") None None.

(** A receipt is chosen and sent for analysis. *)
Definition receiptLoaded : list UploadEvent :=
  [FileLoaded "receipt.jpg" "data:image/jpeg;base64,AAAA"; ClickProcess].

(** The screen with the Staples receipt analysed and ready to confirm. *)
Definition staplesStaged : UploadState :=
  mkUpload (Some "receipt.jpg") false (Some "data:image/jpeg;base64,AAAA")
    (Some staplesNew) false None false None None.

Definition newcomer : FirebaseUser :=
  mkFirebaseUser "uid-7" (Some "pat@example.org") None None.

(** The hammer receipt analysed and normalized, its price search and its
    commitment call outstanding. *)
Definition hammerEvents : list UploadEvent :=
  (receiptLoaded
   ++ [Arrive 0 (Analysis (Some hammer));
       Arrive 0 (Normalization (Resolved (Some hammerItem)))])%list.

Definition hammerSearching : Session :=
  Eval vm_compute in
    match run hammerEvents (mkSession initialUpload []) with
    | Some ss => ss
    | None => mkSession initialUpload []
    end.

(** The same, once the search has answered 250. *)
Definition hammerPriced : Session :=
  Eval vm_compute in
    match run (hammerEvents
               ++ [Arrive 1 (SearchResult
                               (SearchJson (mkPriceJson (of_Z 250) None NaN "") []))])%list
              (mkSession initialUpload []) with
    | Some ss => ss
    | None => mkSession initialUpload []
    end.

(** A record with an estimate of 100 and an amount of 130. *)
Definition pricey : PurchaseDocument :=
  mkPurchase "p6" "Acme Tools" "2024-01-10" (of_Z 130) "Claw hammer" "Hardware" []
    PENDING None "Facilities" "Mark Submitter" None None (Some (of_Z 100)) None
    None None None None.

(** A candidate of 70 against a record of 70.70, one percent more in
    decimal. *)
Definition seventy : ExtractionResult := candidate "Staples" "2024-01-10" (of_Z 70).

Definition seventySeventy : PurchaseDocument :=
  blankPurchase "p7" "Staples" "2024-01-10" (JS.literal (707 # 10)) VALIDATED.

(** An amount of 14.40 against an estimate of 12, 120% in decimal. *)
Definition atTheMark : PurchaseDocument :=
  mkPurchase "p8" "Acme Tools" "2024-01-10" (JS.literal (144 # 10)) "Claw hammer"
    "Hardware" [] PENDING None "Facilities" "Mark Submitter" None None (Some (of_Z 12))
    None None None None None.

(** A record of the submitter that was approved. *)
Definition approvedDoc : PurchaseDocument :=
  mkPurchase "p10" "Staples" "2024-01-10" (of_Z 100) "Copy paper" "Supplies" []
    VALIDATED None "Facilities" "Mark Submitter" None None None None
    None None None None.

(* ================================================================= *)
(** ** Rounding to the nearest double: lemmas *)

(** [JS.double] moves a value by at most [2^-53] of its size
    ([double_error]) and keeps the order ([double_monotone]): the two facts
    that the properties of the amount arithmetic rest on. *)

Section DoubleRounding.

Local Open Scope Q_scope.

Lemma pow2_pos (e : Z) : 0 < JS.pow2 e.
Proof. unfold JS.pow2. apply Qpower_0_lt. reflexivity. Qed.

Lemma pow2_cancel (e : Z) : JS.pow2 (- e) * JS.pow2 e == 1.
Proof.
  unfold JS.pow2. rewrite <- Qpower_plus by (intros H; discriminate H).
  replace (- e + e)%Z with 0%Z by lia. reflexivity.
Qed.

Lemma pow2_succ (e : Z) : JS.pow2 (e + 1) == 2 * JS.pow2 e.
Proof.
  unfold JS.pow2. rewrite Qpower_plus by (intros H; discriminate H).
  change (2 ^ 1) with 2. ring.
Qed.

Lemma pow2_inject (k : Z) : (0 <= k)%Z -> inject_Z (2 ^ k) == JS.pow2 k.
Proof. intros H. unfold JS.pow2. now rewrite Zpower_Qpower. Qed.

Lemma nearestEven_error (y : Q) : Qabs (inject_Z (JS.nearestEven y) - y) <= 1 # 2.
Proof.
  unfold JS.nearestEven.
  pose proof (Qfloor_le y) as Hlo. pose proof (Qlt_floor y) as Hhi.
  rewrite inject_Z_plus in Hhi. change (inject_Z 1) with 1 in Hhi.
  set (f := Qfloor y) in *.
  destruct ((y - inject_Z f) ?= (1 # 2)) eqn:Hc.
  - apply Qeq_alt in Hc.
    destruct (Z.even f); [| rewrite inject_Z_plus; change (inject_Z 1) with 1];
      apply Qabs_case; intros _; lra.
  - apply Qlt_alt in Hc. apply Qabs_case; intros _; lra.
  - apply Qgt_alt in Hc. rewrite inject_Z_plus. change (inject_Z 1) with 1.
    apply Qabs_case; intros _; lra.
Qed.

(** The scaled value lies in [[2^52, 2^53)]. *)
Lemma exponent_normalises (a : Q) : 0 < a -> JS.pow2 52 <= a * JS.pow2 (- JS.exponent a).
Proof.
  intros Ha. unfold JS.exponent.
  set (e0 := (Z.log2 (Qnum a) - Z.log2 (Z.pos (Qden a)) - 52)%Z).
  destruct (Qle_bool (JS.pow2 52) (a * JS.pow2 (- e0))) eqn:Ht.
  - now apply Qle_bool_iff.
  - clear Ht.
    replace (- (e0 - 1))%Z with (- e0 + 1)%Z by lia. rewrite pow2_succ.
    rewrite (Qmult_comm a), <- Qmult_assoc, (Qmult_comm _ a).
    assert (Hn : (0 < Qnum a)%Z).
    { destruct a as [n d]. unfold Qlt in Ha. simpl in *. lia. }
    pose proof (Z.log2_spec (Qnum a) Hn) as [Hln _].
    pose proof (Z.log2_spec (Z.pos (Qden a)) (Pos2Z.is_pos _)) as [_ Hld].
    pose proof (Z.log2_nonneg (Qnum a)) as Hln0.
    pose proof (Z.log2_nonneg (Z.pos (Qden a))) as Hld0.
    set (ln := Z.log2 (Qnum a)) in *. set (ld := Z.log2 (Z.pos (Qden a))) in *.
    (* a * 2^(ld+1) >= 2^ln *)
    assert (Hq : JS.pow2 ln <= a * JS.pow2 (ld + 1)).
    { rewrite <- (pow2_inject ln) by lia.
      rewrite <- (pow2_inject (ld + 1)) by lia.
      replace (Z.succ ld) with (ld + 1)%Z in Hld by lia.
      rewrite Zle_Qle in Hln. rewrite Zlt_Qlt in Hld.
      assert (Hnd : inject_Z (Qnum a) == a * inject_Z (Z.pos (Qden a))).
      { unfold Qeq, Qmult, inject_Z. cbn [Qnum Qden].
        rewrite Pos2Z.inj_mul. ring. }
      rewrite Hnd in Hln.
      fold ln in Hln.
      nra. }
    (* multiply by 2^(-e0) / 2^(ld+1) : 2^(-e0) = 2^(52 - ln + ld) *)
    assert (He : JS.pow2 (- e0) == JS.pow2 51 * (JS.pow2 (ld + 1) * JS.pow2 (- ln))).
    { unfold JS.pow2. rewrite <- !Qpower_plus by (intros H; discriminate H).
      replace (- e0)%Z with (51 + (ld + 1 + - ln))%Z by (unfold e0; lia). reflexivity. }
    pose proof (pow2_pos (- ln)) as Hp1. pose proof (pow2_cancel ln) as Hc.
    assert (H52 : JS.pow2 52 == 2 * JS.pow2 51) by reflexivity.
    assert (H51 : 0 < JS.pow2 51) by apply pow2_pos.
    assert (H1 : 1 <= a * JS.pow2 (ld + 1) * JS.pow2 (- ln)).
    { rewrite <- Hc. rewrite (Qmult_comm (JS.pow2 (- ln)) (JS.pow2 ln)).
      apply Qmult_le_compat_r; [exact Hq | now apply Qlt_le_weak]. }
    assert (Hg : 2 * (a * JS.pow2 (- e0)) == 2 * JS.pow2 51 * (a * JS.pow2 (ld + 1) * JS.pow2 (- ln))).
    { rewrite He. ring. }
    rewrite Hg, H52.
    set (X := a * JS.pow2 (ld + 1) * JS.pow2 (- ln)) in *.
    nra.
Qed.

(** The relative error of a rounding is at most [2^-53]. *)
Lemma double_error (x : Q) : Qabs (JS.double x - x) <= halfUlp * Qabs x.
Proof.
  unfold JS.double.
  destruct (Qeq_bool x 0) eqn:Hz.
  - apply Qeq_bool_iff in Hz. rewrite Hz. vm_compute. discriminate.
  - assert (Hx : ~ x == 0).
    { intros H. apply Qeq_bool_iff in H. rewrite H in Hz. discriminate. }
    rewrite Qred_correct.
    assert (Ha : 0 < Qabs x).
    { apply Qabs_case; intros H; lra. }
    pose proof (exponent_normalises (Qabs x) Ha) as Hn.
    set (e := JS.exponent (Qabs x)) in *.
    pose proof (nearestEven_error (Qabs x * JS.pow2 (- e))) as Hm.
    set (y := Qabs x * JS.pow2 (- e)) in *.
    set (m := inject_Z (JS.nearestEven y)) in *.
    pose proof (pow2_pos e) as Hpe. pose proof (pow2_cancel e) as Hc.
    assert (Hax : Qabs x == y * JS.pow2 e).
    { unfold y. rewrite <- Qmult_assoc, Hc. ring. }
    change (JS.pow2 52) with (4503599627370496 # 1) in Hn.
    assert (Hbound : Qabs (m - y) * JS.pow2 e <= halfUlp * Qabs x).
    { rewrite Hax. unfold halfUlp.
      apply Qle_trans with ((1 # 2) * JS.pow2 e).
      - apply Qmult_le_compat_r; [exact Hm | now apply Qlt_le_weak].
      - nra. }
    eapply Qle_trans; [| exact Hbound].
    assert (Hpe' : Qabs (JS.pow2 e) == JS.pow2 e) by (apply Qabs_pos; lra).
    destruct (Qle_bool 0 x) eqn:Hs.
    + apply Qle_bool_iff in Hs.
      rewrite (Qabs_pos x Hs) in Hax.
      setoid_replace (1 * m * JS.pow2 e - x) with ((m - y) * JS.pow2 e)
        by (rewrite Hax; ring).
      rewrite Qabs_Qmult, Hpe'. apply Qle_refl.
    + assert (Hneg : x <= 0).
      { destruct (Qlt_le_dec 0 x) as [H | H]; [| exact H].
        apply Qlt_le_weak in H. apply Qle_bool_iff in H. rewrite H in Hs. discriminate. }
      rewrite (Qabs_neg x Hneg) in Hax.
      setoid_replace (- (1) * m * JS.pow2 e - x) with (- ((m - y) * JS.pow2 e))
        by (setoid_replace x with (- (y * JS.pow2 e)) by (rewrite <- Hax; ring); ring).
      rewrite Qabs_opp, Qabs_Qmult, Hpe'. apply Qle_refl.
Qed.

Lemma pow2_le (i j : Z) : (i <= j)%Z -> JS.pow2 i <= JS.pow2 j.
Proof. intros H. unfold JS.pow2. apply Qpower_le_compat_l; [exact H | discriminate]. Qed.

Lemma pow2_plus (i j : Z) : JS.pow2 (i + j) == JS.pow2 i * JS.pow2 j.
Proof. unfold JS.pow2. apply Qpower_plus. intros H; discriminate H. Qed.

Lemma exponent_bounded (a : Q) : 0 < a -> a * JS.pow2 (- JS.exponent a) < JS.pow2 53.
Proof.
  intros Ha. unfold JS.exponent.
  set (e0 := (Z.log2 (Qnum a) - Z.log2 (Z.pos (Qden a)) - 52)%Z).
  assert (H53 : JS.pow2 53 == 2 * JS.pow2 52) by reflexivity.
  destruct (Qle_bool (JS.pow2 52) (a * JS.pow2 (- e0))) eqn:Ht.
  - clear Ht.
    assert (Hn : (0 < Qnum a)%Z).
    { destruct a as [n d]. unfold Qlt in Ha. simpl in *. lia. }
    pose proof (Z.log2_spec (Qnum a) Hn) as [_ Hln].
    pose proof (Z.log2_spec (Z.pos (Qden a)) (Pos2Z.is_pos _)) as [Hld _].
    pose proof (Z.log2_nonneg (Qnum a)) as Hln0.
    pose proof (Z.log2_nonneg (Z.pos (Qden a))) as Hld0.
    set (ln := Z.log2 (Qnum a)) in *. set (ld := Z.log2 (Z.pos (Qden a))) in *.
    replace (Z.succ ln) with (ln + 1)%Z in Hln by lia.
    assert (Hq : a * JS.pow2 ld < JS.pow2 (ln + 1)).
    { rewrite <- (pow2_inject (ln + 1)) by lia.
      rewrite <- (pow2_inject ld) by lia.
      rewrite Zlt_Qlt in Hln. rewrite Zle_Qle in Hld.
      assert (Hnd : inject_Z (Qnum a) == a * inject_Z (Z.pos (Qden a))).
      { unfold Qeq, Qmult, inject_Z. cbn [Qnum Qden].
        rewrite Pos2Z.inj_mul. ring. }
      rewrite Hnd in Hln. fold ln in Hln. nra. }
    assert (He : JS.pow2 (- e0) == JS.pow2 53 * (JS.pow2 ld * JS.pow2 (- (ln + 1)))).
    { unfold JS.pow2. rewrite <- !Qpower_plus by (intros H; discriminate H).
      replace (- e0)%Z with (53 + (ld + - (ln + 1)))%Z by (unfold e0; lia). reflexivity. }
    pose proof (pow2_pos (- (ln + 1))) as Hp1. pose proof (pow2_cancel (ln + 1)) as Hc.
    assert (H53' : 0 < JS.pow2 53) by apply pow2_pos.
    assert (H1 : a * JS.pow2 ld * JS.pow2 (- (ln + 1)) < 1).
    { rewrite <- Hc. rewrite (Qmult_comm (JS.pow2 (- (ln + 1))) (JS.pow2 (ln + 1))).
      apply Qmult_lt_compat_r; assumption. }
    assert (Hg : a * JS.pow2 (- e0) == JS.pow2 53 * (a * JS.pow2 ld * JS.pow2 (- (ln + 1)))).
    { rewrite He. ring. }
    rewrite Hg.
    set (X := a * JS.pow2 ld * JS.pow2 (- (ln + 1))) in *.
    nra.
  - assert (Hlt : a * JS.pow2 (- e0) < JS.pow2 52).
    { apply Qnot_le_lt. intros H. apply Qle_bool_iff in H. rewrite H in Ht. discriminate. }
    replace (- (e0 - 1))%Z with (- e0 + 1)%Z by lia. rewrite pow2_succ.
    rewrite H53. lra.
Qed.

Lemma nearestEven_floor (y : Q) : (Qfloor y <= JS.nearestEven y <= Qfloor y + 1)%Z.
Proof.
  unfold JS.nearestEven.
  destruct ((y - inject_Z (Qfloor y)) ?= (1 # 2)); [destruct (Z.even (Qfloor y))| |]; lia.
Qed.

Lemma nearestEven_monotone (y1 y2 : Q) : y1 <= y2 -> (JS.nearestEven y1 <= JS.nearestEven y2)%Z.
Proof.
  intros H. pose proof (Qfloor_resp_le _ _ H) as Hf.
  destruct (Z.eq_dec (Qfloor y1) (Qfloor y2)) as [He | Hne].
  - unfold JS.nearestEven. rewrite He. clear He Hf.
    generalize (Qfloor y2). intros f.
    destruct ((y1 - inject_Z f) ?= (1 # 2)) eqn:H1;
      destruct ((y2 - inject_Z f) ?= (1 # 2)) eqn:H2;
      try (destruct (Z.even f)); try lia;
      first [apply Qeq_alt in H1 | apply Qlt_alt in H1 | apply Qgt_alt in H1];
      first [apply Qeq_alt in H2 | apply Qlt_alt in H2 | apply Qgt_alt in H2];
      lra.
  - pose proof (nearestEven_floor y1). pose proof (nearestEven_floor y2). lia.
Qed.

Lemma nearestEven_Z (n : Z) : JS.nearestEven (inject_Z n) = n.
Proof.
  unfold JS.nearestEven. rewrite Qfloor_Z.
  assert (H : (inject_Z n - inject_Z n ?= 1 # 2) = Lt).
  { apply Qlt_alt. generalize (inject_Z n). intros q.
    setoid_replace (q - q) with 0 by ring. reflexivity. }
  now rewrite H.
Qed.

(** Above zero the sign and the reduction drop out. *)
Lemma double_positive (x : Q) :
  0 < x ->
  JS.double x == inject_Z (JS.nearestEven (x * JS.pow2 (- JS.exponent x))) * JS.pow2 (JS.exponent x).
Proof.
  intros Hx. unfold JS.double.
  assert (Hz : Qeq_bool x 0 = false).
  { apply not_true_is_false. intros H. apply Qeq_bool_iff in H. lra. }
  assert (Hs : Qle_bool 0 x = true) by (apply Qle_bool_iff; lra).
  assert (Ha : Qabs x = x).
  { destruct x as [n d]. unfold Qlt in Hx. simpl in Hx. unfold Qabs.
    f_equal. apply Z.abs_eq. lia. }
  rewrite Hz, Hs, Ha, Qred_correct. ring.
Qed.

Lemma double_opp (x : Q) : JS.double (- x) == - JS.double x.
Proof.
  unfold JS.double.
  assert (Ha : Qabs (- x) = Qabs x).
  { destruct x as [n d]. unfold Qabs, Qopp. cbn [Qnum Qden]. f_equal. apply Z.abs_opp. }
  destruct (Qeq_bool x 0) eqn:Hz.
  - assert (H : Qeq_bool (- x) 0 = true).
    { apply Qeq_bool_iff. apply Qeq_bool_iff in Hz. lra. }
    rewrite H. reflexivity.
  - assert (H : Qeq_bool (- x) 0 = false).
    { apply not_true_is_false. intros H. apply Qeq_bool_iff in H.
      assert (H' : x == 0) by lra. apply Qeq_bool_iff in H'. congruence. }
    assert (Hx : ~ x == 0).
    { intros H'. apply Qeq_bool_iff in H'. congruence. }
    rewrite H, Ha, !Qred_correct.
    destruct (Qle_bool 0 x) eqn:Hs.
    + apply Qle_bool_iff in Hs.
      assert (Hs' : Qle_bool 0 (- x) = false).
      { apply not_true_is_false. intros H'. apply Qle_bool_iff in H'. apply Hx. lra. }
      rewrite Hs'. ring.
    + assert (Hs' : Qle_bool 0 (- x) = true).
      { apply Qle_bool_iff.
        destruct (Qlt_le_dec 0 x) as [H' | H']; [| lra].
        assert (H'' : 0 <= x) by lra. apply Qle_bool_iff in H''. congruence. }
      rewrite Hs'. ring.
Qed.

Lemma double_monotone_positive (x y : Q) : 0 < x -> x <= y -> JS.double x <= JS.double y.
Proof.
  intros Hx Hxy. assert (Hy : 0 < y) by lra.
  rewrite (double_positive x Hx), (double_positive y Hy).
  pose proof (exponent_normalises x Hx) as Hx1. pose proof (exponent_bounded x Hx) as Hx2.
  pose proof (exponent_normalises y Hy) as Hy1. pose proof (exponent_bounded y Hy) as Hy2.
  set (ex := JS.exponent x) in *. set (ey := JS.exponent y) in *.
  pose proof (pow2_pos ex) as Pex. pose proof (pow2_pos ey) as Pey.
  pose proof (pow2_cancel ex) as Cex. pose proof (pow2_cancel ey) as Cey.
  assert (Xe : x == (x * JS.pow2 (- ex)) * JS.pow2 ex).
  { rewrite <- Qmult_assoc, Cex. ring. }
  assert (Ye : y == (y * JS.pow2 (- ey)) * JS.pow2 ey).
  { rewrite <- Qmult_assoc, Cey. ring. }
  set (sx := x * JS.pow2 (- ex)) in *. set (sy := y * JS.pow2 (- ey)) in *.
  destruct (Z_lt_le_dec ey ex) as [Hlt | Hle].
  - (* [y < 2^(53+ey) <= 2^(52+ex) <= x] *)
    exfalso.
    assert (H1 : JS.pow2 (53 + ey) <= JS.pow2 (52 + ex)) by (apply pow2_le; lia).
    rewrite !pow2_plus in H1.
    assert (H2 : y < JS.pow2 53 * JS.pow2 ey).
    { rewrite Ye. apply Qmult_lt_compat_r; assumption. }
    assert (H3 : JS.pow2 52 * JS.pow2 ex <= x).
    { rewrite Xe. apply Qmult_le_compat_r; [assumption | lra]. }
    lra.
  - destruct (Z.eq_dec ex ey) as [He | Hne].
    + assert (Hs : sx <= sy).
      { unfold sx, sy. rewrite <- He. fold ex.
        apply Qmult_le_compat_r; [exact Hxy|].
        apply Qlt_le_weak, pow2_pos. }
      pose proof (nearestEven_monotone sx sy Hs) as Hm.
      rewrite Zle_Qle in Hm. rewrite <- He. fold ex.
      apply Qmult_le_compat_r; [exact Hm | lra].
    + assert (Hmx : inject_Z (JS.nearestEven sx) <= JS.pow2 53).
      { change (JS.pow2 53) with (inject_Z 9007199254740992).
        rewrite <- Zle_Qle.
        rewrite <- (nearestEven_Z 9007199254740992).
        apply nearestEven_monotone.
        change (inject_Z 9007199254740992) with (JS.pow2 53). lra. }
      assert (Hmy : JS.pow2 52 <= inject_Z (JS.nearestEven sy)).
      { change (JS.pow2 52) with (inject_Z 4503599627370496).
        rewrite <- Zle_Qle.
        rewrite <- (nearestEven_Z 4503599627370496) at 1.
        apply nearestEven_monotone.
        change (inject_Z 4503599627370496) with (JS.pow2 52). lra. }
      assert (H1 : JS.pow2 (53 + ex) <= JS.pow2 (52 + ey)) by (apply pow2_le; lia).
      rewrite !pow2_plus in H1.
      apply Qle_trans with (JS.pow2 53 * JS.pow2 ex).
      * apply Qmult_le_compat_r; [exact Hmx | lra].
      * apply Qle_trans with (JS.pow2 52 * JS.pow2 ey); [exact H1|].
        apply Qmult_le_compat_r; [exact Hmy | lra].
Qed.

(** Rounding to the nearest double keeps the order. *)
Lemma double_monotone (x y : Q) : x <= y -> JS.double x <= JS.double y.
Proof.
  intros Hxy.
  assert (Hsign : forall z, (0 <= z -> 0 <= JS.double z) /\ (z <= 0 -> JS.double z <= 0)).
  { intros z. pose proof (double_error z) as He. unfold halfUlp in He.
    split; intros Hz.
    - rewrite (Qabs_pos z Hz) in He. revert He. apply Qabs_case; intros; lra.
    - rewrite (Qabs_neg z Hz) in He. revert He. apply Qabs_case; intros; lra. }
  destruct (Qlt_le_dec 0 x) as [Hx | Hx].
  - now apply double_monotone_positive.
  - destruct (Qlt_le_dec y 0) as [Hy | Hy].
    + assert (H : JS.double (- y) <= JS.double (- x)).
      { apply double_monotone_positive; lra. }
      rewrite !double_opp in H. lra.
    + destruct (Hsign x) as [_ H1]. destruct (Hsign y) as [H2 _].
      specialize (H1 Hx). specialize (H2 Hy). lra.
Qed.

(** One rounding moves a value by at most [2^-53] of its size. *)
Lemma double_between (x : Q) :
  (0 <= x -> (1 - halfUlp) * x <= JS.double x <= (1 + halfUlp) * x)
  /\ (x <= 0 -> (1 + halfUlp) * x <= JS.double x <= (1 - halfUlp) * x).
Proof.
  pose proof (double_error x) as H. unfold halfUlp in *.
  split; intros Hx.
  - rewrite (Qabs_pos x Hx) in H.
    revert H. apply Qabs_case; intros H1 H2; split; lra.
  - rewrite (Qabs_neg x Hx) in H.
    revert H. apply Qabs_case; intros H1 H2; split; lra.
Qed.

Lemma double_upper (x k : Q) : 0 <= k -> x <= k -> JS.double x <= (1 + halfUlp) * k.
Proof.
  intros Hk Hx. destruct (double_between x) as [Hp Hn]. unfold halfUlp in *.
  destruct (Qlt_le_dec x 0) as [H | H].
  - apply Qlt_le_weak in H. specialize (Hn H). lra.
  - specialize (Hp H). lra.
Qed.

Lemma double_lower (x k : Q) : 0 <= k -> k <= x -> (1 - halfUlp) * k <= JS.double x.
Proof.
  intros Hk Hx. destruct (double_between x) as [Hp _]. unfold halfUlp in *.
  assert (H : 0 <= x) by lra. specialize (Hp H). lra.
Qed.


(** The double that the literal [0.01] denotes, a little above a hundredth. *)
Lemma double_hundredth : JS.double (1 # 100) = 5764607523034235 # 576460752303423488.
Proof. vm_compute. reflexivity. Qed.

End DoubleRounding.

(* ================================================================= *)
(** ** Duplicate scorer: lemmas *)

Lemma In_insertByScore (x m : DuplicateMatch) (l : list DuplicateMatch) :
  In x (insertByScore m l) <-> x = m \/ In x l.
Proof.
  induction l as [|h t IH]; simpl.
  - intuition congruence.
  - destruct (score h <=? score m); simpl.
    + intuition congruence.
    + rewrite IH. intuition congruence.
Qed.

Lemma In_sortByScore (x : DuplicateMatch) (l : list DuplicateMatch) :
  In x (sortByScore l) <-> In x l.
Proof.
  induction l as [|h t IH]; simpl.
  - tauto.
  - rewrite In_insertByScore, IH. intuition congruence.
Qed.

Lemma insertByScore_descending (m : DuplicateMatch) (l : list DuplicateMatch) :
  descending l -> descending (insertByScore m l).
Proof.
  induction 1 as [|x|x h t Hle Hd IH]; simpl.
  - constructor.
  - destruct (Z.leb_spec (score x) (score m)); repeat constructor; lia.
  - destruct (Z.leb_spec (score x) (score m)).
    + repeat (constructor; try lia); assumption.
    + simpl in IH. destruct (Z.leb_spec (score h) (score m)).
      * repeat (constructor; try lia); assumption.
      * constructor; [lia | exact IH].
Qed.

Lemma sortByScore_descending (l : list DuplicateMatch) : descending (sortByScore l).
Proof.
  induction l as [|h t IH]; simpl.
  - constructor.
  - now apply insertByScore_descending.
Qed.

Section ScorerFacts.

Variable Date_getTime : string -> number.

Lemma In_fold_visit (r : ExtractionResult) (ps : list PurchaseDocument) :
  forall (acc : list DuplicateMatch) (m : DuplicateMatch),
    In m (fold_left (visitPurchase Date_getTime r) ps acc) <->
    In m acc \/
    exists p, In p ps /\ isPotentialDuplicate (scorePurchase Date_getTime r p) = true
              /\ m = mkMatch p (fst (scorePurchase Date_getTime r p)) (snd (scorePurchase Date_getTime r p)).
Proof.
  induction ps as [|q ps IH]; intros acc m; simpl.
  - split; [tauto | intros [H | (p & [] & _)]; exact H].
  - rewrite IH. unfold visitPurchase.
    destruct (isPotentialDuplicate (scorePurchase Date_getTime r q)) eqn:Hq.
    + rewrite in_app_iff. simpl. split.
      * intros [[H | [H | []]] | (p & Hp & Hd & Hm)].
        -- now left.
        -- right. exists q. auto.
        -- right. exists p. auto.
      * intros [H | (p & [Hp | Hp] & Hd & Hm)].
        -- left. now left.
        -- subst p. left. right. left. now symmetry.
        -- right. exists p. auto.
    + split.
      * intros [H | (p & Hp & Hd & Hm)]; [now left | right; exists p; auto].
      * intros [H | (p & [Hp | Hp] & Hd & Hm)].
        -- now left.
        -- subst p. congruence.
        -- right. exists p. auto.
Qed.

Lemma In_duplicateMatches (r : ExtractionResult) (ps : list PurchaseDocument)
  (m : DuplicateMatch) :
  In m (duplicateMatches Date_getTime (Some r) ps) <->
  In (purchase m) ps
  /\ isPotentialDuplicate (scorePurchase Date_getTime r (purchase m)) = true
  /\ score m = fst (scorePurchase Date_getTime r (purchase m))
  /\ reasons m = snd (scorePurchase Date_getTime r (purchase m)).
Proof.
  unfold duplicateMatches. rewrite In_sortByScore, In_fold_visit. simpl. split.
  - intros [[] | (p & Hp & Hd & ->)]. simpl. auto.
  - intros (Hp & Hd & Hs & Hr). right. exists (purchase m).
    repeat split; try assumption.
    destruct m as [p s rs]; simpl in *. now subst.
Qed.

Lemma classified_iff (r : ExtractionResult) (ps : list PurchaseDocument)
  (p : PurchaseDocument) :
  classified Date_getTime r ps p <->
  In p ps /\ isPotentialDuplicate (scorePurchase Date_getTime r p) = true.
Proof.
  unfold classified. split.
  - intros (m & Hm & <-). apply In_duplicateMatches in Hm. tauto.
  - intros (Hp & Hd).
    exists (mkMatch p (fst (scorePurchase Date_getTime r p)) (snd (scorePurchase Date_getTime r p))).
    split; [|reflexivity]. apply In_duplicateMatches. simpl. auto.
Qed.

(** The score and the number of reasons, check by check. *)
Lemma scorePurchase_checks (r : ExtractionResult) (p : PurchaseDocument) :
  fst (scorePurchase Date_getTime r p) =
    (if vendorMatches r p then 30 else 0)
    + (if amountMatches r p then 40 else 0)
    + (if dateMatches Date_getTime r p then 30 else 0)
  /\ List.length (snd (scorePurchase Date_getTime r p)) = checksMatched Date_getTime r p.
Proof.
  unfold scorePurchase, checksMatched.
  destruct (vendorMatches r p), (amountMatches r p), (dateMatches Date_getTime r p);
    split; reflexivity.
Qed.

Lemma isPotentialDuplicate_checks (r : ExtractionResult) (p : PurchaseDocument) :
  isPotentialDuplicate (scorePurchase Date_getTime r p) = true <-> (2 <= checksMatched Date_getTime r p)%nat.
Proof.
  unfold isPotentialDuplicate.
  destruct (scorePurchase_checks r p) as [-> ->].
  unfold checksMatched.
  destruct (vendorMatches r p), (amountMatches r p), (dateMatches Date_getTime r p);
    simpl; split; intros; try reflexivity; try lia; discriminate.
Qed.

End ScorerFacts.

(** The three checks against the wording of the specification. *)

Lemma vendorMatches_iff (r : ExtractionResult) (p : PurchaseDocument) :
  vendorMatches r p = true <-> JS.toLowerCase (vendor p) = JS.toLowerCase (x_vendor r).
Proof. unfold vendorMatches. apply String.eqb_eq. Qed.

Lemma amountMatches_computed (r : ExtractionResult) (p : PurchaseDocument) (a b : Q) :
  amount p = Num a -> x_amount r = Num b ->
  (amountMatches r p = true <->
   (Qabs (JS.double (a - b)) <= JS.double (b * JS.double (1 # 100)))%Q).
Proof.
  intros Ha Hb.
  unfold amountMatches, amountDiff, amountThreshold.
  rewrite Ha, Hb. unfold JS.literal. cbn [JS.fsub JS.fmul JS.abs JS.le].
  apply Qle_bool_iff.
Qed.

(** A difference of at most 1% of the candidate's amount passes the amount
    check: the double of 0.01 is not below a hundredth, and the two
    roundings keep the order. *)
Lemma amountMatches_of_tolerance (r : ExtractionResult) (p : PurchaseDocument) (a b : Q) :
  amount p = Num a -> x_amount r = Num b ->
  withinOnePercentOfCandidate a b -> amountMatches r p = true.
Proof.
  intros Ha Hb H. apply (amountMatches_computed r p a b Ha Hb).
  unfold withinOnePercentOfCandidate in H.
  rewrite double_hundredth.
  pose proof (Qabs_nonneg (a - b)) as H0.
  assert (Hb0 : (0 <= b)%Q) by lra.
  destruct (double_between (a - b)) as [Hp Hn].
  unfold halfUlp in *.
  revert H H0. apply Qabs_case; intros Hd H H0.
  - specialize (Hp Hd). rewrite Qabs_pos by lra.
    apply double_monotone. lra.
  - specialize (Hn Hd). rewrite Qabs_neg by lra.
    rewrite <- double_opp. apply double_monotone. lra.
Qed.

Lemma Qabs_div_day (x : Q) :
  (Qabs (x / inject_Z 86400000) <= inject_Z 60 <-> Qabs x <= inject_Z (60 * 86400000))%Q.
Proof.
  assert (Hc : (0 < inject_Z 86400000)%Q) by reflexivity.
  assert (Hi : (0 <= / inject_Z 86400000)%Q) by (apply Qlt_le_weak, Qinv_lt_0_compat, Hc).
  unfold Qdiv. rewrite Qabs_Qmult, (Qabs_pos _ Hi).
  change (inject_Z (60 * 86400000)) with (inject_Z 60 * inject_Z 86400000)%Q.
  split; intros H.
  - apply (Qmult_le_r _ _ (/ inject_Z 86400000)).
    + now apply Qinv_lt_0_compat.
    + rewrite <- Qmult_assoc, Qmult_inv_r, Qmult_1_r; [exact H | discriminate].
  - apply (Qmult_le_r _ _ (/ inject_Z 86400000)) in H.
    + rewrite <- Qmult_assoc, Qmult_inv_r, Qmult_1_r in H; [exact H | discriminate].
    + now apply Qinv_lt_0_compat.
Qed.

Lemma dateMatches_iff (Date_getTime : string -> number)
  (r : ExtractionResult) (p : PurchaseDocument) (t1 t2 : Q) :
  Date_getTime (date p) = Num t1 -> Date_getTime (x_date r) = Num t2 ->
  (dateMatches Date_getTime r p = true <-> withinSixtyDays t1 t2).
Proof.
  intros H1 H2. unfold dateMatches, daysDiff, withinSixtyDays.
  rewrite H1, H2.
  change (JS.le (JS.abs (JS.div (JS.sub (Num t1) (Num t2)) msPerDay)) DUPLICATE_WINDOW_DAYS)
    with (Qle_bool (Qabs ((t1 - t2) / inject_Z 86400000)) (inject_Z 60)).
  rewrite Qle_bool_iff. apply Qabs_div_day.
Qed.

(* ================================================================= *)
(** ** Duplicate scorer: properties *)

(** C1, as the specification states it, fails: with the tolerance taken
    relative to the larger amount, the candidate (Staples, 10000,
    2024-01-10) and the existing record (STAPLES, 10101, 2024-01-10) satisfy
    the three conditions (101 <= 101.01), yet the scorer compares the
    difference with 1% of the candidate's amount (101 > 100) and gives 60,
    not 100. *)
Lemma C1_counterexample :
  JS.toLowerCase (vendor bigOld) = JS.toLowerCase (x_vendor bigNew)
  /\ amount bigOld = Num (inject_Z 10101)
  /\ x_amount bigNew = Num (inject_Z 10000)
  /\ withinOnePercentOfLarger (inject_Z 10101) (inject_Z 10000)
  /\ IsoDate.getTime (date bigOld) = Num (inject_Z 1704844800000)
  /\ IsoDate.getTime (x_date bigNew) = Num (inject_Z 1704844800000)
  /\ withinSixtyDays (inject_Z 1704844800000) (inject_Z 1704844800000)
  /\ scorePurchase IsoDate.getTime bigNew bigOld = (60, ["Same vendor"; "Within 0 days"])
  /\ ~ (100 <= fst (scorePurchase IsoDate.getTime bigNew bigOld)).
Proof.
  split; [reflexivity|]. split; [reflexivity|]. split; [reflexivity|].
  split; [vm_compute; intros H; discriminate H|].
  split; [reflexivity|]. split; [reflexivity|].
  split; [vm_compute; intros H; discriminate H|].
  split; [reflexivity|].
  vm_compute. intros H. apply H. reflexivity.
Qed.

(** C1, amended: for a candidate and an existing record with
    case-insensitively equal vendor names, an amount difference of at most
    1% of the candidate's amount, and dates at most 60 days apart, the
    scorer accumulates 30 + 40 + 30 = 100, records three reasons, and
    classifies the pair as a duplicate match.  The amounts [a] and [b] are
    the values that the two doubles hold: the scorer works in double
    arithmetic, and the tolerance survives its roundings
    ([amountMatches_of_tolerance]).  A decimal such as 70.70 is held as a
    double a little above it, more than 1% away from 70
    ([one_percent_apart_in_decimal]). *)
Theorem C1_three_signals_score_100
  (Date_getTime : string -> number)
  (r : ExtractionResult) (existing : list PurchaseDocument) (p : PurchaseDocument)
  (a b t1 t2 : Q)
  (Hin : In p existing)
  (Hvendor : JS.toLowerCase (vendor p) = JS.toLowerCase (x_vendor r))
  (Ha : amount p = Num a) (Hb : x_amount r = Num b)
  (Hamount : withinOnePercentOfCandidate a b)
  (Ht1 : Date_getTime (date p) = Num t1) (Ht2 : Date_getTime (x_date r) = Num t2)
  (Hdate : withinSixtyDays t1 t2) :
  fst (scorePurchase Date_getTime r p) = 30 + 40 + 30
  /\ List.length (snd (scorePurchase Date_getTime r p)) = 3%nat
  /\ 100 <= fst (scorePurchase Date_getTime r p)
  /\ classified Date_getTime r existing p.
Proof.
  apply vendorMatches_iff in Hvendor.
  apply (amountMatches_of_tolerance r p a b Ha Hb) in Hamount.
  apply (dateMatches_iff Date_getTime r p t1 t2 Ht1 Ht2) in Hdate.
  assert (Hs : fst (scorePurchase Date_getTime r p) = 100
               /\ List.length (snd (scorePurchase Date_getTime r p)) = 3%nat).
  { destruct (scorePurchase_checks Date_getTime r p) as [-> ->].
    unfold checksMatched. now rewrite Hvendor, Hamount, Hdate. }
  destruct Hs as [Hs Hl].
  repeat split; try assumption; try lia.
  apply classified_iff. split; [assumption|].
  apply isPotentialDuplicate_checks.
  destruct (scorePurchase_checks Date_getTime r p) as [_ <-]. lia.
Qed.

(** The scenario of the specification: Staples, 100.00 on 2024-01-10
    against 100.50 on 2024-01-15. *)
Lemma C1_three_signals_witness :
  fst (scorePurchase IsoDate.getTime staplesNew staplesOld) = 30 + 40 + 30
  /\ List.length (snd (scorePurchase IsoDate.getTime staplesNew staplesOld)) = 3%nat
  /\ 100 <= fst (scorePurchase IsoDate.getTime staplesNew staplesOld)
  /\ classified IsoDate.getTime staplesNew [staplesOld] staplesOld.
Proof.
  apply (C1_three_signals_score_100 IsoDate.getTime staplesNew [staplesOld] staplesOld
           (201 # 2) (inject_Z 100) (inject_Z 1705276800000) (inject_Z 1704844800000)).
  - simpl. left. reflexivity.
  - reflexivity.
  - reflexivity.
  - reflexivity.
  - vm_compute. intros H. discriminate H.
  - vm_compute. reflexivity.
  - vm_compute. reflexivity.
  - vm_compute. intros H. discriminate H.
Defined.

(** With the tolerance of the specification (1% of the larger amount) the
    vendor and date checks alone still carry the pair over the threshold:
    the score is at least 60 and the pair is classified. *)
Lemma larger_tolerance_still_classified
  (Date_getTime : string -> number)
  (r : ExtractionResult) (existing : list PurchaseDocument) (p : PurchaseDocument)
  (t1 t2 : Q) :
  In p existing ->
  JS.toLowerCase (vendor p) = JS.toLowerCase (x_vendor r) ->
  Date_getTime (date p) = Num t1 -> Date_getTime (x_date r) = Num t2 ->
  withinSixtyDays t1 t2 ->
  60 <= fst (scorePurchase Date_getTime r p) /\ classified Date_getTime r existing p.
Proof.
  intros Hin Hvendor Ht1 Ht2 Hdate.
  apply vendorMatches_iff in Hvendor.
  apply (dateMatches_iff Date_getTime r p t1 t2 Ht1 Ht2) in Hdate.
  assert (Hc : (2 <= checksMatched Date_getTime r p)%nat).
  { unfold checksMatched. rewrite Hvendor, Hdate.
    destruct (amountMatches r p); simpl; lia. }
  split.
  - destruct (scorePurchase_checks Date_getTime r p) as [-> _].
    rewrite Hvendor, Hdate. destruct (amountMatches r p); lia.
  - apply classified_iff. split; [assumption|].
    now apply isPotentialDuplicate_checks.
Qed.

(** C5: an existing record is classified as a duplicate match exactly when
    its score is at least 60 and at least two of the three checks matched;
    a pair on which exactly one check holds is not classified. *)
Theorem C5_match_iff_score_and_two_checks
  (Date_getTime : string -> number)
  (r : ExtractionResult) (existing : list PurchaseDocument) (p : PurchaseDocument)
  (Hin : In p existing) :
  (classified Date_getTime r existing p <->
     60 <= fst (scorePurchase Date_getTime r p)
     /\ (2 <= List.length (snd (scorePurchase Date_getTime r p)))%nat)
  /\ List.length (snd (scorePurchase Date_getTime r p)) = checksMatched Date_getTime r p
  /\ (checksMatched Date_getTime r p = 1%nat -> ~ classified Date_getTime r existing p).
Proof.
  split; [|split].
  - rewrite classified_iff. unfold isPotentialDuplicate.
    rewrite andb_true_iff, !Z.leb_le. split.
    + intros (_ & H1 & H2). split; [exact H1 | lia].
    + intros (H1 & H2). split; [exact Hin | split; [exact H1 | lia]].
  - apply scorePurchase_checks.
  - intros H1 Hc. apply classified_iff in Hc. destruct Hc as [_ Hc].
    apply isPotentialDuplicate_checks in Hc. lia.
Qed.

(** The same scenario, for the classification rule. *)
Lemma C5_match_iff_witness :
  (classified IsoDate.getTime staplesNew [staplesOld] staplesOld <->
     60 <= fst (scorePurchase IsoDate.getTime staplesNew staplesOld)
     /\ (2 <= List.length (snd (scorePurchase IsoDate.getTime staplesNew staplesOld)))%nat)
  /\ List.length (snd (scorePurchase IsoDate.getTime staplesNew staplesOld))
     = checksMatched IsoDate.getTime staplesNew staplesOld
  /\ (checksMatched IsoDate.getTime staplesNew staplesOld = 1%nat ->
      ~ classified IsoDate.getTime staplesNew [staplesOld] staplesOld).
Proof.
  apply (C5_match_iff_score_and_two_checks IsoDate.getTime staplesNew [staplesOld] staplesOld).
  simpl. left. reflexivity.
Defined.

(* ================================================================= *)
(** ** Review workflow: lemmas *)

Lemma purchases_handleUpdatePurchase (reply : outcome) (docId : string)
  (u : PurchaseUpdate) (st : AppState) :
  purchases (handleUpdatePurchase reply docId u st)
  = map (fun p => if String.eqb (id p) docId then spread p u else p) (purchases st).
Proof.
  unfold handleUpdatePurchase.
  destruct (usingMockData st); simpl; [reflexivity|].
  destruct reply; reflexivity.
Qed.

Lemma issued_handleUpdatePurchase (reply : outcome) (docId : string)
  (u : PurchaseUpdate) (st : AppState) :
  issued (handleUpdatePurchase reply docId u st)
  = if usingMockData st then issued st
    else (issued st ++ [UpdateDoc docId (cleanedUpdates u)])%list.
Proof.
  unfold handleUpdatePurchase.
  destruct (usingMockData st); simpl; [reflexivity|].
  destruct reply; reflexivity.
Qed.

Lemma usingMockData_handleUpdatePurchase (reply : outcome) (docId : string)
  (u : PurchaseUpdate) (st : AppState) :
  usingMockData (handleUpdatePurchase reply docId u st)
  = match reply with
    | Fulfilled => usingMockData st
    | Failed => true
    end.
Proof.
  unfold handleUpdatePurchase.
  destruct (usingMockData st) eqn:Hm; simpl.
  - destruct reply; simpl; congruence.
  - destruct reply; simpl; congruence.
Qed.

Lemma find_map_same_id (f : PurchaseDocument -> PurchaseDocument) (d : string)
  (ps : list PurchaseDocument) :
  (forall p, id (f p) = id p) ->
  find (fun p => String.eqb (id p) d) (map f ps)
  = option_map f (find (fun p => String.eqb (id p) d) ps).
Proof.
  intros Hid. induction ps as [|p ps IH]; simpl; [reflexivity|].
  rewrite Hid. destruct (String.eqb (id p) d); [reflexivity | exact IH].
Qed.

Lemma lookup_handleUpdatePurchase (reply : outcome) (docId : string)
  (u : PurchaseUpdate) (st : AppState) :
  u_id u = None ->
  lookup docId (handleUpdatePurchase reply docId u st)
  = option_map (fun p => spread p u) (lookup docId st).
Proof.
  intros Hu. unfold lookup. rewrite purchases_handleUpdatePurchase.
  rewrite find_map_same_id.
  - destruct (find _ (purchases st)) as [p|] eqn:Hf; simpl; [|reflexivity].
    apply find_some in Hf. destruct Hf as [_ Hf]. now rewrite Hf.
  - intros p. destruct (String.eqb (id p) docId); [|reflexivity].
    unfold spread; simpl. now rewrite Hu.
Qed.

Lemma lookup_setActiveTab (t d : string) (st : AppState) :
  lookup d (setActiveTab t st) = lookup d st.
Proof. reflexivity. Qed.

(** An action that does not go through leaves everything as it was. *)
Lemma perform_blocked (props : ReviewProps) (a : ReviewAction) (reply : outcome)
  (st : AppState) (rs : ReviewState) :
  goesThrough props rs a = false -> perform props a reply (st, rs) = (st, rs).
Proof.
  unfold goesThrough, perform, handleAction, handleReject.
  destruct (isReviewer props); simpl; [|destruct a; reflexivity].
  destruct a; simpl; try discriminate.
  destruct (Nat.eqb _ 0); simpl; [reflexivity | discriminate].
Qed.

(** The record an action that goes through leaves in the local list. *)
Lemma lookup_perform (props : ReviewProps) (a : ReviewAction) (reply : outcome)
  (st : AppState) (rs : ReviewState) :
  goesThrough props rs a = true ->
  lookup (id (item props)) (fst (perform props a reply (st, rs)))
  = option_map
      (fun p => spread p match a with
                         | Approve => statusUpdate VALIDATED
                         | Resolve => statusUpdate RESOLVED
                         | Reject nowIso => rejectUpdate props rs nowIso
                         end)
      (lookup (id (item props)) st).
Proof.
  unfold goesThrough, perform, handleAction, handleReject.
  destruct (isReviewer props); simpl; [|discriminate].
  destruct a; simpl.
  - intros _. now rewrite lookup_setActiveTab, lookup_handleUpdatePurchase.
  - intros _. now rewrite lookup_setActiveTab, lookup_handleUpdatePurchase.
  - destruct (Nat.eqb _ 0); simpl; [discriminate|].
    intros _. now rewrite lookup_setActiveTab, lookup_handleUpdatePurchase.
Qed.

(* ================================================================= *)
(** ** Review workflow: properties *)

(** C2, as the specification states it, fails: a reviewer who opens the
    rejected record p9 and approves it turns its status into VALIDATED, and
    a reviewer who rejects an already validated record turns it into
    REJECTED. *)
Lemma C2_counterexample :
  terminal (status rejectedDoc) = true
  /\ statusOf "p9" (appWith [rejectedDoc]) = Some REJECTED
  /\ statusOf "p9"
       (fst (perform (mkReviewProps rejectedDoc sarah) Approve Fulfilled
               (appWith [rejectedDoc], freshReview)))
     = Some VALIDATED
  /\ statusOf "p1"
       (fst (perform (mkReviewProps staplesOld sarah)
               (Reject "2024-02-01T09:00:00.000Z") Fulfilled
               (appWith [staplesOld], wasteTicked)))
     = Some REJECTED.
Proof. repeat split. Qed.

(** C2, amended: the workflow does not look at the current status.  An
    action goes through exactly when the actor is a reviewer and, for a
    rejection, at least one reason tag is selected; it then sets the status
    of the reviewed record to the status the action asks for, whatever the
    status was, terminal or not.  An action that does not go through leaves
    the status as it was. *)
Theorem C2_status_after_action (props : ReviewProps) (a : ReviewAction)
  (reply : outcome) (st : AppState) (rs : ReviewState) :
  statusOf (id (item props)) (fst (perform props a reply (st, rs)))
  = if goesThrough props rs a
    then option_map (fun _ => targetStatus a) (statusOf (id (item props)) st)
    else statusOf (id (item props)) st.
Proof.
  destruct (goesThrough props rs a) eqn:Hg.
  - unfold statusOf. rewrite (lookup_perform props a reply st rs Hg).
    destruct (lookup (id (item props)) st) as [p|]; simpl; [|reflexivity].
    destruct a; reflexivity.
  - now rewrite (perform_blocked props a reply st rs Hg).
Qed.

(** C3, as the specification states it, fails twice.  A rejection with the
    notes left blank goes through and leaves [rejectionNotes] unset, so not
    all four fields are present on a REJECTED record; and approving a record
    that was rejected before leaves its rejection metadata in place on a
    VALIDATED record. *)
Lemma C3_counterexample :
  (exists p,
      lookup "p3"
        (fst (handleReject (mkReviewProps pendingDoc sarah) "2024-02-01T09:00:00.000Z"
                Fulfilled (appWith [pendingDoc], wasteTicked))) = Some p
      /\ status p = REJECTED
      /\ rejectionNotes p = None
      /\ allRejectionMetadata p = false)
  /\ (exists q,
        lookup "p9"
          (fst (handleAction (mkReviewProps rejectedDoc sarah) VALIDATED Fulfilled
                  (appWith [rejectedDoc], freshReview))) = Some q
        /\ status q = VALIDATED
        /\ anyRejectionMetadata q = true).
Proof.
  split; eexists; (split; [reflexivity|]); repeat split.
Qed.

(** C3, amended: a rejection that goes through leaves the record with
    status REJECTED, [rejectionFlags] the selected tags (at least one),
    [rejectedBy] the reviewer's name and [rejectedAt] the time stamp, and
    with [rejectionNotes] the trimmed notes when they are not blank and
    unset otherwise.  An approval writes the status only: it leaves the four
    rejection metadata fields as they were, so none is set afterwards if
    none was set before. *)
Theorem C3_rejection_metadata (props : ReviewProps) (nowIso : string)
  (reply : outcome) (st : AppState) (rs : ReviewState) (p : PurchaseDocument)
  (Hrev : isReviewer props = true)
  (Hsel : rv_selectedRejectionFlags rs <> [])
  (Hfound : lookup (id (item props)) st = Some p) :
  (exists p',
      lookup (id (item props)) (fst (handleReject props nowIso reply (st, rs))) = Some p'
      /\ status p' = REJECTED
      /\ rejectionFlags p' = Some (rv_selectedRejectionFlags rs)
      /\ rejectedBy p' = Some (user_name (user props))
      /\ rejectedAt p' = Some nowIso
      /\ rejectionNotes p' = match JS.trim (rv_rejectionNotes rs) with
                             | EmptyString => None
                             | s => Some s
                             end)
  /\ (exists q,
        lookup (id (item props)) (fst (handleAction props VALIDATED reply (st, rs))) = Some q
        /\ status q = VALIDATED
        /\ rejectionFlags q = rejectionFlags p
        /\ rejectionNotes q = rejectionNotes p
        /\ rejectedBy q = rejectedBy p
        /\ rejectedAt q = rejectedAt p
        /\ (anyRejectionMetadata p = false -> anyRejectionMetadata q = false)).
Proof.
  split.
  - assert (Hg : goesThrough props rs (Reject nowIso) = true).
    { unfold goesThrough. rewrite Hrev. simpl.
      destruct (rv_selectedRejectionFlags rs); [congruence | reflexivity]. }
    pose proof (lookup_perform props (Reject nowIso) reply st rs Hg) as H.
    simpl in H. rewrite Hfound in H. simpl in H.
    eexists. split; [exact H|]. simpl.
    repeat split.
    unfold notesSlot. destruct (JS.trim (rv_rejectionNotes rs)); reflexivity.
  - assert (Hg : goesThrough props rs Approve = true).
    { unfold goesThrough. now rewrite Hrev. }
    pose proof (lookup_perform props Approve reply st rs Hg) as H.
    simpl in H. rewrite Hfound in H. simpl in H.
    eexists. split; [exact H|]. simpl.
    repeat split. unfold anyRejectionMetadata. simpl. tauto.
Qed.

(** A reviewer rejects, or approves, the pending record p3 with one reason
    ticked and no notes. *)
Lemma C3_rejection_metadata_witness :
  (exists p',
      lookup "p3"
        (fst (handleReject (mkReviewProps pendingDoc sarah) "2024-02-01T09:00:00.000Z"
                Fulfilled (appWith [pendingDoc], wasteTicked))) = Some p'
      /\ status p' = REJECTED
      /\ rejectionFlags p' = Some [WASTE]
      /\ rejectedBy p' = Some "Sarah Reviewer"
      /\ rejectedAt p' = Some "2024-02-01T09:00:00.000Z"
      /\ rejectionNotes p' = None)
  /\ (exists q,
        lookup "p3"
          (fst (handleAction (mkReviewProps pendingDoc sarah) VALIDATED Fulfilled
                  (appWith [pendingDoc], wasteTicked))) = Some q
        /\ status q = VALIDATED
        /\ rejectionFlags q = None
        /\ rejectionNotes q = None
        /\ rejectedBy q = None
        /\ rejectedAt q = None
        /\ (anyRejectionMetadata pendingDoc = false -> anyRejectionMetadata q = false)).
Proof.
  apply (C3_rejection_metadata (mkReviewProps pendingDoc sarah)
           "2024-02-01T09:00:00.000Z" Fulfilled (appWith [pendingDoc]) wasteTicked
           pendingDoc).
  - reflexivity.
  - simpl. discriminate.
  - reflexivity.
Defined.

Lemma sameExceptStatus_refl (p : PurchaseDocument) : sameExceptStatus p p.
Proof. unfold sameExceptStatus. repeat split. Qed.

Lemma sameExceptStatus_statusUpdate (p : PurchaseDocument) (s : ReviewStatus) :
  sameExceptStatus p (spread p (statusUpdate s)).
Proof. unfold sameExceptStatus. repeat split. Qed.

Lemma Forall2_map_related {A} (R : A -> A -> Prop) (f : A -> A) (l : list A) :
  (forall x, R x (f x)) -> Forall2 R l (map f l).
Proof.
  intros H. induction l as [|x l IH]; simpl; constructor; auto.
Qed.

(** C10: [handleAction] writes the status of the reviewed record and
    nothing else.  Every record of the local list keeps all its other
    fields, rejection metadata included; records with another id are kept
    whole; and the only write that may be issued carries the update
    [{ status }], whose only key is [status], also after the removal of
    undefined values. *)
Theorem C10_handleAction_writes_status_only (props : ReviewProps) (s : ReviewStatus)
  (reply : outcome) (st : AppState) (rs : ReviewState) :
  Forall2 sameExceptStatus
    (purchases st) (purchases (fst (handleAction props s reply (st, rs))))
  /\ purchases (fst (handleAction props s reply (st, rs)))
     = map (fun p =>
              if (isReviewer props && String.eqb (id p) (id (item props)))%bool
              then spread p (statusUpdate s) else p)
         (purchases st)
  /\ (issued (fst (handleAction props s reply (st, rs))) = issued st
      \/ issued (fst (handleAction props s reply (st, rs)))
         = (issued st ++ [UpdateDoc (id (item props)) (statusUpdate s)])%list)
  /\ cleanedUpdates (statusUpdate s) = statusUpdate s
  /\ keysOf (statusUpdate s) = ["status"].
Proof.
  assert (Hp : purchases (fst (handleAction props s reply (st, rs)))
               = map (fun p =>
                        if (isReviewer props && String.eqb (id p) (id (item props)))%bool
                        then spread p (statusUpdate s) else p)
                   (purchases st)).
  { unfold handleAction. destruct (isReviewer props); simpl.
    - apply purchases_handleUpdatePurchase.
    - symmetry. apply map_id. }
  split; [|split; [exact Hp | split; [|split; reflexivity]]].
  - rewrite Hp. apply Forall2_map_related. intros p.
    destruct (isReviewer props && String.eqb (id p) (id (item props)))%bool.
    + apply sameExceptStatus_statusUpdate.
    + apply sameExceptStatus_refl.
  - unfold handleAction. destruct (isReviewer props); simpl; [|now left].
    rewrite issued_handleUpdatePurchase.
    destruct (usingMockData st); [now left | now right].
Qed.

(** C8, as the specification states it, fails in its first half: when the
    write of an approval fails, the local list keeps the optimistic status
    VALIDATED instead of going back to PENDING, and it is the very list
    that a successful write leaves, with no mark on the record.  The switch
    to the sandbox mode does happen. *)
Lemma C8_counterexample :
  purchases (appWith [pendingDoc]) = [pendingDoc]
  /\ purchases
       (handleUpdatePurchase Failed "p3" (statusUpdate VALIDATED) (appWith [pendingDoc]))
     = [spread pendingDoc (statusUpdate VALIDATED)]
  /\ statusOf "p3"
       (handleUpdatePurchase Failed "p3" (statusUpdate VALIDATED) (appWith [pendingDoc]))
     = Some VALIDATED
  /\ purchases
       (handleUpdatePurchase Failed "p3" (statusUpdate VALIDATED) (appWith [pendingDoc]))
     <> purchases (appWith [pendingDoc])
  /\ purchases
       (handleUpdatePurchase Failed "p3" (statusUpdate VALIDATED) (appWith [pendingDoc]))
     = purchases
         (handleUpdatePurchase Fulfilled "p3" (statusUpdate VALIDATED) (appWith [pendingDoc])).
Proof.
  split; [reflexivity|]. split; [reflexivity|]. split; [reflexivity|].
  split; [|reflexivity].
  simpl. intros H. discriminate H.
Qed.

(** C8, amended: when the write of an update fails, the optimistic local
    change is kept, not rolled back, and carries no mark of its own; the
    application switches to the sandbox mode, which the banner of the
    dashboard shows, and from then on updates are local only: no further
    write is issued. *)
Theorem C8_failed_write_switches_to_sandbox (docId : string) (u : PurchaseUpdate)
  (st : AppState) (Hlive : usingMockData st = false) :
  purchases (handleUpdatePurchase Failed docId u st)
  = map (fun p => if String.eqb (id p) docId then spread p u else p) (purchases st)
  /\ usingMockData (handleUpdatePurchase Failed docId u st) = true
  /\ sandboxBanner (setActiveTab "dashboard" (handleUpdatePurchase Failed docId u st)) = true
  /\ (forall reply' docId' u',
         issued (handleUpdatePurchase reply' docId' u' (handleUpdatePurchase Failed docId u st))
         = issued (handleUpdatePurchase Failed docId u st)).
Proof.
  split; [apply purchases_handleUpdatePurchase|].
  assert (Hm : usingMockData (handleUpdatePurchase Failed docId u st) = true)
    by apply usingMockData_handleUpdatePurchase.
  split; [exact Hm|]. split.
  - unfold sandboxBanner. simpl. now rewrite Hm.
  - intros reply' docId' u'. rewrite issued_handleUpdatePurchase. now rewrite Hm.
Qed.

(** The approval of p3 fails to reach the store. *)
Lemma C8_failed_write_witness :
  purchases (handleUpdatePurchase Failed "p3" (statusUpdate VALIDATED) (appWith [pendingDoc]))
  = map (fun p => if String.eqb (id p) "p3" then spread p (statusUpdate VALIDATED) else p)
      (purchases (appWith [pendingDoc]))
  /\ usingMockData
       (handleUpdatePurchase Failed "p3" (statusUpdate VALIDATED) (appWith [pendingDoc]))
     = true
  /\ sandboxBanner
       (setActiveTab "dashboard"
          (handleUpdatePurchase Failed "p3" (statusUpdate VALIDATED) (appWith [pendingDoc])))
     = true
  /\ (forall reply' docId' u',
         issued
           (handleUpdatePurchase reply' docId' u'
              (handleUpdatePurchase Failed "p3" (statusUpdate VALIDATED)
                 (appWith [pendingDoc])))
         = issued
             (handleUpdatePurchase Failed "p3" (statusUpdate VALIDATED)
                (appWith [pendingDoc]))).
Proof.
  apply (C8_failed_write_switches_to_sandbox "p3" (statusUpdate VALIDATED)
           (appWith [pendingDoc])).
  reflexivity.
Defined.

(* ================================================================= *)
(** ** Record creation: properties *)

Lemma purchases_handleUploadComplete (env : UploadEnv) (data : ExtractionResult)
  (st : AppState) :
  exists fileUrl,
    purchases (handleUploadComplete env data st)
    = withId (newPurchase data (currentUser st) fileUrl (today env))
        ("uploading-" ++ JS.show (of_Z (now env)))
      :: purchases st
    /\ (usingMockData st = false ->
        issued (handleUploadComplete env data st)
        = (issued st ++ [AddDoc (newPurchase data (currentUser st) fileUrl (today env))])%list).
Proof.
  unfold handleUploadComplete.
  match goal with
  | |- context [newPurchase data (currentUser st) ?f (today env)] => exists f
  end.
  destruct (usingMockData st); simpl.
  - split; [reflexivity | discriminate].
  - destruct (addDocReply env); simpl; split; reflexivity.
Qed.

(** C6: the record that a confirmed submission creates has status FLAGGED
    when the extraction's flags list is not empty and PENDING when it is
    empty; the same holds of the record's own flags list and of the document
    handed to the store. *)
Theorem C6_status_on_creation (env : UploadEnv) (data : ExtractionResult)
  (st : AppState) :
  exists rec,
    purchases (handleUploadComplete env data st) = rec :: purchases st
    /\ (x_flags data <> [] -> status rec = FLAGGED)
    /\ (x_flags data = [] -> status rec = PENDING)
    /\ status rec = match flags rec with [] => PENDING | _ :: _ => FLAGGED end
    /\ (usingMockData st = false ->
        exists np,
          issued (handleUploadComplete env data st) = (issued st ++ [AddDoc np])%list
          /\ np_status np = status rec).
Proof.
  destruct (purchases_handleUploadComplete env data st) as (fileUrl & Hp & Hi).
  eexists. split; [exact Hp|]. simpl.
  split; [|split; [|split]].
  - destruct (x_flags data); [congruence | reflexivity].
  - intros ->. reflexivity.
  - destruct (x_flags data); reflexivity.
  - intros Hm. eexists. split; [exact (Hi Hm) | reflexivity].
Qed.

(** C7, as the specification states it, fails: nothing keeps a negative
    amount out.  For the extraction of a refund of -5 the created record
    stores -5. *)
Lemma C7_counterexample :
  exists rec,
    purchases (handleUploadComplete liveEnv refund (appWith [])) = [rec]
    /\ amount rec = Num (-5 # 1)
    /\ ~ nonNegative (amount rec).
Proof.
  eexists. split; [reflexivity|]. split; [reflexivity|].
  simpl. intros H. apply H. reflexivity.
Qed.

(** C7, amended: the stored amount is always a number: the extraction's
    amount when that is a number other than zero, and 0 when the extraction
    produced none.  It is not negative whenever the extracted amount is not
    negative or is missing.  The created document is insertable, and is
    handed to the store when the application is not in sandbox mode. *)
Theorem C7_amount_on_creation (env : UploadEnv) (data : ExtractionResult)
  (st : AppState) :
  exists rec,
    purchases (handleUploadComplete env data st) = rec :: purchases st
    /\ amount rec = JS.or_else (x_amount data) (of_Z 0)
    /\ (exists q, amount rec = Num q)
    /\ (x_amount data = NaN -> amount rec = of_Z 0)
    /\ (nonNegative (x_amount data) \/ x_amount data = NaN -> nonNegative (amount rec))
    /\ (usingMockData st = false ->
        exists np,
          issued (handleUploadComplete env data st) = (issued st ++ [AddDoc np])%list
          /\ np_amount np = amount rec
          /\ insertable np = true).
Proof.
  destruct (purchases_handleUploadComplete env data st) as (fileUrl & Hp & Hi).
  eexists. split; [exact Hp|]. simpl.
  assert (Hnum : exists q, JS.or_else (x_amount data) (of_Z 0) = Num q).
  { unfold JS.or_else. destruct (x_amount data) as [q|]; simpl.
    - destruct (negb (Qeq_bool q 0)); eexists; reflexivity.
    - eexists; reflexivity. }
  split; [reflexivity|]. split; [exact Hnum|]. split; [|split].
  - intros ->. reflexivity.
  - intros [H | ->]; [|simpl; discriminate].
    unfold JS.or_else. destruct (x_amount data) as [q|]; simpl in *; [|contradiction].
    destruct (negb (Qeq_bool q 0)); simpl; [exact H | discriminate].
  - intros Hm. eexists. split; [exact (Hi Hm)|]. split; [reflexivity|].
    unfold insertable. simpl. destruct Hnum as [q ->]. reflexivity.
Qed.

(* ================================================================= *)
(** ** Intake orchestrator: properties *)

(** C4: the fallback to the extraction's own estimate is written in the
    [catch] of [handleProcess], but a failed search never reaches it:
    [searchMarketPriceStreaming] catches the failure itself and resolves to
    [null].  So a failed search leaves the price intelligence as the
    normalization step left it, whatever the estimate; in the scenario of
    the specification (estimate 250, amount 400) [stateAverage] stays unset,
    while the [catch], had it run, would have given 250 and 150. *)
Theorem C4_failed_search_skips_fallback :
  (forall d n s,
      up_priceIntelligence (afterSearchReply d n SearchThrows s) = up_priceIntelligence s)
  /\ (exists ss,
        run (receiptLoaded
             ++ [Arrive 0 (Analysis (Some hammer));
                 Arrive 0 (Normalization (Resolved (Some hammerItem)));
                 Arrive 1 (SearchResult SearchThrows)])%list
            (mkSession initialUpload [])
        = Some ss
        /\ up_priceIntelligence (ui ss) = Some (itemOnly hammerItem)
        /\ option_map stateAverage (up_priceIntelligence (ui ss)) = Some None
        /\ option_map savingsOpportunity (up_priceIntelligence (ui ss)) = Some None)
  /\ option_map stateAverage
       (up_priceIntelligence (afterSearch hammer hammerItem Threw initialUpload))
     = Some (Some (of_Z 250))
  /\ option_map savingsOpportunity
       (up_priceIntelligence (afterSearch hammer hammerItem Threw initialUpload))
     = Some (Some (Num 150)).
Proof.
  split; [|split; [|split]].
  - intros d n s. reflexivity.
  - eexists. split; [reflexivity|]. repeat split.
  - reflexivity.
  - reflexivity.
Qed.

(** C9, as the specification states it, fails: the user loads a receipt,
    has it analysed, and discards it while the two enrichment calls are
    outstanding; the commitment result that arrives afterwards is written
    into the cleared screen. *)
Lemma C9_counterexample :
  exists afterReset afterArrival,
    run (receiptLoaded ++ [Arrive 0 (Analysis (Some hammer)); ClickReset])%list
        (mkSession initialUpload [])
    = Some afterReset
    /\ ui afterReset = initialUpload
    /\ inflight afterReset = [PNormalize hammer; PCommitments hammer]
    /\ step (Arrive 1 (Commitments (Resolved (Some zoomCommitment)))) afterReset
       = Some afterArrival
    /\ up_commitmentData (ui afterArrival) = Some zoomCommitment
    /\ ~ enrichmentCleared (ui afterArrival).
Proof.
  eexists. eexists.
  split; [reflexivity|]. split; [reflexivity|]. split; [reflexivity|].
  split; [reflexivity|]. split; [reflexivity|].
  intros (_ & _ & _ & H). discriminate H.
Qed.

(** C9, amended: [reset] clears the screen but leaves the outstanding
    enrichment calls outstanding, and a result that arrives afterwards is
    applied to the cleared screen: a commitment result becomes the
    commitment data, a normalization result becomes the price intelligence
    and starts the price search, and a market price becomes the state
    average. *)
Theorem C9_late_results_are_applied (ss : Session) (k : nat) (pend : Pending)
  (Hk : nth_error (inflight ss) k = Some pend)
  (He : isEnrichment pend = true) :
  exists ss1,
    step ClickReset ss = Some ss1
    /\ enrichmentCleared (ui ss1)
    /\ nth_error (inflight ss1) k = Some pend
    /\ match pend with
       | PAnalyze => True
       | PCommitments _ =>
           forall c, exists ss2,
             step (Arrive k (Commitments (Resolved (Some c)))) ss1 = Some ss2
             /\ up_commitmentData (ui ss2) = Some c
       | PNormalize d =>
           forall n, exists ss2,
             step (Arrive k (Normalization (Resolved (Some n)))) ss1 = Some ss2
             /\ up_priceIntelligence (ui ss2) = Some (itemOnly n)
             /\ up_priceSearching (ui ss2) = true
             /\ In (PSearch d n) (inflight ss2)
       | PSearch _ _ =>
           forall result sources,
             JS.truthy (pj_averagePrice result) = true ->
             exists ss2,
               step (Arrive k (SearchResult (SearchJson result sources))) ss1 = Some ss2
               /\ option_map stateAverage (up_priceIntelligence (ui ss2))
                  = Some (Some (pj_averagePrice result))
       end.
Proof.
  eexists. split; [reflexivity|]. split; [repeat split|]. split; [exact Hk|].
  destruct pend as [|d|d n|d]; simpl in He; try discriminate.
  - intros n. eexists. simpl. rewrite Hk. split; [reflexivity|]. simpl.
    repeat split. apply in_or_app. right. now left.
  - intros result sources Ht. eexists. simpl. rewrite Hk. split; [reflexivity|].
    unfold afterSearchReply. simpl. rewrite Ht. reflexivity.
  - intros c. eexists. simpl. rewrite Hk. split; reflexivity.
Qed.

(** A reset with the normalization and the commitment call outstanding. *)
Lemma C9_late_results_witness :
  exists ss1,
    step ClickReset (mkSession initialUpload [PNormalize hammer; PCommitments hammer])
    = Some ss1
    /\ enrichmentCleared (ui ss1)
    /\ nth_error (inflight ss1) 1 = Some (PCommitments hammer)
    /\ forall c, exists ss2,
         step (Arrive 1 (Commitments (Resolved (Some c)))) ss1 = Some ss2
         /\ up_commitmentData (ui ss2) = Some c.
Proof.
  apply (C9_late_results_are_applied
           (mkSession initialUpload [PNormalize hammer; PCommitments hammer])
           1 (PCommitments hammer)).
  - reflexivity.
  - reflexivity.
Defined.

(* ================================================================= *)
(** ** Further properties *)

(** The matches come out in descending order of score. *)
Lemma duplicateMatches_descending (Date_getTime : string -> number)
  (result : option ExtractionResult) (existing : list PurchaseDocument) :
  descending (duplicateMatches Date_getTime result existing).
Proof.
  destruct result as [r|]; simpl; [apply sortByScore_descending | constructor].
Qed.

(** The payload of a partial update never carries [undefined]. *)
Lemma cleanedUpdates_no_undefined (u : PurchaseUpdate) :
  hasUndefined (cleanedUpdates u) = false.
Proof.
  unfold hasUndefined, cleanedUpdates; simpl.
  destruct (u_fileUrl u), (u_aiConfidence u), (u_suggestedGlCode u),
    (u_marketPriceEstimate u), (u_isSubscription u), (u_rejectionFlags u),
    (u_rejectionNotes u), (u_rejectedBy u), (u_rejectedAt u); reflexivity.
Qed.

(** A rejection with blank notes clears the notes locally, yet its payload
    has no [rejectionNotes] key. *)
Example reject_blank_notes_payload :
  u_rejectionNotes (rejectUpdate (mkReviewProps rejectedDoc sarah) wasteTicked "t") = Undefined
  /\ keysOf (cleanedUpdates (rejectUpdate (mkReviewProps rejectedDoc sarah) wasteTicked "t"))
     = ["status"; "rejectionFlags"; "rejectedBy"; "rejectedAt"]
  /\ rejectionNotes
       (spread rejectedDoc (rejectUpdate (mkReviewProps rejectedDoc sarah) wasteTicked "t"))
     = None.
Proof. repeat split. Qed.

(* ================================================================= *)
(** ** Worked examples *)

(** The concrete scenario of the specification: one match, score 100. *)
Example staples_scenario :
  duplicateMatches IsoDate.getTime (Some staplesNew) [staplesOld]
  = [mkMatch staplesOld 100 ["Same vendor"; "Same amount"; "Within 5 days"]].
Proof. reflexivity. Qed.

(** Same vendor and amount, 200 days apart: two signals, score 70, listed. *)
Example two_signals_far_apart :
  duplicateMatches IsoDate.getTime (Some staplesNew) [staplesLongAgo]
  = [mkMatch staplesLongAgo 70 ["Same vendor"; "Same amount"]].
Proof. reflexivity. Qed.

(** The amount alone, the strongest single signal, lists nothing. *)
Example one_signal_alone :
  scorePurchase IsoDate.getTime staplesNew sameAmountOnly = (40, ["Same amount"])
  /\ duplicateMatches IsoDate.getTime (Some staplesNew) [sameAmountOnly] = [].
Proof. split; reflexivity. Qed.

(** The higher score comes first, whatever the order of the records. *)
Example sorted_by_score :
  map score
    (duplicateMatches IsoDate.getTime (Some staplesNew)
       [staplesLongAgo; sameAmountOnly; staplesOld])
  = [100; 70].
Proof. reflexivity. Qed.

(** No result yet, no matches. *)
Example no_result_no_matches :
  duplicateMatches IsoDate.getTime None [staplesOld] = [].
Proof. reflexivity. Qed.

Example isoDate_examples :
  IsoDate.getTime "1970-01-02" = of_Z 86400000
  /\ IsoDate.getTime "2024-01-15" = of_Z 1705276800000
  /\ IsoDate.getTime "2024-13-01" = NaN
  /\ IsoDate.getTime "yesterday" = NaN.
Proof. repeat split. Qed.

Example trim_examples :
  JS.trim "  a b  " = "a b" /\ JS.trim "   " = "" /\ JS.toLowerCase "STAPLES" = "staples".
Proof. repeat split. Qed.

(** A submitter's click on approve changes nothing. *)
Example submitter_cannot_approve :
  perform (mkReviewProps pendingDoc mark) Approve Fulfilled (appWith [pendingDoc], freshReview)
  = (appWith [pendingDoc], freshReview).
Proof. reflexivity. Qed.

(** A rejection without a reason tag changes nothing and issues no write. *)
Example reject_needs_a_reason :
  perform (mkReviewProps pendingDoc sarah) (Reject "t") Fulfilled
    (appWith [pendingDoc], openRejectModal freshReview)
  = (appWith [pendingDoc], openRejectModal freshReview).
Proof. reflexivity. Qed.

(** An extraction without an amount creates a record with amount 0. *)
Example missing_amount_defaults_to_zero :
  map amount (purchases (handleUploadComplete liveEnv noAmount (appWith []))) = [of_Z 0]
  /\ map status (purchases (handleUploadComplete liveEnv noAmount (appWith []))) = [PENDING]
  /\ map id (purchases (handleUploadComplete liveEnv noAmount (appWith [])))
     = ["uploading-1704844800000"].
Proof. repeat split. Qed.

(** The provider answers ["averagePrice": "N/A"]: the string is truthy,
    [Number("N/A")] is [NaN], and [NaN !== null] lets it through: the state
    average is [NaN], and no saving is shown. *)
Example untyped_average_is_stored :
  option_map (fun i => (stateAverage i, savingsOpportunity i))
    (up_priceIntelligence
       (afterSearchReply hammer hammerItem
          (SearchJsonUntyped NaN (mkPriceJson NaN None NaN "") []) initialUpload))
  = Some (Some NaN, None).
Proof. reflexivity. Qed.

(** A search that succeeds with an average of 250 on an amount of 400. *)
Example successful_search :
  option_map (fun i => (stateAverage i, savingsOpportunity i))
    (up_priceIntelligence
       (afterSearchReply hammer hammerItem
          (SearchJson (mkPriceJson (of_Z 250) None NaN "") []) initialUpload))
  = Some (Some (of_Z 250), Some (Num 150)).
Proof. reflexivity. Qed.

(* ================================================================= *)
(** ** Submission gate: properties *)

Lemma stagedSubmission_setShowDuplicateWarning (v : bool) (s : UploadState) :
  stagedSubmission (setShowDuplicateWarning v s) = stagedSubmission s.
Proof. reflexivity. Qed.

(** X1: with a result and a preview staged, confirming submits at once
    exactly when the scorer lists no match or the warning is already shown;
    otherwise it shows the warning and submits nothing; and a second
    confirmation always submits: there is at most one prompt. *)
Theorem X1_confirm_prompts_at_most_once
  (Date_getTime : string -> number) (existing : list PurchaseDocument)
  (s : UploadState) (r : ExtractionResult) (pv : string)
  (Hs : stagedSubmission s = Some (r, pv)) :
  (snd (handleConfirm Date_getTime existing s) = Some (r, pv) <->
     duplicateMatches Date_getTime (up_result s) existing = []
     \/ up_showDuplicateWarning s = true)
  /\ (snd (handleConfirm Date_getTime existing s) = None ->
      up_showDuplicateWarning (fst (handleConfirm Date_getTime existing s)) = true)
  /\ snd (handleConfirm Date_getTime existing
            (fst (handleConfirm Date_getTime existing s))) = Some (r, pv).
Proof.
  unfold handleConfirm. rewrite Hs.
  destruct (duplicateMatches Date_getTime (up_result s) existing) as [|m ms] eqn:Hm;
    simpl.
  - rewrite Hs, Hm. simpl. repeat split; auto; discriminate.
  - destruct (up_showDuplicateWarning s) eqn:Hw; simpl.
    + rewrite Hs, Hm, Hw. simpl. repeat split; auto; discriminate.
    + rewrite stagedSubmission_setShowDuplicateWarning, Hs. simpl.
      rewrite Hm. simpl. repeat split; auto; try discriminate.
      intros [H | H]; discriminate.
Qed.

(** The Staples receipt against the earlier Staples record. *)
Lemma X1_confirm_witness :
  (snd (handleConfirm IsoDate.getTime [staplesOld] staplesStaged)
   = Some (staplesNew, "data:image/jpeg;base64,AAAA") <->
     duplicateMatches IsoDate.getTime (up_result staplesStaged) [staplesOld] = []
     \/ up_showDuplicateWarning staplesStaged = true)
  /\ (snd (handleConfirm IsoDate.getTime [staplesOld] staplesStaged) = None ->
      up_showDuplicateWarning (fst (handleConfirm IsoDate.getTime [staplesOld] staplesStaged))
      = true)
  /\ snd (handleConfirm IsoDate.getTime [staplesOld]
            (fst (handleConfirm IsoDate.getTime [staplesOld] staplesStaged)))
     = Some (staplesNew, "data:image/jpeg;base64,AAAA").
Proof.
  apply (X1_confirm_prompts_at_most_once IsoDate.getTime [staplesOld] staplesStaged
           staplesNew "data:image/jpeg;base64,AAAA").
  reflexivity.
Defined.

(** X2: cancelling the warning arms it again: when the scorer lists a
    match, the next confirmation submits nothing and shows the warning once
    more, while the forced submission goes out whatever the scorer lists. *)
Theorem X2_cancel_rearms_force_bypasses
  (Date_getTime : string -> number) (existing : list PurchaseDocument)
  (s : UploadState) (r : ExtractionResult) (pv : string)
  (Hs : stagedSubmission s = Some (r, pv))
  (Hm : duplicateMatches Date_getTime (up_result s) existing <> []) :
  handleConfirm Date_getTime existing (handleCancelSubmission s)
  = (setShowDuplicateWarning true s, None)
  /\ handleForceSubmit (handleCancelSubmission s) = Some (r, pv)
  /\ handleForceSubmit s = Some (r, pv).
Proof.
  unfold handleConfirm, handleForceSubmit, handleCancelSubmission.
  rewrite stagedSubmission_setShowDuplicateWarning, Hs. simpl.
  destruct (duplicateMatches Date_getTime (up_result s) existing); [congruence|].
  simpl. repeat split.
Qed.

Lemma X2_cancel_witness :
  handleConfirm IsoDate.getTime [staplesOld] (handleCancelSubmission staplesStaged)
  = (setShowDuplicateWarning true staplesStaged, None)
  /\ handleForceSubmit (handleCancelSubmission staplesStaged)
     = Some (staplesNew, "data:image/jpeg;base64,AAAA")
  /\ handleForceSubmit staplesStaged = Some (staplesNew, "data:image/jpeg;base64,AAAA").
Proof.
  apply (X2_cancel_rearms_force_bypasses IsoDate.getTime [staplesOld] staplesStaged
           staplesNew "data:image/jpeg;base64,AAAA").
  - reflexivity.
  - vm_compute. discriminate.
Defined.

(* ================================================================= *)
(** ** Event loop: properties *)

(** X3: no arrival other than a successful analysis touches what the user
    can submit: an enrichment result, an enrichment failure and a failed
    analysis all leave the result, the preview and the duplicate warning as
    they were, and with them the outcome of a confirmation. *)
Theorem X3_enrichment_leaves_submission_alone
  (k : nat) (a : Arrival) (ss ss' : Session)
  (Hstep : step (Arrive k a) ss = Some ss')
  (Ha : forall d, a <> Analysis (Some d)) :
  up_result (ui ss') = up_result (ui ss)
  /\ up_preview (ui ss') = up_preview (ui ss)
  /\ up_showDuplicateWarning (ui ss') = up_showDuplicateWarning (ui ss)
  /\ forall Date_getTime existing,
       snd (handleConfirm Date_getTime existing (ui ss'))
       = snd (handleConfirm Date_getTime existing (ui ss)).
Proof.
  assert (H3 : up_result (ui ss') = up_result (ui ss)
               /\ up_preview (ui ss') = up_preview (ui ss)
               /\ up_showDuplicateWarning (ui ss') = up_showDuplicateWarning (ui ss)).
  { simpl in Hstep.
    destruct (nth_error (inflight ss) k) as [[|d|d n|d]|]; try discriminate;
      destruct a as [r|r|reply|r]; try discriminate;
      injection Hstep as <-.
    - destruct r as [d|]; [exfalso; apply (Ha d); reflexivity|].
      simpl. auto.
    - destruct r as [[n|]|]; simpl; auto.
    - unfold afterSearchReply.
      destruct reply as [| |result sources|converted result sources]; simpl; auto.
      destruct (JS.truthy (pj_averagePrice result)); simpl; auto.
    - destruct r as [[c|]|]; simpl; auto. }
  destruct H3 as (Hr & Hp & Hw).
  repeat split; try assumption.
  intros Date_getTime existing. unfold handleConfirm, stagedSubmission.
  rewrite Hr, Hp, Hw.
  destruct (up_result (ui ss)); [|reflexivity].
  destruct (up_preview (ui ss)) as [[|c t]|]; try reflexivity.
  destruct (_ && _)%bool; reflexivity.
Qed.

(** The search for the hammer fails while its receipt is on screen. *)
Lemma X3_enrichment_witness :
  up_result (afterSearchReply hammer hammerItem SearchThrows staplesStaged)
  = up_result staplesStaged
  /\ up_preview (afterSearchReply hammer hammerItem SearchThrows staplesStaged)
     = up_preview staplesStaged
  /\ up_showDuplicateWarning (afterSearchReply hammer hammerItem SearchThrows staplesStaged)
     = up_showDuplicateWarning staplesStaged
  /\ forall Date_getTime existing,
       snd (handleConfirm Date_getTime existing
              (afterSearchReply hammer hammerItem SearchThrows staplesStaged))
       = snd (handleConfirm Date_getTime existing staplesStaged).
Proof.
  apply (X3_enrichment_leaves_submission_alone 0 (SearchResult SearchThrows)
           (mkSession staplesStaged [PSearch hammer hammerItem])
           (mkSession (afterSearchReply hammer hammerItem SearchThrows staplesStaged) [])).
  - reflexivity.
  - intros d. discriminate.
Defined.

Lemma existsb_removeNth_other {A} (f : A -> bool) (k : nat) (l : list A) (x : A) :
  nth_error l k = Some x -> f x = false -> existsb f (removeNth k l) = existsb f l.
Proof.
  revert l. induction k as [|k IH]; intros [|h t]; simpl; try discriminate.
  - intros [= ->] Hx. now rewrite Hx.
  - intros Hn Hx. now rewrite (IH t Hn Hx).
Qed.

Lemma step_indicatorsBacked (e : UploadEvent) (ss ss' : Session) :
  step e ss = Some ss' -> indicatorsBacked ss -> indicatorsBacked ss'.
Proof.
  unfold indicatorsBacked, searchOutstanding, analysisOutstanding.
  intros Hstep [Hs Hp]. destruct e as [name dataUrl| | |k a]; simpl in Hstep.
  - injection Hstep as <-. simpl. auto.
  - injection Hstep as <-. unfold handleProcess.
    destruct (up_preview (ui ss)); simpl; [|auto].
    rewrite !existsb_app. simpl. split.
    + intros H. rewrite (Hs H). reflexivity.
    + intros _. apply orb_true_r.
  - injection Hstep as <-. simpl. split; [discriminate | exact Hp].
  - destruct (nth_error (inflight ss) k) as [[|d|d n|d]|] eqn:Hk; try discriminate;
      destruct a as [r|r|reply|r]; try discriminate;
      injection Hstep as <-.
    + destruct r as [d|]; simpl; rewrite ?existsb_app; simpl;
        rewrite ?orb_false_r;
        rewrite (existsb_removeNth_other _ k _ _ Hk eq_refl);
        (split; [exact Hs | discriminate]).
    + destruct r as [[n|]|]; simpl; rewrite ?existsb_app; simpl.
      * split; [intros _; apply orb_true_r|].
        rewrite orb_false_r.
        now rewrite (existsb_removeNth_other _ k _ _ Hk eq_refl).
      * rewrite !(existsb_removeNth_other _ k _ _ Hk eq_refl). auto.
      * rewrite !(existsb_removeNth_other _ k _ _ Hk eq_refl). auto.
    + simpl. split.
      * unfold afterSearchReply.
        destruct (searchMarketPriceStreaming (itemName n) reply) as [updates ret].
        unfold afterSearch. simpl. discriminate.
      * unfold afterSearchReply.
        destruct (searchMarketPriceStreaming (itemName n) reply) as [updates ret].
        assert (Hq : forall us s,
                   up_isProcessing
                     (fold_left (fun s u => setSearchProgress (Some u) s) us s)
                   = up_isProcessing s).
        { induction us as [|u us IH]; intros s; simpl; [reflexivity | now rewrite IH]. }
        assert (Hr : forall s, up_isProcessing
                                 (afterSearch d n (Resolved ret) s) = up_isProcessing s).
        { intros s. unfold afterSearch. destruct ret as [mp|]; simpl; [|reflexivity].
          destruct (averagePrice mp); reflexivity. }
        rewrite Hr, Hq.
        now rewrite (existsb_removeNth_other _ k _ _ Hk eq_refl).
    + rewrite !(existsb_removeNth_other _ k _ _ Hk eq_refl).
      destruct r as [[c|]|]; simpl; auto.
Qed.

Lemma run_invariant (Inv : Session -> Prop) :
  (forall e ss ss', step e ss = Some ss' -> Inv ss -> Inv ss') ->
  forall es ss ss', run es ss = Some ss' -> Inv ss -> Inv ss'.
Proof.
  intros Hstep. induction es as [|e es IH]; intros ss ss'; simpl.
  - intros [= <-]. auto.
  - destruct (step e ss) as [ss1|] eqn:He; [|discriminate].
    intros Hr Hi. apply (IH ss1 ss' Hr). now apply (Hstep e ss ss1).
Qed.

(** X4: in every state the screen can reach, an indicator that is on has a
    call behind it whose arrival switches it off: the price spinner only
    shows while a search is outstanding, and the Analyze button is only
    disabled while an analysis is outstanding. *)
Theorem X4_indicators_have_an_outstanding_call (es : list UploadEvent) (ss : Session)
  (Hrun : run es (mkSession initialUpload []) = Some ss) :
  (up_priceSearching (ui ss) = true -> searchOutstanding (inflight ss) = true)
  /\ (up_isProcessing (ui ss) = true -> analysisOutstanding (inflight ss) = true).
Proof.
  apply (run_invariant indicatorsBacked step_indicatorsBacked es _ ss Hrun).
  split; discriminate.
Qed.

Lemma X4_indicators_witness :
  (up_priceSearching (ui hammerSearching) = true ->
   searchOutstanding (inflight hammerSearching) = true)
  /\ (up_isProcessing (ui hammerSearching) = true ->
      analysisOutstanding (inflight hammerSearching) = true).
Proof.
  apply (X4_indicators_have_an_outstanding_call hammerEvents hammerSearching).
  vm_compute. reflexivity.
Defined.

Lemma positive_sound (n v : number) : positive n = Some v -> JS.gt v (of_Z 0) = true.
Proof.
  unfold positive. destruct (JS.gt n (of_Z 0)) eqn:H; [|discriminate].
  now intros [= <-].
Qed.

Lemma fold_progress_priceIntelligence (us : list SearchProgressUpdate) (s : UploadState) :
  up_priceIntelligence (fold_left (fun s u => setSearchProgress (Some u) s) us s)
  = up_priceIntelligence s.
Proof.
  revert s. induction us as [|u us IH]; intros s; simpl; [reflexivity | now rewrite IH].
Qed.

(** A saving that [positive] lets through is above zero, and the price it
    was taken against is a number. *)
Lemma positive_fsub_number (x a v : number) :
  positive (JS.fsub x a) = Some v ->
  JS.gt v (of_Z 0) = true /\ exists q, a = Num q.
Proof.
  intros Hv. split; [exact (positive_sound _ _ Hv)|].
  destruct a as [q|]; [now exists q|].
  destruct x; discriminate Hv.
Qed.

(** The continuation of the search keeps the price intelligence sound on
    all three of its paths, the fallback included. *)
Lemma afterSearch_soundPrice (d : ExtractionResult) (n : Normalized)
  (r : settled (option MarketPriceResult)) (s : UploadState) :
  soundPriceOpt (up_priceIntelligence s) = true ->
  soundPriceOpt (up_priceIntelligence (afterSearch d n r s)) = true.
Proof.
  intros Hs. unfold afterSearch.
  destruct r as [[mp|]|]; simpl; try exact Hs.
  - destruct (averagePrice mp) as [a|] eqn:Ha; simpl; [|exact Hs].
    unfold soundPrice; simpl.
    destruct (positive _) as [v|] eqn:Hv; [|reflexivity].
    destruct (positive_fsub_number _ _ _ Hv) as [Hg [q ->]].
    now rewrite Hg.
  - destruct (x_marketPriceEstimate d) as [est|]; [|exact Hs].
    destruct (JS.truthy est) eqn:Ht; simpl; [|exact Hs].
    unfold soundPrice; simpl.
    destruct (positive _) as [v|] eqn:Hv; [|reflexivity].
    destruct (positive_fsub_number _ _ _ Hv) as [Hg [q ->]].
    now rewrite Hg.
Qed.

Lemma step_soundPrice (e : UploadEvent) (ss ss' : Session) :
  step e ss = Some ss' ->
  soundPriceOpt (up_priceIntelligence (ui ss)) = true ->
  soundPriceOpt (up_priceIntelligence (ui ss')) = true.
Proof.
  intros Hstep Hs. destruct e as [name dataUrl| | |k a]; simpl in Hstep.
  - injection Hstep as <-. exact Hs.
  - injection Hstep as <-. unfold handleProcess.
    destruct (up_preview (ui ss)); [reflexivity | exact Hs].
  - injection Hstep as <-. reflexivity.
  - destruct (nth_error (inflight ss) k) as [[|d|d n|d]|]; try discriminate;
      destruct a as [r|r|reply|r]; try discriminate;
      injection Hstep as <-.
    + destruct r; exact Hs.
    + destruct r as [[n|]|]; [reflexivity | exact Hs | exact Hs].
    + simpl. unfold afterSearchReply.
      destruct (searchMarketPriceStreaming (itemName n) reply) as [updates ret].
      apply afterSearch_soundPrice.
      now rewrite fold_progress_priceIntelligence.
    + destruct r as [[c|]|]; exact Hs.
Qed.

(** X5: in every state the screen can reach, a savings opportunity on
    display is strictly positive and comes with a state average that is a
    number: a saving that is not positive, or that was taken against
    something that is not a number, is never shown.  (The state average
    itself can be [NaN] or zero: see [untyped_average_is_stored].) *)
Theorem X5_savings_only_when_positive (es : list UploadEvent) (ss : Session)
  (i : PriceIntelligence)
  (v : number)
  (Hrun : run es (mkSession initialUpload []) = Some ss)
  (Hi : up_priceIntelligence (ui ss) = Some i)
  (Hv : savingsOpportunity i = Some v) :
  JS.gt v (of_Z 0) = true /\ exists a, stateAverage i = Some (Num a).
Proof.
  assert (H : soundPriceOpt (up_priceIntelligence (ui ss)) = true).
  { apply (run_invariant (fun ss => soundPriceOpt (up_priceIntelligence (ui ss)) = true)
             step_soundPrice es _ ss Hrun).
    reflexivity. }
  rewrite Hi in H. simpl in H. unfold soundPrice in H.
  rewrite Hv in H. apply andb_true_iff in H. destruct H as [H2 H3].
  split; [exact H2|].
  destruct (stateAverage i) as [[a|]|]; try discriminate. now exists a.
Qed.

(** The hammer at 400 against a market average of 250. *)
Lemma X5_savings_witness :
  JS.gt (Num 150) (of_Z 0) = true
  /\ exists a,
       stateAverage
         (mkPI "claw-hammer-16oz" "Claw hammer" (of_Z 80) (Some (of_Z 250))
               (Some (Num 150)) (Some []) None (Some (of_Z 50))
               (Some "Price search complete"))
       = Some (Num a).
Proof.
  apply (X5_savings_only_when_positive
           (hammerEvents
            ++ [Arrive 1 (SearchResult
                            (SearchJson (mkPriceJson (of_Z 250) None NaN "") []))])%list
           hammerPriced
           (mkPI "claw-hammer-16oz" "Claw hammer" (of_Z 80) (Some (of_Z 250))
                 (Some (Num 150)) (Some []) None (Some (of_Z 50))
                 (Some "Price search complete"))
           (Num 150)).
  - vm_compute. reflexivity.
  - vm_compute. reflexivity.
  - reflexivity.
Defined.

(* ================================================================= *)
(** ** Duplicate scorer: order and content of the list *)

Lemma fold_visit_eq (Date_getTime : string -> number) (r : ExtractionResult)
  (ps : list PurchaseDocument) :
  forall acc,
    fold_left (visitPurchase Date_getTime r) ps acc
    = (acc ++ map (fun p => mkMatch p (fst (scorePurchase Date_getTime r p))
                               (snd (scorePurchase Date_getTime r p)))
                (filter (passesGate Date_getTime r) ps))%list.
Proof.
  induction ps as [|p ps IH]; intros acc; simpl.
  - now rewrite app_nil_r.
  - rewrite IH. unfold visitPurchase, passesGate.
    destruct (isPotentialDuplicate (scorePurchase Date_getTime r p)); simpl.
    + now rewrite <- app_assoc.
    + reflexivity.
Qed.

Lemma filter_score_insertByScore (s : Z) (m : DuplicateMatch) (l : list DuplicateMatch) :
  filter (fun x => score x =? s) (insertByScore m l)
  = filter (fun x => score x =? s) (m :: l).
Proof.
  induction l as [|h t IH]; simpl; [reflexivity|].
  destruct (Z.leb_spec (score h) (score m)) as [Hle|Hlt]; simpl; [reflexivity|].
  rewrite IH. simpl.
  destruct (Z.eqb_spec (score m) s), (Z.eqb_spec (score h) s); try reflexivity. lia.
Qed.

Lemma filter_score_sortByScore (s : Z) (l : list DuplicateMatch) :
  filter (fun x => score x =? s) (sortByScore l) = filter (fun x => score x =? s) l.
Proof.
  induction l as [|h t IH]; simpl; [reflexivity|].
  rewrite filter_score_insertByScore. simpl. now rewrite IH.
Qed.

Lemma Permutation_insertByScore (m : DuplicateMatch) (l : list DuplicateMatch) :
  Permutation (insertByScore m l) (m :: l).
Proof.
  induction l as [|h t IH]; simpl; [apply Permutation_refl|].
  destruct (score h <=? score m); [apply Permutation_refl|].
  eapply Permutation_trans; [apply perm_skip, IH | apply perm_swap].
Qed.

Lemma Permutation_sortByScore (l : list DuplicateMatch) : Permutation (sortByScore l) l.
Proof.
  induction l as [|h t IH]; simpl; [apply Permutation_refl|].
  eapply Permutation_trans; [apply Permutation_insertByScore | now apply perm_skip].
Qed.

(** X7: the sort is stable.  Among the matches of one score, the records
    come in the order in which [existingPurchases] holds them; together
    with the descending order of the scores this fixes the whole list. *)
Theorem X7_ties_keep_the_order_of_existing
  (Date_getTime : string -> number) (r : ExtractionResult)
  (existing : list PurchaseDocument) (s : Z) :
  map purchase
    (filter (fun m => score m =? s) (duplicateMatches Date_getTime (Some r) existing))
  = filter (fun p => (passesGate Date_getTime r p
                      && (fst (scorePurchase Date_getTime r p) =? s))%bool) existing.
Proof.
  unfold duplicateMatches. rewrite filter_score_sortByScore, fold_visit_eq. simpl.
  induction existing as [|p ps IH]; simpl; [reflexivity|].
  destruct (passesGate Date_getTime r p); simpl; [|exact IH].
  destruct (fst (scorePurchase Date_getTime r p) =? s); simpl; [now rewrite IH | exact IH].
Qed.

(** X8: the list holds every record that passes the gate exactly once and
    nothing else; a listed match scores 60, 70 or 100 and carries two or
    three reasons. *)
Theorem X8_matches_are_the_gated_records
  (Date_getTime : string -> number) (r : ExtractionResult)
  (existing : list PurchaseDocument) :
  Permutation (map purchase (duplicateMatches Date_getTime (Some r) existing))
              (filter (passesGate Date_getTime r) existing)
  /\ (List.length (duplicateMatches Date_getTime (Some r) existing)
      <= List.length existing)%nat
  /\ forall m, In m (duplicateMatches Date_getTime (Some r) existing) ->
       (score m = 60 \/ score m = 70 \/ score m = 100)
       /\ (List.length (reasons m) = 2 \/ List.length (reasons m) = 3)%nat.
Proof.
  assert (Hperm : Permutation
                    (map purchase (duplicateMatches Date_getTime (Some r) existing))
                    (filter (passesGate Date_getTime r) existing)).
  { unfold duplicateMatches.
    eapply Permutation_trans; [apply Permutation_map, Permutation_sortByScore|].
    rewrite fold_visit_eq. simpl. rewrite map_map. simpl. rewrite map_id.
    apply Permutation_refl. }
  split; [exact Hperm | split].
  - rewrite <- (length_map purchase). rewrite (Permutation_length Hperm).
    apply filter_length_le.
  - intros m Hm. apply In_duplicateMatches in Hm.
    destruct Hm as (_ & Hg & Hs & Hr). rewrite Hs, Hr.
    destruct (scorePurchase_checks Date_getTime r (purchase m)) as [Hf Hl].
    apply isPotentialDuplicate_checks in Hg. rewrite Hf, Hl. clear Hf Hl.
    unfold checksMatched in *.
    destruct (vendorMatches r (purchase m)), (amountMatches r (purchase m)),
      (dateMatches Date_getTime r (purchase m)); simpl in *; try lia; auto.
Qed.


(** One percent apart in decimal: the doubles of 70 and 70.70 differ by
    0.7000000000000028, above the threshold 0.7000000000000001, and the
    amount check fails; the pair scores 60 on vendor and date. *)
Example one_percent_apart_in_decimal :
  amountDiff seventy seventySeventy = Num (49258120924365 # 70368744177664)
  /\ amountThreshold seventy = Num (6305039478318695 # 9007199254740992)
  /\ amountMatches seventy seventySeventy = false
  /\ fst (scorePurchase IsoDate.getTime seventy seventySeventy) = 60.
Proof. repeat split; vm_compute; reflexivity. Qed.

(** X10: the date check holds exactly when both dates parse and the two
    instants are at most 60 days apart; a record or a candidate with a date
    that does not parse matches nothing on the date. *)
Theorem X10_date_check_needs_two_valid_dates
  (Date_getTime : string -> number) (r : ExtractionResult) (p : PurchaseDocument) :
  (dateMatches Date_getTime r p = true <->
     exists t1 t2, Date_getTime (date p) = Num t1 /\ Date_getTime (x_date r) = Num t2
                   /\ withinSixtyDays t1 t2)
  /\ (Date_getTime (date p) = NaN \/ Date_getTime (x_date r) = NaN ->
      dateMatches Date_getTime r p = false).
Proof.
  assert (Hiff : dateMatches Date_getTime r p = true <->
                 exists t1 t2, Date_getTime (date p) = Num t1
                               /\ Date_getTime (x_date r) = Num t2
                               /\ withinSixtyDays t1 t2).
  { destruct (Date_getTime (date p)) as [t1|] eqn:H1,
             (Date_getTime (x_date r)) as [t2|] eqn:H2.
    - rewrite (dateMatches_iff Date_getTime r p t1 t2 H1 H2). split.
      + intros H. exists t1, t2. auto.
      + intros (u1 & u2 & [= <-] & [= <-] & H). exact H.
    - unfold dateMatches, daysDiff. rewrite H1, H2. simpl.
      split; [discriminate | intros (u1 & u2 & _ & Hu & _); discriminate].
    - unfold dateMatches, daysDiff. rewrite H1, H2. simpl.
      split; [discriminate | intros (u1 & u2 & Hu & _); discriminate].
    - unfold dateMatches, daysDiff. rewrite H1, H2. simpl.
      split; [discriminate | intros (u1 & u2 & Hu & _); discriminate]. }
  split; [exact Hiff|].
  intros Hn. apply not_true_is_false. intros H.
  apply Hiff in H. destruct H as (t1 & t2 & H1 & H2 & _).
  destruct Hn; congruence.
Qed.

(* ================================================================= *)
(** ** Persistence and navigation: properties *)

(** X11: an update that does not reassign the id never adds, drops or
    reorders a record: the ids of the local list stay as they were, place
    by place, and a record with another id stays whole. *)
Theorem X11_update_keeps_the_list_in_place
  (reply : outcome) (docId : string) (u : PurchaseUpdate) (st : AppState)
  (Hu : u_id u = None) :
  map id (purchases (handleUpdatePurchase reply docId u st)) = map id (purchases st)
  /\ forall i p, nth_error (purchases st) i = Some p -> id p <> docId ->
       nth_error (purchases (handleUpdatePurchase reply docId u st)) i = Some p.
Proof.
  rewrite purchases_handleUpdatePurchase. split.
  - rewrite map_map. apply map_ext. intros p.
    destruct (String.eqb (id p) docId); [|reflexivity].
    unfold spread; simpl. now rewrite Hu.
  - intros i p Hi Hne. rewrite nth_error_map, Hi. simpl.
    destruct (String.eqb_spec (id p) docId); [contradiction | reflexivity].
Qed.

Lemma X11_update_witness :
  map id (purchases (handleUpdatePurchase Fulfilled "p3" (statusUpdate VALIDATED)
                       (appWith [pendingDoc; rejectedDoc])))
  = map id (purchases (appWith [pendingDoc; rejectedDoc]))
  /\ forall i p,
       nth_error (purchases (appWith [pendingDoc; rejectedDoc])) i = Some p ->
       id p <> "p3" ->
       nth_error (purchases (handleUpdatePurchase Fulfilled "p3" (statusUpdate VALIDATED)
                               (appWith [pendingDoc; rejectedDoc]))) i = Some p.
Proof.
  apply (X11_update_keeps_the_list_in_place Fulfilled "p3" (statusUpdate VALIDATED)
           (appWith [pendingDoc; rejectedDoc])).
  reflexivity.
Defined.

(** X12: an update for an id that the local list does not hold changes
    nothing locally, and is sent to the store all the same when the
    application is not in sandbox mode. *)
Theorem X12_update_of_unknown_id_is_still_sent
  (reply : outcome) (docId : string) (u : PurchaseUpdate) (st : AppState)
  (Hnone : lookup docId st = None) :
  purchases (handleUpdatePurchase reply docId u st) = purchases st
  /\ issued (handleUpdatePurchase reply docId u st)
     = if usingMockData st then issued st
       else (issued st ++ [UpdateDoc docId (cleanedUpdates u)])%list.
Proof.
  split; [|apply issued_handleUpdatePurchase].
  rewrite purchases_handleUpdatePurchase.
  rewrite <- (map_id (purchases st)) at 2. apply map_ext_in.
  intros p Hp. unfold lookup in Hnone.
  now rewrite (find_none _ _ Hnone p Hp).
Qed.

Lemma X12_unknown_id_witness :
  purchases (handleUpdatePurchase Fulfilled "gone" (statusUpdate VALIDATED)
               (appWith [pendingDoc]))
  = purchases (appWith [pendingDoc])
  /\ issued (handleUpdatePurchase Fulfilled "gone" (statusUpdate VALIDATED)
               (appWith [pendingDoc]))
     = if usingMockData (appWith [pendingDoc]) then issued (appWith [pendingDoc])
       else (issued (appWith [pendingDoc])
             ++ [UpdateDoc "gone" (cleanedUpdates (statusUpdate VALIDATED))])%list.
Proof.
  apply (X12_update_of_unknown_id_is_still_sent Fulfilled "gone" (statusUpdate VALIDATED)
           (appWith [pendingDoc])).
  reflexivity.
Defined.

Lemma dropUndefined_idem {T} (s : slot T) : dropUndefined (dropUndefined s) = dropUndefined s.
Proof. destruct s; reflexivity. Qed.

Lemma dropUndefined_defined {T} (s : slot T) : isUndefined s = false -> dropUndefined s = s.
Proof. destruct s; [reflexivity | discriminate | reflexivity]. Qed.

(** X13: the payload that reaches the store never carries [undefined];
    cleaning is idempotent and is the identity on an update without
    [undefined], for which the local record and the payload then agree. *)
Theorem X13_payload_never_carries_undefined (u : PurchaseUpdate) :
  hasUndefined (cleanedUpdates u) = false
  /\ cleanedUpdates (cleanedUpdates u) = cleanedUpdates u
  /\ (hasUndefined u = false -> cleanedUpdates u = u)
  /\ (hasUndefined u = false -> forall p, spread p (cleanedUpdates u) = spread p u).
Proof.
  assert (Hid : hasUndefined u = false -> cleanedUpdates u = u).
  { destruct u. unfold hasUndefined, cleanedUpdates. simpl. intros H.
    repeat (apply orb_false_iff in H; destruct H as [H ?]).
    now rewrite !dropUndefined_defined. }
  split; [apply cleanedUpdates_no_undefined | split; [|split]].
  - unfold cleanedUpdates. simpl. now rewrite !dropUndefined_idem.
  - exact Hid.
  - intros H p. now rewrite (Hid H).
Qed.

(** X14: a failed image upload or a failed save never loses the record.
    Whatever the storage and the store answer, the submission adds exactly
    one record at the head of the local list, goes back to the dashboard and
    closes the upload screen; a save is attempted exactly when the
    application is not in sandbox mode, and a failed save switches the
    sandbox mode on. *)
Theorem X14_submission_survives_storage_and_store_failures
  (env : UploadEnv) (data : ExtractionResult) (st : AppState) :
  (exists rec, purchases (handleUploadComplete env data st) = rec :: purchases st)
  /\ activeTab (handleUploadComplete env data st) = "dashboard"
  /\ isAdding (handleUploadComplete env data st) = false
  /\ (exists np,
        issued (handleUploadComplete env data st)
        = if usingMockData st then issued st else (issued st ++ [AddDoc np])%list)
  /\ usingMockData (handleUploadComplete env data st)
     = (usingMockData st
        || negb (usingMockData st)
           && match addDocReply env with Failed => true | Fulfilled => false end)%bool.
Proof.
  destruct (purchases_handleUploadComplete env data st) as (fileUrl & Hp & Hi).
  split; [eexists; exact Hp|].
  split; [reflexivity|]. split; [reflexivity|]. split.
  - exists (newPurchase data (currentUser st) fileUrl (today env)).
    destruct (usingMockData st) eqn:Hm; [|exact (Hi eq_refl)].
    unfold handleUploadComplete. now rewrite Hm.
  - unfold handleUploadComplete.
    destruct (usingMockData st) eqn:Hm; simpl; [exact Hm|].
    destruct (addDocReply env); simpl; [exact Hm | reflexivity].
Qed.

(** X15: the record that a submission creates is never blank and never
    decided: its vendor, description, category, department, submitter and
    ledger code are not empty, its numbers are numbers, it carries as many
    flags as the extraction, no rejection metadata, and a status that is not
    terminal. *)
Theorem X15_created_record_is_filled_in
  (env : UploadEnv) (data : ExtractionResult) (st : AppState) :
  exists rec,
    purchases (handleUploadComplete env data st) = rec :: purchases st
    /\ vendor rec <> "" /\ description rec <> "" /\ category rec <> ""
    /\ department rec <> "" /\ submittedBy rec <> ""
    /\ (exists g, suggestedGlCode rec = Some g /\ g <> "")
    /\ (exists c e, aiConfidence rec = Some (Num c) /\ marketPriceEstimate rec = Some (Num e))
    /\ List.length (flags rec) = List.length (x_flags data)
    /\ anyRejectionMetadata rec = false
    /\ terminal (status rec) = false.
Proof.
  assert (Hs : forall s d, d <> "" -> JS.str_or s d <> "").
  { intros s d Hd. destruct s; simpl; [exact Hd | discriminate]. }
  assert (Hn : forall n, exists q, JS.or_else n (of_Z 0) = Num q).
  { intros n. unfold JS.or_else. destruct (JS.truthy n) eqn:Ht; [|eexists; reflexivity].
    destruct n; [eexists; reflexivity | discriminate]. }
  destruct (purchases_handleUploadComplete env data st) as (fileUrl & Hp & _).
  eexists. split; [exact Hp|]. simpl.
  repeat (split; [apply Hs; discriminate|]).
  split; [eexists; split; [reflexivity | apply Hs; discriminate]|].
  split.
  - destruct (Hn (x_confidence data)) as [c Hc].
    destruct (x_marketPriceEstimate data) as [m|].
    + destruct (Hn m) as [e He]. exists c, e. now rewrite Hc, He.
    + exists c, (inject_Z 0). now rewrite Hc.
  - split; [apply length_map|]. split; [reflexivity|].
    destruct (x_flags data); reflexivity.
Qed.

(** X16: a snapshot replaces the local list wholesale and ends the sandbox
    mode.  After a write that failed or succeeded, the next snapshot leaves
    exactly the documents of the store, under the ids of the store, whatever
    the local list held; the banner goes and the next update is sent again.
    A listener error empties the list. *)
Theorem X16_snapshot_replaces_list_and_ends_sandbox
  (docs : list SnapshotDoc) (todayIso : string)
  (reply : outcome) (docId : string) (u : PurchaseUpdate) (st : AppState) :
  purchases (onSnapshot docs todayIso (handleUpdatePurchase reply docId u st))
  = map (fromSnapshot todayIso) docs
  /\ map id (purchases (onSnapshot docs todayIso (handleUpdatePurchase reply docId u st)))
     = map snap_id docs
  /\ usingMockData (onSnapshot docs todayIso (handleUpdatePurchase reply docId u st)) = false
  /\ sandboxBanner (onSnapshot docs todayIso (handleUpdatePurchase reply docId u st)) = false
  /\ (forall reply' docId' u',
         issued (handleUpdatePurchase reply' docId' u'
                   (onSnapshot docs todayIso (handleUpdatePurchase reply docId u st)))
         = (issued (handleUpdatePurchase reply docId u st)
            ++ [UpdateDoc docId' (cleanedUpdates u')])%list)
  /\ purchases (onSnapshotError (handleUpdatePurchase reply docId u st)) = [].
Proof.
  split; [reflexivity|]. split.
  - simpl. rewrite map_map. reflexivity.
  - split; [reflexivity|]. split; [reflexivity|]. split; [|reflexivity].
    intros reply' docId' u'. rewrite issued_handleUpdatePurchase. reflexivity.
Qed.

Lemma DEMO_ACCOUNTS_reviewer (e : string) (d : User) :
  DEMO_ACCOUNTS e = Some d ->
  user_name d <> "" /\ (user_role d = REVIEWER <-> e = "reviewer@schoolsense.gov").
Proof.
  unfold DEMO_ACCOUNTS.
  destruct (String.eqb_spec e "reviewer@schoolsense.gov") as [->|H1].
  - intros [= <-]. simpl. split; [discriminate | tauto].
  - destruct (String.eqb_spec e "submitter@schoolsense.gov") as [->|H2].
    + intros [= <-]. simpl. split; [discriminate|]. split; [discriminate | contradiction].
    + destruct (String.eqb_spec e "viewer@schoolsense.gov") as [->|H3]; [|discriminate].
      intros [= <-]. simpl. split; [discriminate|]. split; [discriminate | contradiction].
Qed.

Lemma str_or_nonempty (s d : string) : d <> "" -> JS.str_or s d <> "".
Proof. intros Hd. destruct s; simpl; [exact Hd | discriminate]. Qed.

(** X17: a user without a stored profile is made a reviewer only under the
    demo reviewer's e-mail address, and a submitter under every address that
    is not a demo account; the name of the profile is never empty.  The same
    holds of the profile used when the stored one cannot be read. *)
Theorem X17_new_profile_role_and_name (fb : FirebaseUser) :
  (user_role (defaultUser fb) = REVIEWER <-> fb_email fb = Some "reviewer@schoolsense.gov")
  /\ (user_role (localProfile fb) = REVIEWER <->
      fb_email fb = Some "reviewer@schoolsense.gov")
  /\ (DEMO_ACCOUNTS (orEmpty (fb_email fb)) = None ->
      user_role (defaultUser fb) = SUBMITTER /\ user_role (localProfile fb) = SUBMITTER)
  /\ user_name (defaultUser fb) <> ""
  /\ user_name (localProfile fb) <> ""
  /\ user_id (defaultUser fb) = uid fb.
Proof.
  assert (Hrole : forall o : option User,
             o = DEMO_ACCOUNTS (orEmpty (fb_email fb)) ->
             (match o with Some d => user_role d | None => SUBMITTER end = REVIEWER
              <-> fb_email fb = Some "reviewer@schoolsense.gov")).
  { intros o Ho. destruct o as [d|].
    - symmetry in Ho. destruct (DEMO_ACCOUNTS_reviewer _ _ Ho) as [_ ->].
      destruct (fb_email fb) as [e|]; simpl; [|split; discriminate].
      split; [now intros -> | now intros [= ->]].
    - split; [discriminate|]. intros He. rewrite He in Ho. discriminate Ho. }
  unfold defaultUser, localProfile; simpl.
  split; [apply Hrole; reflexivity|]. split; [apply Hrole; reflexivity|].
  split; [intros ->; split; reflexivity|].
  split; [|split; [|reflexivity]].
  - repeat apply str_or_nonempty. discriminate.
  - repeat apply str_or_nonempty. discriminate.
Qed.

(** X18: opening a record shows the review screen for the first record of
    that id and falls back to the dashboard when the list holds none; and a
    reviewer's approval or resolution lands on the dashboard, with the
    sandbox banner exactly when the write failed or the application was in
    sandbox mode before. *)
Theorem X18_review_navigation
  (u : User) (docId : string) (st : AppState)
  (props : ReviewProps) (s : ReviewStatus) (reply : outcome) (rs : ReviewState) :
  renderContent u (handleReview docId st)
  = match lookup docId st with
    | Some p => ReviewScreen p
    | None => DashboardScreen false
    end
  /\ (forall p, lookup docId st = Some p -> id p = docId)
  /\ (isReviewer props = true ->
      renderContent u (fst (handleAction props s reply (st, rs)))
      = DashboardScreen match reply with
                        | Fulfilled => usingMockData st
                        | Failed => true
                        end)
  /\ (isReviewer props = false ->
      fst (handleAction props s reply (st, rs)) = st).
Proof.
  split; [|split; [|split]].
  - unfold renderContent, handleReview. simpl. rewrite andb_false_r. reflexivity.
  - intros p Hp. unfold lookup in Hp. apply find_some in Hp.
    now apply String.eqb_eq.
  - intros Hr. unfold handleAction. rewrite Hr. simpl.
    unfold renderContent. simpl. rewrite andb_false_r.
    now rewrite usingMockData_handleUpdatePurchase.
  - intros Hr. unfold handleAction. now rewrite Hr.
Qed.

(** X19: the record that a submission has just created shows in the
    submitter's own list exactly when the submitter's name is not empty: it
    is filed under that name, or under "Anonymous" when the name is empty,
    and its temporary id never carries the prefix that the list also
    accepts. *)
Theorem X19_new_record_in_my_submissions
  (env : UploadEnv) (data : ExtractionResult) (st : AppState) (u : User)
  (Hu : currentUser st = Some u) :
  exists rec,
    purchases (handleUploadComplete env data st) = rec :: purchases st
    /\ String.prefix "temp-" (id rec) = false
    /\ (In rec (myPurchases u (purchases (handleUploadComplete env data st)))
        <-> user_name u <> "").
Proof.
  destruct (purchases_handleUploadComplete env data st) as (fileUrl & Hp & _).
  eexists. split; [exact Hp|]. split; [reflexivity|].
  unfold myPurchases. rewrite filter_In, Hp. simpl. rewrite Hu.
  rewrite orb_false_r. split.
  - intros [_ H]. apply String.eqb_eq in H. intros Hn. rewrite Hn in H. discriminate H.
  - intros Hn. split; [now left|]. apply String.eqb_eq.
    destruct (user_name u); [contradiction | reflexivity].
Qed.

Lemma X19_new_record_witness :
  exists rec,
    purchases (handleUploadComplete liveEnv staplesNew (appWith []))
    = rec :: purchases (appWith [])
    /\ String.prefix "temp-" (id rec) = false
    /\ (In rec (myPurchases sarah
                  (purchases (handleUploadComplete liveEnv staplesNew (appWith []))))
        <-> user_name sarah <> "").
Proof.
  apply (X19_new_record_in_my_submissions liveEnv staplesNew (appWith []) sarah).
  reflexivity.
Defined.

(* ================================================================= *)
(** ** Review screen: further properties *)

Lemma includes_In (l : list FlagType) (f : FlagType) : includes l f = true <-> In f l.
Proof.
  unfold includes. rewrite existsb_exists. split.
  - intros (g & Hg & H). destruct (FlagType_eq_dec g f); [now subst | discriminate].
  - intros H. exists f. split; [exact H|]. destruct (FlagType_eq_dec f f); congruence.
Qed.

Lemma includes_toggle (f g : FlagType) (rs : ReviewState) :
  includes (rv_selectedRejectionFlags (toggleRejectionFlag f rs)) g
  = if FlagType_eq_dec g f
    then negb (includes (rv_selectedRejectionFlags rs) g)
    else includes (rv_selectedRejectionFlags rs) g.
Proof.
  unfold toggleRejectionFlag. simpl.
  set (l := rv_selectedRejectionFlags rs).
  destruct (includes l f) eqn:Hf.
  - destruct (FlagType_eq_dec g f) as [->|Hne].
    + rewrite Hf. simpl. apply not_true_is_false. intros H.
      apply includes_In, filter_In in H. destruct H as [_ H].
      destruct (FlagType_eq_dec f f); [discriminate | congruence].
    + destruct (includes l g) eqn:Hg.
      * apply includes_In, filter_In. split; [now apply includes_In|].
        destruct (FlagType_eq_dec g f); [contradiction | reflexivity].
      * apply not_true_is_false. intros H.
        apply includes_In, filter_In in H. destruct H as [H _].
        apply includes_In in H. congruence.
  - unfold includes at 1. rewrite existsb_app. simpl. fold (includes l g).
    destruct (FlagType_eq_dec g f) as [->|Hne].
    + rewrite Hf. destruct (FlagType_eq_dec f f); [reflexivity | congruence].
    + destruct (FlagType_eq_dec f g); [congruence|]. now rewrite !orb_false_r.
Qed.

Lemma NoDup_toggle (f : FlagType) (rs : ReviewState) :
  NoDup (rv_selectedRejectionFlags rs) ->
  NoDup (rv_selectedRejectionFlags (toggleRejectionFlag f rs)).
Proof.
  intros Hn. unfold toggleRejectionFlag. simpl.
  destruct (includes (rv_selectedRejectionFlags rs) f) eqn:Hf.
  - now apply NoDup_filter.
  - apply NoDup_app; [exact Hn | repeat constructor; intros [] |].
    intros x Hx [<- | []]. apply includes_In in Hx. congruence.
Qed.

Lemma toggles_parity (fs : list FlagType) (f : FlagType) :
  forall rs,
    includes (rv_selectedRejectionFlags
                (fold_left (fun rs g => toggleRejectionFlag g rs) fs rs)) f
    = xorb (includes (rv_selectedRejectionFlags rs) f)
           (Nat.odd (count_occ FlagType_eq_dec fs f)).
Proof.
  induction fs as [|g fs IH]; intros rs; simpl.
  - now rewrite xorb_false_r.
  - rewrite IH, includes_toggle.
    destruct (FlagType_eq_dec g f) as [->|Hne].
    + destruct (FlagType_eq_dec f f); [|congruence].
      rewrite Nat.odd_succ, <- Nat.negb_odd.
      destruct (includes _ f), (Nat.odd _); reflexivity.
    + destruct (FlagType_eq_dec f g); [congruence | reflexivity].
Qed.

Lemma toggles_NoDup (fs : list FlagType) :
  forall rs, NoDup (rv_selectedRejectionFlags rs) ->
    NoDup (rv_selectedRejectionFlags
             (fold_left (fun rs g => toggleRejectionFlag g rs) fs rs)).
Proof.
  induction fs as [|g fs IH]; intros rs Hn; simpl; [exact Hn|].
  apply IH. now apply NoDup_toggle.
Qed.

(** X20: however the reviewer clicks the reason boxes after opening the
    rejection modal, the selection holds no tag twice, and it holds a tag
    exactly when its box was clicked an odd number of times. *)
Theorem X20_selection_follows_the_clicks
  (fs : list FlagType) (rs : ReviewState) (f : FlagType) :
  NoDup (rv_selectedRejectionFlags
           (fold_left (fun rs g => toggleRejectionFlag g rs) fs (openRejectModal rs)))
  /\ includes (rv_selectedRejectionFlags
                 (fold_left (fun rs g => toggleRejectionFlag g rs) fs (openRejectModal rs)))
       f
     = Nat.odd (count_occ FlagType_eq_dec fs f).
Proof.
  split.
  - apply toggles_NoDup. simpl. constructor.
  - rewrite toggles_parity. reflexivity.
Qed.

(** X21: [handleReject] issues at most one write, and every write it
    issues is a complete rejection: status REJECTED, the selected tags (at
    least one), the reviewer's name and the time stamp, no undefined value,
    and the notes either absent or trimmed and not blank.  A caller who is
    not a reviewer issues nothing. *)
Theorem X21_reject_writes_are_complete
  (props : ReviewProps) (nowIso : string) (reply : outcome)
  (st : AppState) (rs : ReviewState) :
  issued (fst (handleReject props nowIso reply (st, rs))) = issued st
  \/ (isReviewer props = true
      /\ rv_selectedRejectionFlags rs <> []
      /\ exists u,
           issued (fst (handleReject props nowIso reply (st, rs)))
           = (issued st ++ [UpdateDoc (id (item props)) u])%list
           /\ u_status u = Some REJECTED
           /\ u_rejectionFlags u = Value (rv_selectedRejectionFlags rs)
           /\ u_rejectedBy u = Value (user_name (user props))
           /\ u_rejectedAt u = Value nowIso
           /\ hasUndefined u = false
           /\ (u_rejectionNotes u = Absent
               \/ (u_rejectionNotes u = Value (JS.trim (rv_rejectionNotes rs))
                   /\ JS.trim (rv_rejectionNotes rs) <> ""))).
Proof.
  unfold handleReject.
  destruct (isReviewer props) eqn:Hr; simpl; [|now left].
  destruct (rv_selectedRejectionFlags rs) as [|f fs] eqn:Hsel; simpl; [now left|].
  rewrite issued_handleUpdatePurchase.
  destruct (usingMockData st); [now left|]. right.
  split; [reflexivity|]. split; [discriminate|].
  eexists. split; [reflexivity|].
  split; [reflexivity|]. split; [simpl; now rewrite Hsel|].
  split; [reflexivity|]. split; [reflexivity|].
  split; [apply cleanedUpdates_no_undefined|].
  simpl. unfold notesSlot. destruct (JS.trim (rv_rejectionNotes rs)); simpl.
  - now left.
  - right. split; [reflexivity | discriminate].
Qed.

(** X22: for a record with a positive estimate the benchmark panel is
    shown, and its badge follows the 120% mark, give or take a part in
    [10^12] for the rounding of the three operations of [marketDiff]: it
    reads Overpaying only when the amount is more than 120% of the estimate
    less that part, and always when the amount is at least 120% of the
    estimate plus that part.  The amount and the estimate are the values
    that the doubles hold ([at_the_120_percent_mark]). *)
Theorem X22_overpaying_means_more_than_120_percent
  (p : PurchaseDocument) (a e : Q)
  (Ha : amount p = Num a)
  (He : marketPriceEstimate p = Some (Num e))
  (Hpos : (0 < e)%Q) :
  benchmarkShown p = true
  /\ (overpaying p = true -> (((6 # 5) - roundingSlack) * e < a)%Q)
  /\ ((((6 # 5) + roundingSlack) * e <= a)%Q -> overpaying p = true).
Proof.
  assert (Hne : ~ (e == 0)%Q).
  { intros H. rewrite H in Hpos. exact (Qlt_irrefl 0 Hpos). }
  assert (Hz : Qeq_bool e 0 = false).
  { apply not_true_is_false. intros H. apply Qeq_bool_iff in H. contradiction. }
  assert (Hm : marketDiff p
               = Num (JS.double (JS.double (JS.double (a - e) / e) * 100))).
  { unfold marketDiff. rewrite He, Ha.
    unfold of_Z. cbn [JS.truthy JS.fsub JS.fdiv JS.fmul]. rewrite Hz.
    cbn [negb JS.fmul]. reflexivity. }
  split; [|split].
  - unfold benchmarkShown. rewrite He. unfold of_Z. cbn [JS.gt].
    apply negb_true_iff, not_true_is_false. intros H.
    apply Qle_bool_iff in H. change (inject_Z 0) with 0%Q in H. lra.
  - unfold overpaying. rewrite Hm. unfold of_Z. cbn [JS.gt].
    rewrite negb_true_iff, <- not_true_iff_false, Qle_bool_iff.
    change (inject_Z 20) with 20%Q.
    intros H. apply Qnot_le_lt. intros Hle. apply H. clear H.
    unfold roundingSlack in *.
    assert (H1 : (JS.double (a - e)
                  <= (1 + halfUlp) * (((1 # 5) - (1 # 1000000000000)) * e))%Q).
    { apply double_upper; lra. }
    revert H1. generalize (JS.double (a - e)). intros x1 H1.
    assert (Hq : (x1 / e <= (1 + halfUlp) * ((1 # 5) - (1 # 1000000000000)))%Q).
    { apply Qle_shift_div_r; [exact Hpos|]. unfold halfUlp in *. lra. }
    assert (H2 : (JS.double (x1 / e)
                  <= (1 + halfUlp)
                     * ((1 + halfUlp) * ((1 # 5) - (1 # 1000000000000))))%Q).
    { apply double_upper; [unfold halfUlp; lra | exact Hq]. }
    revert H2. generalize (JS.double (x1 / e)). intros x2 H2.
    assert (H3 : (JS.double (x2 * 100)
                  <= (1 + halfUlp)
                     * (100 * ((1 + halfUlp)
                               * ((1 + halfUlp) * ((1 # 5) - (1 # 1000000000000))))))%Q).
    { apply double_upper; unfold halfUlp in *; lra. }
    unfold halfUlp in *. lra.
  - intros Hge. unfold overpaying. rewrite Hm. unfold of_Z. cbn [JS.gt].
    rewrite negb_true_iff, <- not_true_iff_false, Qle_bool_iff.
    change (inject_Z 20) with 20%Q.
    unfold roundingSlack in *.
    assert (H1 : ((1 - halfUlp) * (((1 # 5) + (1 # 1000000000000)) * e)
                  <= JS.double (a - e))%Q).
    { apply double_lower; lra. }
    revert H1. generalize (JS.double (a - e)). intros x1 H1.
    assert (Hq : ((1 - halfUlp) * ((1 # 5) + (1 # 1000000000000)) <= x1 / e)%Q).
    { apply Qle_shift_div_l; [exact Hpos|]. unfold halfUlp in *. lra. }
    assert (H2 : ((1 - halfUlp) * ((1 - halfUlp) * ((1 # 5) + (1 # 1000000000000)))
                  <= JS.double (x1 / e))%Q).
    { apply double_lower; [unfold halfUlp; lra | exact Hq]. }
    revert H2. generalize (JS.double (x1 / e)). intros x2 H2.
    assert (H3 : ((1 - halfUlp)
                  * (100 * ((1 - halfUlp)
                            * ((1 - halfUlp) * ((1 # 5) + (1 # 1000000000000)))))
                  <= JS.double (x2 * 100))%Q).
    { apply double_lower; unfold halfUlp in *; lra. }
    unfold halfUlp in *. lra.
Qed.

(** 130 against an estimate of 100. *)
Lemma X22_overpaying_witness :
  benchmarkShown pricey = true
  /\ (overpaying pricey = true ->
      (((6 # 5) - roundingSlack) * inject_Z 100 < inject_Z 130)%Q)
  /\ ((((6 # 5) + roundingSlack) * inject_Z 100 <= inject_Z 130)%Q ->
      overpaying pricey = true).
Proof.
  apply (X22_overpaying_means_more_than_120_percent pricey (inject_Z 130) (inject_Z 100)).
  - reflexivity.
  - reflexivity.
  - reflexivity.
Defined.

(** At 120% in decimal: 14.40 is held as a double a little above it, the
    deviation from an estimate of 12 comes out as 20.000000000000004, and
    the badge reads Overpaying. *)
Example at_the_120_percent_mark :
  marketDiff atTheMark = Num (5629499534213121 # 281474976710656)
  /\ overpaying atTheMark = true.
Proof. split; vm_compute; reflexivity. Qed.

(* ================================================================= *)
(** ** Receipt storage: properties *)

Lemma includesChar_beforeFirst (c : ascii) (s : string) :
  includesChar c (beforeFirst c s) = false.
Proof.
  induction s as [|a t IH]; simpl; [reflexivity|].
  destruct (Ascii.eqb a c) eqn:Ha; simpl; [reflexivity | now rewrite Ha].
Qed.

Lemma splitOn_fst (c : ascii) (s : string) : fst (splitOn c s) = beforeFirst c s.
Proof.
  induction s as [|a t IH]; simpl; [reflexivity|].
  destruct (splitOn c t) as [h r]. simpl in IH.
  destruct (Ascii.eqb a c); simpl; [reflexivity | now rewrite IH].
Qed.

Lemma splitOn_segments (c : ascii) (s : string) :
  Forall (fun seg => includesChar c seg = false) (snd (splitOn c s)).
Proof.
  induction s as [|a t IH]; simpl; [constructor|].
  pose proof (splitOn_fst c t) as Hf.
  destruct (splitOn c t) as [h r]. simpl in *.
  destruct (Ascii.eqb a c); simpl; [|exact IH].
  constructor; [|exact IH]. rewrite Hf. apply includesChar_beforeFirst.
Qed.

Lemma splitOn_append (c : ascii) (prefix payload : string) :
  includesChar c prefix = false ->
  splitOn c (prefix ++ String c payload)
  = (prefix, fst (splitOn c payload) :: snd (splitOn c payload)).
Proof.
  induction prefix as [|a t IH]; simpl.
  - intros _. rewrite Ascii.eqb_refl. now destruct (splitOn c payload).
  - intros H. apply orb_false_iff in H. destruct H as [Ha Ht].
    rewrite (IH Ht), Ha. reflexivity.
Qed.

Lemma includesChar_append (c : ascii) (s t : string) :
  includesChar c (s ++ t) = (includesChar c s || includesChar c t)%bool.
Proof.
  induction s as [|a s IH]; simpl; [reflexivity|].
  now rewrite IH, orb_assoc.
Qed.

(** X23: the content handed to the storage never holds a comma.  From a
    data URL it is what follows the first comma, up to a second comma if
    there is one; a string without a comma is handed over as it is. *)
Theorem X23_uploaded_content_has_no_data_url_prefix (base64Data prefix payload : string) :
  includesChar "," (base64Content base64Data) = false
  /\ (includesChar "," base64Data = false -> base64Content base64Data = base64Data)
  /\ (includesChar "," prefix = false ->
      base64Content (prefix ++ "," ++ payload) = beforeFirst "," payload)
  /\ (includesChar "," prefix = false -> includesChar "," payload = false ->
      base64Content (prefix ++ "," ++ payload) = payload).
Proof.
  assert (Hpre : includesChar "," prefix = false ->
                 base64Content (prefix ++ "," ++ payload) = beforeFirst "," payload).
  { intros Hp. unfold base64Content.
    rewrite includesChar_append. simpl. rewrite orb_true_r.
    unfold split. change ("," ++ payload) with (String "," payload).
    rewrite (splitOn_append _ _ _ Hp). simpl. apply splitOn_fst. }
  split; [|split; [|split]].
  - unfold base64Content. destruct (includesChar "," base64Data) eqn:Hc; [|exact Hc].
    unfold split. pose proof (splitOn_segments "," base64Data) as Hs.
    destruct (splitOn "," base64Data) as [h r]. simpl in *.
    destruct r as [|x r]; [reflexivity|]. simpl. now inversion Hs.
  - intros Hc. unfold base64Content. now rewrite Hc.
  - exact Hpre.
  - intros Hp Hq. rewrite (Hpre Hp).
    clear Hpre. induction payload as [|a t IH]; simpl in *; [reflexivity|].
    apply orb_false_iff in Hq. destruct Hq as [Ha Ht]. rewrite Ha. now rewrite (IH Ht).
Qed.

(* ================================================================= *)
(** ** Review queue and submitter metrics: properties *)

Lemma tabFilter_one_tab (p : PurchaseDocument) :
  (tabFilter priorityTab p = true /\ tabFilter standardTab p = false
   /\ tabFilter historyTab p = false)
  \/ (tabFilter priorityTab p = false /\ tabFilter standardTab p = true
      /\ tabFilter historyTab p = false)
  \/ (tabFilter priorityTab p = false /\ tabFilter standardTab p = false
      /\ tabFilter historyTab p = true).
Proof.
  unfold tabFilter, statusIs.
  destruct (status p), (JS.gt (amount p) (of_Z 5000)); simpl; tauto.
Qed.

Lemma queueFilter_unfiltered (tab : QueueTab) (all : list PurchaseDocument) :
  queueFilter tab "" "all" all = filter (tabFilter tab) all.
Proof.
  unfold queueFilter. apply filter_ext. intros p. simpl. now rewrite !andb_true_r.
Qed.

(** X24: the three tabs of the review queue split the records: every
    record is listed under exactly one of priority, standard and history,
    so that without search and department filter the three lists together
    have as many entries as there are records. *)
Theorem X24_queue_tabs_partition_the_records (all : list PurchaseDocument) :
  (forall p,
      (tabFilter priorityTab p = true /\ tabFilter standardTab p = false
       /\ tabFilter historyTab p = false)
      \/ (tabFilter priorityTab p = false /\ tabFilter standardTab p = true
          /\ tabFilter historyTab p = false)
      \/ (tabFilter priorityTab p = false /\ tabFilter standardTab p = false
          /\ tabFilter historyTab p = true))
  /\ (List.length (queueFilter priorityTab "" "all" all)
      + List.length (queueFilter standardTab "" "all" all)
      + List.length (queueFilter historyTab "" "all" all)
      = List.length all)%nat
  /\ (forall tab searchQuery dept p,
         In p (queueFilter tab searchQuery dept all) -> In p all /\ tabFilter tab p = true).
Proof.
  split; [exact tabFilter_one_tab | split].
  - rewrite !queueFilter_unfiltered.
    induction all as [|p ps IH]; [reflexivity|].
    cbn [filter].
    destruct (tabFilter_one_tab p) as [(-> & -> & ->) | [(-> & -> & ->) | (-> & -> & ->)]];
      cbn [List.length]; lia.
  - intros tab q dept p Hp. unfold queueFilter in Hp. apply filter_In in Hp.
    destruct Hp as [Hin H]. apply andb_true_iff in H. destruct H as [H _].
    apply andb_true_iff in H. tauto.
Qed.

Lemma statusIs_cases (p : PurchaseDocument) :
  exists b1 b2 b3 b4 b5 : bool,
    statusIs PENDING p = b1 /\ statusIs VALIDATED p = b2 /\ statusIs RESOLVED p = b3
    /\ statusIs FLAGGED p = b4 /\ statusIs REJECTED p = b5
    /\ ((if b1 then 1 else 0) + (if b2 then 1 else 0) + (if b3 then 1 else 0)
        + (if b4 then 1 else 0) + (if b5 then 1 else 0) = 1)%nat.
Proof.
  unfold statusIs. destruct (status p); simpl; repeat eexists.
Qed.

(** X25: the counters of the review queue add up: processed, flagged and
    pending records together are all the records; the processed ones are
    the ones of the history tab; the rejected ones are among them. *)
Theorem X25_queue_counters_add_up (all : list PurchaseDocument) :
  (totalProcessed (queueStats all) + flaggedCount (queueStats all)
   + pendingCount (queueStats all) = List.length all)%nat
  /\ totalProcessed (queueStats all) = List.length (queueFilter historyTab "" "all" all)
  /\ (rejectedCount (queueStats all) <= totalProcessed (queueStats all))%nat.
Proof.
  rewrite queueFilter_unfiltered. unfold queueStats.
  cbn [totalProcessed flaggedCount pendingCount rejectedCount].
  split; [|split; [|lia]].
  - induction all as [|p ps IH]; [reflexivity|].
    cbn [filter].
    destruct (statusIs_cases p) as (b1 & b2 & b3 & b4 & b5 & -> & -> & -> & -> & -> & H).
    destruct b1, b2, b3, b4, b5; cbn [List.length] in *; lia.
  - induction all as [|p ps IH]; [reflexivity|].
    cbn [filter]. unfold tabFilter at 1.
    destruct (statusIs_cases p) as (b1 & b2 & b3 & b4 & b5 & H1 & H2 & H3 & H4 & H5 & H).
    rewrite ?H1, ?H2, ?H3, ?H4, ?H5.
    destruct b1, b2, b3, b4, b5; cbn [List.length orb] in *; lia.
Qed.

(** X26: the approval rate of a submitter is a whole number of percent
    between 0 and 100, and 100 for a submitter who has no record yet. *)
Theorem X26_approval_rate_is_a_percentage (u : User) (all : list PurchaseDocument) :
  (exists z : Z, approvalRate u all = of_Z z /\ 0 <= z <= 100)
  /\ (myPurchases u all = [] -> approvalRate u all = of_Z 100).
Proof.
  unfold approvalRate.
  set (mine := myPurchases u all).
  set (approved := List.length (filter (statusIs VALIDATED) mine)).
  assert (Hle : (approved <= List.length mine)%nat) by apply filter_length_le.
  split.
  - destruct (Nat.ltb_spec 0 (List.length mine)) as [Hpos|Hz].
    + unfold of_Z. cbn [JS.fdiv].
      assert (Ht : (0 < inject_Z (Z.of_nat (List.length mine)))%Q).
      { rewrite <- (Zlt_Qlt 0). lia. }
      assert (Hq : Qeq_bool (inject_Z (Z.of_nat (List.length mine))) 0 = false).
      { apply not_true_is_false. intros H. apply Qeq_bool_iff in H.
        rewrite H in Ht. exact (Qlt_irrefl 0 Ht). }
      rewrite Hq. cbn [JS.fmul JS.round].
      eexists. split; [reflexivity|].
      set (x := (inject_Z (Z.of_nat approved) / inject_Z (Z.of_nat (List.length mine)))%Q).
      assert (H0 : (0 <= x)%Q).
      { unfold x. apply Qle_shift_div_l; [exact Ht|].
        rewrite Qmult_0_l. rewrite <- (Zle_Qle 0). lia. }
      assert (H1 : (x <= 1)%Q).
      { unfold x. apply Qle_shift_div_r; [exact Ht|].
        rewrite Qmult_1_l. rewrite <- Zle_Qle. lia. }
      change (inject_Z 100) with 100%Q.
      assert (Hx : ((1 - halfUlp) * 0 <= JS.double x <= (1 + halfUlp) * 1)%Q).
      { split; [apply double_lower | apply double_upper]; lra. }
      revert Hx. generalize (JS.double x). intros y Hy.
      assert (Hz : ((1 - halfUlp) * 0 <= JS.double (y * 100)
                    <= (1 + halfUlp) * (100 * ((1 + halfUlp) * 1)))%Q).
      { split; [apply double_lower | apply double_upper]; unfold halfUlp in *; lra. }
      revert Hz. generalize (JS.double (y * 100)). intros z Hz.
      unfold halfUlp in *.
      split.
      * apply Z.le_trans with (Qfloor 0); [reflexivity|].
        apply Qfloor_resp_le. lra.
      * apply Z.le_trans with (Qfloor (100 + (3 # 4))); [|vm_compute; discriminate].
        apply Qfloor_resp_le. lra.
    + exists 100. split; [reflexivity | lia].
  - intros Hm. unfold mine in *. now rewrite Hm.
Qed.

(** 23 approved records out of 40: the quotient 0.575 times 100 comes out
    as 57.49999999999999 in doubles, and the rate shown is 57. *)
Example twenty_three_of_forty :
  approvalRate mark (repeat approvedDoc 23 ++ repeat pricey 17)%list = of_Z 57.
Proof. vm_compute. reflexivity. Qed.

(* ================================================================= *)
(** ** Audit log: properties *)

Lemma entriesFor_counts (px : PurchaseDocument * Untyped) :
  countAction A_SUBMITTED (entriesFor px) = 1%nat
  /\ (1 <= List.length (entriesFor px) <= 2)%nat.
Proof.
  destruct px as [p x]. unfold entriesFor, countAction, statusIs.
  destruct (status p); simpl;
    destruct (truthyOpt (resolvedBy x)), (truthyOpt (rejectedBy p)),
      (Nat.ltb 0 (List.length (flags p))); simpl; lia.
Qed.

Lemma entriesFor_asWritten (p : PurchaseDocument) :
  countAction A_APPROVED (entriesFor (p, noUntyped)) = 0%nat
  /\ countAction A_RESOLVED (entriesFor (p, noUntyped)) = 0%nat.
Proof.
  unfold entriesFor, countAction, statusIs.
  destruct (status p); simpl;
    destruct (truthyOpt (rejectedBy p)), (Nat.ltb 0 (List.length (flags p)));
    simpl; split; reflexivity.
Qed.

Lemma countAction_app (a : AuditAction) (l1 l2 : list AuditEntry) :
  countAction a (l1 ++ l2) = (countAction a l1 + countAction a l2)%nat.
Proof. unfold countAction. now rewrite filter_app, length_app. Qed.

(** X27: the audit log has one submission entry for every purchase and at
    most one further entry for it; and for the documents that this
    application writes, which never carry a resolver, it shows no approval
    and no resolution at all, whatever their status. *)
Theorem X27_audit_log_counts
  (allx : list (PurchaseDocument * Untyped)) (all : list PurchaseDocument) :
  countAction A_SUBMITTED (collectAuditEntries allx) = List.length allx
  /\ (List.length allx <= List.length (collectAuditEntries allx) <= 2 * List.length allx)%nat
  /\ countAction A_APPROVED (collectAuditEntries (asWritten all)) = 0%nat
  /\ countAction A_RESOLVED (collectAuditEntries (asWritten all)) = 0%nat.
Proof.
  unfold collectAuditEntries. split; [|split].
  - induction allx as [|px l IH]; [reflexivity|].
    cbn [flat_map]. rewrite countAction_app, IH.
    destruct (entriesFor_counts px) as [-> _]. reflexivity.
  - induction allx as [|px l IH]; [simpl; lia|].
    cbn [flat_map]. rewrite length_app.
    destruct (entriesFor_counts px) as [_ H]. cbn [List.length]. lia.
  - unfold asWritten.
    induction all as [|p l IH]; [split; reflexivity|].
    cbn [map flat_map]. rewrite !countAction_app.
    destruct (entriesFor_asWritten p) as [-> ->]. exact IH.
Qed.

(** X28: a rejection that goes through shows in the audit log: for a
    reviewer with a name, at least one tag ticked, and the record in the
    local list, the log of the resulting list holds a rejection entry for
    that record, made out to the reviewer, stamped with the time of the
    rejection and carrying the selected tags. *)
Theorem X28_rejection_reaches_the_audit_log
  (props : ReviewProps) (nowIso : string) (reply : outcome)
  (st : AppState) (rs : ReviewState) (p : PurchaseDocument)
  (Hrev : isReviewer props = true)
  (Hname : user_name (user props) <> "")
  (Hsel : rv_selectedRejectionFlags rs <> [])
  (Hfound : lookup (id (item props)) st = Some p) :
  exists e,
    In e (collectAuditEntries
            (asWritten (purchases (fst (handleReject props nowIso reply (st, rs))))))
    /\ ae_action e = A_REJECTED
    /\ ae_purchaseId e = id (item props)
    /\ ae_performedBy e = user_name (user props)
    /\ ae_timestamp e = JS.str_or nowIso (date p)
    /\ ae_flags e = Some (map flagName (rv_selectedRejectionFlags rs)).
Proof.
  assert (Hg : goesThrough props rs (Reject nowIso) = true).
  { unfold goesThrough. rewrite Hrev. simpl.
    destruct (rv_selectedRejectionFlags rs); [congruence | reflexivity]. }
  pose proof (lookup_perform props (Reject nowIso) reply st rs Hg) as H.
  cbn [perform] in H. rewrite Hfound in H. cbn [option_map] in H.
  set (p' := spread p (rejectUpdate props rs nowIso)) in *.
  assert (Hin : In p' (purchases (fst (handleReject props nowIso reply (st, rs))))).
  { unfold lookup in H. now apply find_some in H. }
  assert (Hid : id p' = id (item props)).
  { unfold lookup in H. apply find_some in H. now apply String.eqb_eq. }
  exists (mkAuditEntry (id p' ++ "-rejected")
            (JS.str_or (orEmpty (rejectedAt p')) (date p')) A_REJECTED (id p')
            (vendor p') (amount p') (orEmpty (rejectedBy p'))
            (JS.str_or (orEmpty (rejectionNotes p')) "Payment rejected")
            (option_map (map flagName) (rejectionFlags p'))).
  split; [|split; [reflexivity | split; [exact Hid | repeat split]]].
  unfold collectAuditEntries, asWritten. apply in_flat_map.
  exists (p', noUntyped).
  split; [exact (in_map (fun q => (q, noUntyped)) _ _ Hin)|].
  unfold entriesFor, statusIs. simpl.
  destruct (user_name (user props)) eqn:Hn; [contradiction|]. simpl.
  right. now left.
Qed.

Lemma X28_rejection_witness :
  exists e,
    In e (collectAuditEntries
            (asWritten
               (purchases
                  (fst (handleReject (mkReviewProps pendingDoc sarah)
                          "2024-02-01T09:00:00.000Z" Fulfilled
                          (appWith [pendingDoc], wasteTicked))))))
    /\ ae_action e = A_REJECTED
    /\ ae_purchaseId e = id (item (mkReviewProps pendingDoc sarah))
    /\ ae_performedBy e = user_name (user (mkReviewProps pendingDoc sarah))
    /\ ae_timestamp e = JS.str_or "2024-02-01T09:00:00.000Z" (date pendingDoc)
    /\ ae_flags e = Some (map flagName (rv_selectedRejectionFlags wasteTicked)).
Proof.
  apply (X28_rejection_reaches_the_audit_log (mkReviewProps pendingDoc sarah)
           "2024-02-01T09:00:00.000Z" Fulfilled (appWith [pendingDoc]) wasteTicked
           pendingDoc).
  - reflexivity.
  - discriminate.
  - simpl. discriminate.
  - reflexivity.
Defined.

(** X29: an analysis that is outstanding when its receipt is discarded is
    not discarded with it.  When it arrives after the user has chosen
    another file, its result is paired with the preview of that file, and
    the pair can be submitted. *)
Theorem X29_late_analysis_pairs_with_the_new_file
  (ss : Session) (k : nat) (name dataUrl : string) (d : ExtractionResult)
  (Hk : nth_error (inflight ss) k = Some PAnalyze)
  (Hurl : dataUrl <> "") :
  exists ss',
    run [ClickReset; FileLoaded name dataUrl; Arrive k (Analysis (Some d))] ss = Some ss'
    /\ up_result (ui ss') = Some d
    /\ up_preview (ui ss') = Some dataUrl
    /\ handleForceSubmit (ui ss') = Some (d, dataUrl).
Proof.
  eexists. split.
  - cbn [run step ui inflight]. rewrite Hk. reflexivity.
  - split; [reflexivity|]. split; [reflexivity|].
    unfold handleForceSubmit, stagedSubmission. simpl.
    destruct dataUrl; [contradiction | reflexivity].
Qed.

(** The Staples receipt is discarded while its analysis is outstanding, and
    the hammer receipt is chosen. *)
Lemma X29_late_analysis_witness :
  exists ss',
    run [ClickReset; FileLoaded "hammer.jpg" "data:image/jpeg;base64,BBBB";
         Arrive 0 (Analysis (Some staplesNew))]
        (mkSession staplesStaged [PAnalyze]) = Some ss'
    /\ up_result (ui ss') = Some staplesNew
    /\ up_preview (ui ss') = Some "data:image/jpeg;base64,BBBB"
    /\ handleForceSubmit (ui ss') = Some (staplesNew, "data:image/jpeg;base64,BBBB").
Proof.
  apply (X29_late_analysis_pairs_with_the_new_file (mkSession staplesStaged [PAnalyze]) 0
           "hammer.jpg" "data:image/jpeg;base64,BBBB" staplesNew).
  - reflexivity.
  - discriminate.
Defined.

Lemma descending_head_max (h : DuplicateMatch) (t : list DuplicateMatch) :
  descending (h :: t) -> forall m, In m t -> score m <= score h.
Proof.
  revert h. induction t as [|x t IH]; intros h Hd m Hm; [destruct Hm|].
  inversion Hd as [| |? ? ? Hle Hd']; subst.
  destruct Hm as [<- | Hm]; [exact Hle|].
  specialize (IH x Hd' m Hm). lia.
Qed.

(** X6: the matches are listed in descending order of score, so that the
    first match, the one the warning shows on top, has the highest score of
    all. *)
Theorem X6_best_match_comes_first
  (Date_getTime : string -> number) (result : option ExtractionResult)
  (existing : list PurchaseDocument) :
  descending (duplicateMatches Date_getTime result existing)
  /\ forall h t, duplicateMatches Date_getTime result existing = h :: t ->
       forall m, In m t -> score m <= score h.
Proof.
  assert (Hd : descending (duplicateMatches Date_getTime result existing)).
  { destruct result as [r|]; simpl; [apply sortByScore_descending | constructor]. }
  split; [exact Hd|].
  intros h t Heq. rewrite Heq in Hd. now apply descending_head_max.
Qed.
